(** * x-mcp: the multi-user OAuth credential broker

    A shallow embedding of the encryption service (encryption.ts), the
    persistent store (database.ts), the session manager
    (session-manager.ts), the token manager (token-manager.ts) and the
    pairing-status poll of the OAuth flow controller (oauth-manager.ts),
    followed by the properties of the specification that concern them.

    Conventions.
    - A JavaScript string is a sequence of UTF-16 code units, a [Utf16.t].
      The store, the ciphers, the key derivation and the network read a
      string through a UTF-8 encoder, [Utf16.to_utf8], which keeps a
      well-formed string as it is and turns every lone surrogate into
      U+FFFD.  A string past such an encoder, and any well-formed string,
      is given as a [string]: the sequence of its UTF-8 bytes.  Encoding
      it as 'utf8' and decoding a buffer as 'utf8' are then
      [list_byte_of_string] and [string_of_list_byte].  What the program
      splits, joins and compares is defined on [string]; what counts or
      cuts code units ([length], [slice]) on the units, [Utf16.of_utf8].
    - A Node [Buffer] is a [list byte].
    - A JavaScript number holding a timestamp, an id or a duration is a [Z].
    - [Date.now()], [randomBytes], [uuidv4] and the network are not
      functions of the program state: every reading of the clock and every
      random draw is an explicit argument, the authorization server is a
      function from requests to outcomes.
    - A thrown exception or rejected promise is a value of an error type.
    - The primitives of Node's crypto module (the AES-256-CBC cipher keyed
      with the process-wide key, PBKDF2) are Section variables. *)

From Stdlib Require Import ZArith NArith Ascii String Strings.Byte List Lia.
From stdpp Require Import base option list gmap fin_maps strings.

Local Open Scope Z_scope.

(** ** JavaScript strings as UTF-16 code units *)

Module Utf16.
Local Open Scope N_scope.

(** The code units, each below 65536. *)
Definition t := list N.

Definition is_high (u : N) : bool := (0xD800 <=? u) && (u <=? 0xDBFF).
Definition is_low (u : N) : bool := (0xDC00 <=? u) && (u <=? 0xDFFF).

(** Every element is a 16-bit value. *)
Definition units (x : t) : Prop := Forall (fun u => u < 65536) x.

(** [x.isWellFormed()]: no surrogate stands alone. *)
Fixpoint isWellFormed (x : t) : bool :=
  match x with
  | [] => true
  | u :: r =>
      if is_high u then
        match r with
        | v :: r' => is_low v && isWellFormed r'
        | [] => false
        end
      else negb (is_low u) && (u <? 65536) && isWellFormed r
  end.

(** [x.toWellFormed()]: U+FFFD in place of every lone surrogate. *)
Fixpoint toWellFormed (x : t) : t :=
  match x with
  | [] => []
  | u :: r =>
      if is_high u then
        match r with
        | v :: r' =>
            if is_low v then u :: v :: toWellFormed r' else 0xFFFD :: toWellFormed r
        | [] => [0xFFFD]
        end
      else if is_low u then 0xFFFD :: toWellFormed r
      else u :: toWellFormed r
  end.

Definition chr (n : N) : ascii := ascii_of_N n.

(** The three bytes of U+FFFD. *)
Definition replacement (rest : string) : string :=
  String (chr 0xEF) (String (chr 0xBF) (String (chr 0xBD) rest)).

(** [Buffer.from(x, 'utf8')], and every other UTF-8 encoder of the
    platform: a surrogate pair is one code point of four bytes, a lone
    surrogate is encoded as U+FFFD. *)
Fixpoint to_utf8 (x : t) : string :=
  match x with
  | [] => EmptyString
  | u :: r =>
      if u <? 0x80 then String (chr u) (to_utf8 r)
      else if u <? 0x800 then
        String (chr (0xC0 + u / 64)) (String (chr (0x80 + u mod 64)) (to_utf8 r))
      else if is_high u then
        match r with
        | v :: r' =>
            if is_low v then
              let cp := 0x10000 + (u - 0xD800) * 1024 + (v - 0xDC00) in
              String (chr (0xF0 + cp / 262144))
                (String (chr (0x80 + (cp / 4096) mod 64))
                   (String (chr (0x80 + (cp / 64) mod 64))
                      (String (chr (0x80 + cp mod 64)) (to_utf8 r'))))
            else replacement (to_utf8 r)
        | [] => replacement EmptyString
        end
      else if is_low u then replacement (to_utf8 r)
      else
        String (chr (0xE0 + u / 4096))
          (String (chr (0x80 + (u / 64) mod 64))
             (String (chr (0x80 + u mod 64)) (to_utf8 r)))
  end.

Definition between (lo hi : N) (c : ascii) : bool :=
  (lo <=? N_of_ascii c) && (N_of_ascii c <=? hi).

(** The code units of a code point. *)
Definition of_code_point (cp : N) : t :=
  if cp <? 0x10000 then [cp]
  else [0xD800 + (cp - 0x10000) / 1024; 0xDC00 + (cp - 0x10000) mod 1024].

(** [buf.toString('utf8')]: the decoder of the Encoding Standard.  A byte
    that cannot start or continue a sequence ends the sequence read so
    far, which becomes one U+FFFD, and is read again. *)
Fixpoint of_utf8 (s : string) : t :=
  match s with
  | EmptyString => []
  | String c0 r0 =>
      let b0 := N_of_ascii c0 in
      if b0 <? 0x80 then b0 :: of_utf8 r0
      else if (0xC2 <=? b0) && (b0 <=? 0xDF) then
        match r0 with
        | String c1 r1 =>
            if between 0x80 0xBF c1 then
              ((b0 - 0xC0) * 64 + (N_of_ascii c1 - 0x80)) :: of_utf8 r1
            else 0xFFFD :: of_utf8 r0
        | EmptyString => [0xFFFD]
        end
      else if (0xE0 <=? b0) && (b0 <=? 0xEF) then
        match r0 with
        | String c1 r1 =>
            if between (if b0 =? 0xE0 then 0xA0 else 0x80)
                       (if b0 =? 0xED then 0x9F else 0xBF) c1 then
              match r1 with
              | String c2 r2 =>
                  if between 0x80 0xBF c2 then
                    ((b0 - 0xE0) * 4096 + (N_of_ascii c1 - 0x80) * 64
                     + (N_of_ascii c2 - 0x80)) :: of_utf8 r2
                  else 0xFFFD :: of_utf8 r1
              | EmptyString => [0xFFFD]
              end
            else 0xFFFD :: of_utf8 r0
        | EmptyString => [0xFFFD]
        end
      else if (0xF0 <=? b0) && (b0 <=? 0xF4) then
        match r0 with
        | String c1 r1 =>
            if between (if b0 =? 0xF0 then 0x90 else 0x80)
                       (if b0 =? 0xF4 then 0x8F else 0xBF) c1 then
              match r1 with
              | String c2 r2 =>
                  if between 0x80 0xBF c2 then
                    match r2 with
                    | String c3 r3 =>
                        if between 0x80 0xBF c3 then
                          of_code_point
                            ((b0 - 0xF0) * 262144 + (N_of_ascii c1 - 0x80) * 4096
                             + (N_of_ascii c2 - 0x80) * 64 + (N_of_ascii c3 - 0x80))
                          ++ of_utf8 r3
                        else 0xFFFD :: of_utf8 r2
                    | EmptyString => [0xFFFD]
                    end
                  else 0xFFFD :: of_utf8 r1
              | EmptyString => [0xFFFD]
              end
            else 0xFFFD :: of_utf8 r0
        | EmptyString => [0xFFFD]
        end
      else 0xFFFD :: of_utf8 r0
  end.

End Utf16.

(** ** JavaScript string operations *)

Module Js.

(** [s.split(sep)] for a one-character separator: never the empty list. *)
Fixpoint split (sep : ascii) (s : string) : list string :=
  match s with
  | EmptyString => [EmptyString]
  | String c r =>
      if Ascii.eqb c sep then EmptyString :: split sep r
      else match split sep r with
           | h :: t => String c h :: t
           | [] => [String c EmptyString]
           end
  end.

Fixpoint contains (sep : ascii) (s : string) : bool :=
  match s with
  | EmptyString => false
  | String c r => Ascii.eqb c sep || contains sep r
  end.

(** [a.includes(x)] on an array of strings (strict equality). *)
Definition includes (a : list string) (x : string) : bool :=
  existsb (String.eqb x) a.

(** [a.join(sep)]. *)
Definition join (sep : string) (a : list string) : string :=
  String.concat sep a.

(** [s.length]: the number of UTF-16 code units. *)
Definition length (s : string) : nat := List.length (Utf16.of_utf8 s).

(** Truthiness of a string and of an optional number. *)
Definition truthy (s : string) : bool :=
  match s with EmptyString => false | _ => true end.

Definition truthy_num (o : option Z) : bool :=
  match o with Some n => negb (n =? 0) | None => false end.

(** [a || b] where [a] may be undefined. *)
Definition or_else (a : option string) (b : string) : string :=
  match a with
  | Some s => if truthy s then s else b
  | None => b
  end.

Definition or_else_num (a : option Z) (b : Z) : Z :=
  match a with
  | Some n => if n =? 0 then b else n
  | None => b
  end.

(** [a[i]] of a destructuring pattern: undefined past the end. *)
Definition at_index (a : list string) (i : nat) : option string := nth_error a i.

Definition unreserved (c : ascii) : bool :=
  let n := N_of_ascii c in
  ((65 <=? n) && (n <=? 90) || (97 <=? n) && (n <=? 122)
   || (48 <=? n) && (n <=? 57))%N
  || existsb (Ascii.eqb c) (list_ascii_of_string "-_.!~*'()").

Definition upper_hex_digit (n : N) : ascii :=
  match String.get (N.to_nat n) "0123456789ABCDEF" with
  | Some c => c
  | None => "0"%char
  end.

(** [encodeURIComponent(s)]: every byte of the UTF-8 form outside the
    unreserved set becomes a percent escape. *)
Fixpoint encodeURIComponent (s : string) : string :=
  match s with
  | EmptyString => EmptyString
  | String c r =>
      if unreserved c then String c (encodeURIComponent r)
      else let n := N_of_ascii c in
           String "%" (String (upper_hex_digit (n / 16))
             (String (upper_hex_digit (n mod 16)) (encodeURIComponent r)))
  end.

(** [s.slice(0, n)], and [s.slice(n)] or [s.substring(n)], for [0 <= n]
    and a string that starts with [n] ASCII characters. *)
Fixpoint take (n : nat) (s : string) : string :=
  match n, s with
  | S m, String c r => String c (take m r)
  | _, _ => EmptyString
  end.

Fixpoint drop (n : nat) (s : string) : string :=
  match n, s with
  | S m, String _ r => drop m r
  | _, _ => s
  end.

(** [s.startsWith(prefix)]. *)
Fixpoint startsWith (s prefix : string) : bool :=
  match prefix, s with
  | EmptyString, _ => true
  | String p ps, String c r => Ascii.eqb c p && startsWith r ps
  | String _ _, EmptyString => false
  end.

(** [s.charAt(i)]: the empty string past the end. *)
Definition charAt (s : string) (i : nat) : string :=
  match String.get i s with
  | Some c => String c EmptyString
  | None => EmptyString
  end.

(** Truthiness of a value that is a string or undefined, and [a || b] on
    two such values. *)
Definition truthy_value (o : option string) : bool :=
  match o with Some s => truthy s | None => false end.

Definition or_value (a b : option string) : option string :=
  if truthy_value a then a else b.

(** A string or undefined inside a template literal. *)
Definition interpolated (o : option string) : string := default "undefined" o.

(** The longest prefix without [sep]: what [[^sep]*] matches greedily. *)
Fixpoint take_until (sep : ascii) (s : string) : string :=
  match s with
  | EmptyString => EmptyString
  | String c r => if Ascii.eqb c sep then EmptyString else String c (take_until sep r)
  end.

(** [t] is a time value: at most 8.64e15 milliseconds from the epoch.
    [new Date(t)] is the Invalid Date otherwise, and [toISOString] throws
    a RangeError on it. *)
Definition is_time_value (t : Z) : bool := Z.abs t <=? 8640000000000000.

(** A [Date] is its time value; [None] is the Invalid Date. *)
Definition Date : Type := option Z.

Definition new_Date (t : Z) : Date := if is_time_value t then Some t else None.

End Js.

(** ** Buffer encodings *)

Module Buffer.

Local Open Scope N_scope.

Definition hex_digit (n : N) : ascii :=
  match String.get (N.to_nat n) "0123456789abcdef" with
  | Some c => c
  | None => "0"%char
  end.

Definition hex_of_byte (b : byte) : string :=
  let n := Byte.to_N b in
  String (hex_digit (n / 16)) (String (hex_digit (n mod 16)) EmptyString).

(** [buf.toString('hex')]. *)
Fixpoint to_hex (bs : list byte) : string :=
  match bs with
  | [] => EmptyString
  | b :: r => hex_of_byte b +:+ to_hex r
  end.

Definition hex_value (c : ascii) : option N :=
  let n := N_of_ascii c in
  if (48 <=? n) && (n <=? 57) then Some (n - 48)
  else if (97 <=? n) && (n <=? 102) then Some (n - 87)
  else if (65 <=? n) && (n <=? 70) then Some (n - 55)
  else None.

(** [Buffer.from(s, 'hex')]: decoding stops at the first pair that is not
    two hexadecimal digits; a trailing single character is dropped. *)
Fixpoint from_hex (s : string) : list byte :=
  match s with
  | String a (String b r) =>
      match hex_value a, hex_value b with
      | Some x, Some y =>
          match Byte.of_N (16 * x + y) with
          | Some v => v :: from_hex r
          | None => []
          end
      | _, _ => []
      end
  | _ => []
  end.

Definition b64_std : string :=
  "ABCDEFGHIJKLMNOPQRSTUVWXYZabcdefghijklmnopqrstuvwxyz0123456789+/".
Definition b64_url : string :=
  "ABCDEFGHIJKLMNOPQRSTUVWXYZabcdefghijklmnopqrstuvwxyz0123456789-_".

Definition b64_char (alphabet : string) (n : N) : ascii :=
  match String.get (N.to_nat n) alphabet with
  | Some c => c
  | None => "="%char
  end.

Fixpoint to_base64_with (alphabet : string) (pad : bool) (bs : list byte) : string :=
  let ch := b64_char alphabet in
  match bs with
  | [] => EmptyString
  | [a] =>
      let x := Byte.to_N a in
      String (ch (x / 4)) (String (ch ((x mod 4) * 16))
        (if pad then "==" else EmptyString))
  | [a; b] =>
      let x := Byte.to_N a in
      let y := Byte.to_N b in
      String (ch (x / 4)) (String (ch ((x mod 4) * 16 + y / 16))
        (String (ch ((y mod 16) * 4))
           (if pad then "=" else EmptyString)))
  | a :: b :: c :: r =>
      let x := Byte.to_N a in
      let y := Byte.to_N b in
      let z := Byte.to_N c in
      String (ch (x / 4)) (String (ch ((x mod 4) * 16 + y / 16))
        (String (ch ((y mod 16) * 4 + z / 64)) (String (ch (z mod 64))
           (to_base64_with alphabet pad r))))
  end.

(** [buf.toString('base64')] and [buf.toString('base64url')]. *)
Definition to_base64 : list byte -> string := to_base64_with b64_std true.
Definition to_base64url : list byte -> string := to_base64_with b64_url false.

End Buffer.

(** ** Data model (types.ts) *)

Module XConfig.
Record t := mk {
  clientId : string;
  clientSecret : string;
  redirectUri : string;
  hostedMode : option bool;
  baseUrl : option string
}.
End XConfig.

Module TokenData.
Record t := mk {
  access_token : string;
  refresh_token : string;
  expires_at : Z;
  scope : string
}.
End TokenData.

Module User.
Record t := mk {
  id : Z;
  created_at : Z;
  display_name : string;
  x_user_id : string;
  x_username : string
}.
End User.

Module Session.
Record t := mk {
  id : string;
  user_id : Z;
  created_at : Z;
  expires_at : Z;
  session_secret_hash : string
}.
End Session.

Module UserToken.
Record t := mk {
  user_id : Z;
  provider : string;
  x_user_id : string;
  granted_scopes : string;
  access_token : string;
  refresh_token : string;
  expires_at : Z;
  created_at : Z;
  updated_at : Z
}.
End UserToken.

(** The argument of [saveUserTokens]:
    [Omit<UserToken, 'user_id' | 'provider' | 'created_at' | 'updated_at'>]. *)
Module EncryptedTokens.
Record t := mk {
  x_user_id : string;
  granted_scopes : string;
  access_token : string;
  refresh_token : string;
  expires_at : Z
}.
End EncryptedTokens.

(** A row of the table [pairing_sessions]: [user_id INTEGER NULL],
    [completed INTEGER NOT NULL DEFAULT 0]. *)
Module PairingRow.
Record t := mk {
  pairing_code : string;
  created_at : Z;
  expires_at : Z;
  code_verifier : string;
  state : string;
  user_id : option Z;
  completed : Z
}.
End PairingRow.

(** The interface [PairingSession] handed out by the store's readers. *)
Module PairingSession.
Record t := mk {
  pairing_code : string;
  created_at : Z;
  expires_at : Z;
  code_verifier : string;
  state : string;
  user_id : option Z;
  completed : bool
}.
End PairingSession.

Module AuthStatusResponse.
Record user_view := mk_user {
  id : Z;
  display_name : string;
  x_username : string
}.
Record t := mk {
  verified : bool;
  user : option user_view
}.
End AuthStatusResponse.

Inductive AuthErrorCode :=
| auth_reauth_required
| auth_invalid_session
| auth_expired
| auth_scope_insufficient.

Module AuthError.
Record t := mk {
  code : AuthErrorCode;
  message : string;
  login_url : option string;
  missing_scopes : option (list string)
}.
End AuthError.

(** ** Persistent store (database.ts) *)

(** The outcome of running a prepared statement: [SqlFail] is the
    SqliteError that better-sqlite3 throws when a constraint of the
    schema is violated; the statement then changes nothing. *)
Inductive SqlResult (A : Type) :=
| SqlOk (a : A)
| SqlFail (constraint : string).
Arguments SqlOk {A} a.
Arguments SqlFail {A} constraint.

Record XDatabase := mkDb {
  users : gmap Z User.t;
  sessions : gmap string Session.t;
  user_tokens : gmap Z UserToken.t;
  pairing_sessions : gmap string PairingRow.t
}.

Definition set_sessions (db : XDatabase) (m : gmap string Session.t) : XDatabase :=
  mkDb (users db) m (user_tokens db) (pairing_sessions db).
Definition set_user_tokens (db : XDatabase) (m : gmap Z UserToken.t) : XDatabase :=
  mkDb (users db) (sessions db) m (pairing_sessions db).
Definition set_pairing_sessions (db : XDatabase) (m : gmap string PairingRow.t) : XDatabase :=
  mkDb (users db) (sessions db) (user_tokens db) m.

Module Db.

Definition thirty_days : Z := 30 * 24 * 60 * 60 * 1000.
Definition ten_minutes : Z := 10 * 60 * 1000.

(** [SELECT * FROM users WHERE id = ?] *)
Definition getUserById (db : XDatabase) (id : Z) : option User.t :=
  users db !! id.

(** [INSERT INTO sessions ...]: [id] is the primary key, [user_id]
    references [users (id)]. *)
Definition createSession (db : XDatabase) (now : Z) (userId : Z) (sessionId : string)
    (sessionSecretHash : string) (expiresAt : option Z) : SqlResult (XDatabase * Session.t) :=
  let expires := Js.or_else_num expiresAt (now + thirty_days) in
  match sessions db !! sessionId with
  | Some _ => SqlFail "UNIQUE constraint failed: sessions.id"
  | None =>
      match users db !! userId with
      | None => SqlFail "FOREIGN KEY constraint failed"
      | Some _ =>
          let row := Session.mk sessionId userId now expires sessionSecretHash in
          SqlOk (set_sessions db (<[sessionId := row]> (sessions db)), row)
      end
  end.

(** [SELECT * FROM sessions WHERE id = ? AND expires_at > ?] *)
Definition getSession (db : XDatabase) (now : Z) (sessionId : string) : option Session.t :=
  match sessions db !! sessionId with
  | Some row => if Session.expires_at row >? now then Some row else None
  | None => None
  end.

(** [DELETE FROM sessions WHERE id = ?] *)
Definition deleteSession (db : XDatabase) (sessionId : string) : XDatabase :=
  set_sessions db (delete sessionId (sessions db)).

(** [DELETE FROM sessions WHERE expires_at <= ?] *)
Definition cleanupExpiredSessions (db : XDatabase) (now : Z) : XDatabase :=
  set_sessions db
    (filter (fun kv : string * Session.t => ~ Session.expires_at kv.2 <= now) (sessions db)).

(** [INSERT OR REPLACE INTO user_tokens ...] with
    [created_at = COALESCE((SELECT created_at ... WHERE user_id = ?), now)];
    [user_id] references [users (id)]. *)
Definition saveUserTokens (db : XDatabase) (now : Z) (userId : Z)
    (tokenData : EncryptedTokens.t) : SqlResult XDatabase :=
  match users db !! userId with
  | None => SqlFail "FOREIGN KEY constraint failed"
  | Some _ =>
      let created :=
        match user_tokens db !! userId with
        | Some old => UserToken.created_at old
        | None => now
        end in
      let row :=
        UserToken.mk userId "x"
          (EncryptedTokens.x_user_id tokenData)
          (EncryptedTokens.granted_scopes tokenData)
          (EncryptedTokens.access_token tokenData)
          (EncryptedTokens.refresh_token tokenData)
          (EncryptedTokens.expires_at tokenData)
          created now in
      SqlOk (set_user_tokens db (<[userId := row]> (user_tokens db)))
  end.

(** [SELECT * FROM user_tokens WHERE user_id = ?] *)
Definition getUserTokens (db : XDatabase) (userId : Z) : option UserToken.t :=
  user_tokens db !! userId.

(** [DELETE FROM user_tokens WHERE user_id = ?] *)
Definition deleteUserTokens (db : XDatabase) (userId : Z) : XDatabase :=
  set_user_tokens db (delete userId (user_tokens db)).

(** [INSERT INTO pairing_sessions (..., completed) VALUES (..., 0)]:
    [pairing_code] is the primary key, [user_id] is left NULL. *)
Definition createPairingSession (db : XDatabase) (now : Z) (pairingCode codeVerifier state : string)
    (expiresAt : option Z) : SqlResult (XDatabase * PairingSession.t) :=
  let expires := Js.or_else_num expiresAt (now + ten_minutes) in
  match pairing_sessions db !! pairingCode with
  | Some _ => SqlFail "UNIQUE constraint failed: pairing_sessions.pairing_code"
  | None =>
      let row := PairingRow.mk pairingCode now expires codeVerifier state None 0 in
      SqlOk (set_pairing_sessions db (<[pairingCode := row]> (pairing_sessions db)),
             PairingSession.mk pairingCode now expires codeVerifier state None false)
  end.

(** The conversion of a selected row: [user_id: row.user_id || undefined],
    [completed: Boolean(row.completed)]. *)
Definition toPairingSession (row : PairingRow.t) : PairingSession.t :=
  PairingSession.mk
    (PairingRow.pairing_code row) (PairingRow.created_at row) (PairingRow.expires_at row)
    (PairingRow.code_verifier row) (PairingRow.state row)
    (match PairingRow.user_id row with
     | Some u => if u =? 0 then None else Some u
     | None => None
     end)
    (negb (PairingRow.completed row =? 0)).

(** [SELECT * FROM pairing_sessions WHERE pairing_code = ? AND expires_at > ?] *)
Definition getPairingSession (db : XDatabase) (now : Z) (pairingCode : string)
    : option PairingSession.t :=
  match pairing_sessions db !! pairingCode with
  | Some row =>
      if PairingRow.expires_at row >? now then Some (toPairingSession row) else None
  | None => None
  end.

(** [UPDATE pairing_sessions SET user_id = ?, completed = 1
     WHERE pairing_code = ? AND expires_at > ?]; the result carries the
    number of rows changed.  [user_id] references [users (id)]. *)
Definition completePairingSession (db : XDatabase) (now : Z) (pairingCode : string)
    (userId : Z) : SqlResult (XDatabase * Z) :=
  match pairing_sessions db !! pairingCode with
  | Some row =>
      if PairingRow.expires_at row >? now then
        match users db !! userId with
        | None => SqlFail "FOREIGN KEY constraint failed"
        | Some _ =>
            let row' :=
              PairingRow.mk
                (PairingRow.pairing_code row) (PairingRow.created_at row)
                (PairingRow.expires_at row) (PairingRow.code_verifier row)
                (PairingRow.state row) (Some userId) 1 in
            SqlOk (set_pairing_sessions db (<[pairingCode := row']> (pairing_sessions db)), 1)
        end
      else SqlOk (db, 0)
  | None => SqlOk (db, 0)
  end.

(** [DELETE FROM pairing_sessions WHERE pairing_code = ?] *)
Definition deletePairingSession (db : XDatabase) (pairingCode : string) : XDatabase :=
  set_pairing_sessions db (delete pairingCode (pairing_sessions db)).

(** [DELETE FROM pairing_sessions WHERE expires_at <= ?] *)
Definition cleanupExpiredPairingSessions (db : XDatabase) (now : Z) : XDatabase :=
  set_pairing_sessions db
    (filter (fun kv : string * PairingRow.t => ~ PairingRow.expires_at kv.2 <= now)
       (pairing_sessions db)).

(** The database after a statement, whether it ran or threw. *)
Definition after {A : Type} (db : XDatabase) (r : SqlResult (XDatabase * A)) : XDatabase :=
  match r with
  | SqlOk (db', _) => db'
  | SqlFail _ => db
  end.

Definition set_users (db : XDatabase) (m : gmap Z User.t) : XDatabase :=
  mkDb m (sessions db) (user_tokens db) (pairing_sessions db).

(** [SELECT * FROM users WHERE x_user_id = ?], first row.  The column is
    UNIQUE: a store built by [createUser] holds at most one such row. *)
Definition getUserByXUserId (db : XDatabase) (xUserId : string) : option User.t :=
  snd <$> head (map_to_list
    (filter (fun kv : Z * User.t => User.x_user_id kv.2 = xUserId) (users db))).

(** [INSERT INTO users (created_at, display_name, x_user_id, x_username)]:
    [rowid] is the [lastInsertRowid] that SQLite assigns to the new row
    ([id INTEGER PRIMARY KEY AUTOINCREMENT]); [x_user_id] is UNIQUE. *)
Definition createUser (db : XDatabase) (now : Z) (rowid : Z) (xUserId username : string)
    (displayName : option string) : SqlResult (XDatabase * User.t) :=
  match getUserByXUserId db xUserId with
  | Some _ => SqlFail "UNIQUE constraint failed: users.x_user_id"
  | None =>
      match users db !! rowid with
      | Some _ => SqlFail "UNIQUE constraint failed: users.id"
      | None =>
          let row := User.mk rowid now (Js.or_else displayName username) xUserId username in
          SqlOk (set_users db (<[rowid := row]> (users db)), row)
      end
  end.

(** The argument of [updateUser]:
    [Partial<Pick<User, 'display_name' | 'x_username'>>]. *)
Record UserUpdates := mkUpdates {
  upd_display_name : option string;
  upd_x_username : option string
}.

Definition apply_updates (updates : UserUpdates) (u : User.t) : User.t :=
  User.mk (User.id u) (User.created_at u)
    (default (User.display_name u) (upd_display_name updates))
    (User.x_user_id u)
    (default (User.x_username u) (upd_x_username updates)).

(** [UPDATE users SET <the given fields> WHERE id = ?]; no statement is run
    when no field is given. *)
Definition updateUser (db : XDatabase) (id : Z) (updates : UserUpdates) : XDatabase :=
  match upd_display_name updates, upd_x_username updates with
  | None, None => db
  | _, _ => set_users db (alter (apply_updates updates) id (users db))
  end.

(** [SELECT * FROM pairing_sessions WHERE state = ? AND expires_at > ?],
    first row.  Nothing in the schema makes [state] unique; with several
    matching rows SQLite returns the first in table order, which the map
    does not record. *)
Definition selectPairingSessionByState (db : XDatabase) (now : Z) (state : string)
    : option PairingRow.t :=
  snd <$> head (map_to_list
    (filter (fun kv : string * PairingRow.t =>
               PairingRow.state kv.2 = state /\ now < PairingRow.expires_at kv.2)
       (pairing_sessions db))).

Definition getPairingSessionByState (db : XDatabase) (now : Z) (state : string)
    : option PairingSession.t :=
  toPairingSession <$> selectPairingSessionByState db now state.

(** [SELECT COUNT( * ) as count FROM sessions WHERE user_id = ?] *)
Definition getUserSessionCount (db : XDatabase) (userId : Z) : Z :=
  Z.of_nat (size (filter (fun kv : string * Session.t => Session.user_id kv.2 = userId)
                    (sessions db))).

End Db.

(** ** Node's crypto primitives *)

(** [cipher] is [createCipher('aes-256-cbc', key)] followed by [update]
    and [final] on the whole input, with automatic padding; [decipher] is
    the same for [createDecipher], [None] when [final] throws; neither
    takes an initialization vector.  [pbkdf2Sync password salt] stands for
    [pbkdf2Sync(password, salt, 100000, 64, 'sha512')]. *)
Record NodeCrypto := mkCrypto {
  cipher : list byte -> list byte;
  decipher : list byte -> option (list byte);
  pbkdf2Sync : string -> list byte -> list byte
}.

(** ** Encryption service (encryption.ts) *)

Module EncryptionManager.
Section WithCrypto.
Variable crypto : NodeCrypto.

(** [iv] is the value of [randomBytes(16)] drawn by the call.  [data] is
    the plaintext as [cipher.update(data, 'utf8', 'hex')] reads it, its
    UTF-8 bytes: for a string [x] given by its code units, the call is
    [encrypt iv (Utf16.to_utf8 x)]. *)
Definition encrypt (iv : list byte) (data : string) : string :=
  let encrypted := Buffer.to_hex (cipher crypto (list_byte_of_string data)) in
  Buffer.to_hex iv +:+ ":" +:+ encrypted.

(** [None] is the thrown [Error('Decryption failed: ...')].
    [decipher.update(encrypted, 'hex', 'utf8')] rejects a string of odd
    length before decoding it. *)
Definition decrypt (encryptedData : string) : option string :=
  let parts := Js.split ":" encryptedData in
  let ivHex := Js.at_index parts 0 in
  let encrypted := Js.at_index parts 1 in
  match ivHex, encrypted with
  | Some ivHex, Some encrypted =>
      if negb (Js.truthy ivHex) || negb (Js.truthy encrypted) then None
      else
        let iv := Buffer.from_hex ivHex in
        if Nat.odd (Js.length encrypted) then None
        else
          match decipher crypto (Buffer.from_hex encrypted) with
          | Some decrypted => Some (string_of_list_byte decrypted)
          | None => None
          end
  | _, _ => None
  end.

(** [random] is the value of [randomBytes(16)], used when no salt is given. *)
Definition hashPassword (password : string) (salt : option string) (random : list byte)
    : string * string :=
  let saltBuffer :=
    match salt with
    | Some s => if Js.truthy s then Buffer.from_hex s else random
    | None => random
    end in
  let hash := pbkdf2Sync crypto password saltBuffer in
  (Buffer.to_hex hash, Buffer.to_hex saltBuffer).

Definition verifyPassword (password hash salt : string) (random : list byte) : bool :=
  let computed := hashPassword password (Some salt) random in
  String.eqb computed.1 hash.

(** [random] is the value of [randomBytes(length)]. *)
Definition generateSecureToken (random : list byte) : string :=
  Buffer.to_base64url random.

End WithCrypto.

(** [maskToken]: [token.length] and [slice] count and cut UTF-16 code
    units, so the mask of a string with a pair across a cut holds a lone
    surrogate. *)
Definition maskToken (token : Utf16.t) : Utf16.t :=
  if (List.length token <=? 8)%nat then Utf16.of_utf8 "***"
  else firstn 4 token ++ Utf16.of_utf8 "..." ++ skipn (List.length token - 4) token.

End EncryptionManager.

(** ** Errors and transport requests *)

(** What a synchronous call or a flow of the controller can throw: an
    [Error] built by the program with a message, an [AuthError], the
    SqliteError of a failed statement, or the rejection of [fetch]. *)
Inductive JsError :=
| ErrorMessage (message : string)
| AuthErr (e : AuthError.t)
| SqliteError (constraint : string)
| FetchFailed
| EncryptionFailed.

Inductive Result (A : Type) :=
| Returned (a : A)
| Thrown (e : JsError).
Arguments Returned {A} a.
Arguments Thrown {A} e.

(** The part of a transport request that [extractSessionContext] reads:
    [request.meta], its [headers], and the string-valued properties of the
    headers object. *)
Module Request.
Record meta_t := mk_meta {
  headers : option (gmap string string)
}.
Record t := mk {
  meta : option meta_t
}.
End Request.

(** ** Session manager (session-manager.ts) *)

Module SessionManager.
Section WithCrypto.
Variable crypto : NodeCrypto.

(** What one call of [createSession] draws: the uuid, the 32 bytes of the
    secret and the 16 bytes of the salt. *)
Record Draws := mkDraws {
  uuid : string;
  secret_bytes : list byte;
  salt_bytes : list byte
}.

Definition hashSessionSecret (secret : string) (random : list byte) : string :=
  (EncryptionManager.hashPassword crypto secret None random).1.

Definition verifySessionSecret (secret hash : string) (random : list byte) : bool :=
  let parts := Js.split ":" hash in
  match Js.at_index parts 0, Js.at_index parts 1 with
  | Some hashPart, Some saltPart =>
      if negb (Js.truthy saltPart) then
        String.eqb (EncryptionManager.hashPassword crypto secret None random).1 hash
      else EncryptionManager.verifyPassword crypto secret hashPart saltPart random
  | _, _ =>
      String.eqb (EncryptionManager.hashPassword crypto secret None random).1 hash
  end.

Definition createSession (db : XDatabase) (now : Z) (draws : Draws) (userId : Z)
    (expiresAt : option Z) : SqlResult (XDatabase * (string * string)) :=
  let sessionId := uuid draws in
  let sessionSecret := EncryptionManager.generateSecureToken (secret_bytes draws) in
  let sessionSecretHash := hashSessionSecret sessionSecret (salt_bytes draws) in
  match Db.createSession db now userId sessionId sessionSecretHash expiresAt with
  | SqlOk (db', _) => SqlOk (db', (sessionId, sessionSecret))
  | SqlFail c => SqlFail c
  end.

(** [random] is what [randomBytes(16)] returns if the verification asks
    for it. *)
Definition validateSession (db : XDatabase) (now : Z) (random : list byte)
    (sessionId : string) (sessionSecret : option string) : option Session.t :=
  match Db.getSession db now sessionId with
  | None => None
  | Some session =>
      match sessionSecret with
      | None => Some session
      | Some secret =>
          if negb (Js.truthy secret) then Some session
          else if negb (verifySessionSecret secret (Session.session_secret_hash session) random)
          then None
          else Some session
      end
  end.


(** The field [defaultUserId] is an argument of the methods that read it. *)

(** [rowid] is the id SQLite assigns if the local user has to be created. *)
Definition initializeDefaultUser (db : XDatabase) (now rowid : Z) : SqlResult (XDatabase * Z) :=
  match Db.getUserByXUserId db "local_user" with
  | Some user => SqlOk (db, User.id user)
  | None =>
      match Db.createUser db now rowid "local_user" "local_user" (Some "Local User") with
      | SqlOk (db', user) => SqlOk (db', User.id user)
      | SqlFail c => SqlFail c
      end
  end.

Definition getUserFromSession (db : XDatabase) (now : Z) (random : list byte)
    (defaultUserId : option Z) (sessionId sessionSecret : option string) : option User.t :=
  if negb (Js.truthy_value sessionId) then
    if Js.truthy_num defaultUserId then defaultUserId ≫= Db.getUserById db else None
  else
    match validateSession db now random (default EmptyString sessionId) sessionSecret with
    | None => None
    | Some session => Db.getUserById db (Session.user_id session)
    end.

Definition requireUser (db : XDatabase) (now : Z) (random : list byte)
    (defaultUserId : option Z) (sessionId sessionSecret : option string) : Result User.t :=
  match getUserFromSession db now random defaultUserId sessionId sessionSecret with
  | None =>
      Thrown (AuthErr (AuthError.mk auth_invalid_session "Invalid or expired session" None None))
  | Some user => Returned user
  end.

(** [cookie.match(/session=([^;]+)/)]: the capture group of the leftmost
    match, if there is one. *)
Fixpoint match_session (cookie : string) : option string :=
  match cookie with
  | EmptyString => None
  | String _ r =>
      let captured :=
        if Js.startsWith cookie "session=" then Js.take_until ";" (Js.drop 8 cookie)
        else EmptyString in
      if Js.truthy captured then Some captured else match_session r
  end.

Definition extractSessionContext (request : Request.t) : option string * option string :=
  match Request.meta request with
  | None => (None, None)
  | Some meta =>
      let headers := default ∅ (Request.headers meta) in
      let authHeader := Js.or_value (headers !! "authorization") (headers !! "Authorization") in
      if Js.truthy_value authHeader && Js.startsWith (default EmptyString authHeader) "Bearer "
      then
        let token := Js.drop 7 (default EmptyString authHeader) in
        let parts := Js.split ":" token in
        (Js.at_index parts 0, Js.at_index parts 1)
      else
        let cookie := headers !! "cookie" in
        let sessionMatch :=
          if Js.truthy_value cookie then match_session (default EmptyString cookie)
          else None in
        match sessionMatch with
        | Some captured =>
            let parts := Js.split ":" captured in
            (Js.at_index parts 0, Js.at_index parts 1)
        | None => (headers !! "x-session-id", headers !! "x-session-secret")
        end
  end.

Definition one_year : Z := 365 * 24 * 60 * 60 * 1000.

(** [now_call] is the clock reading in the argument of [createSession],
    [now] the one inside the store's insert. *)
Definition createLocalSession (db : XDatabase) (now_call now : Z) (draws : Draws)
    (defaultUserId userId : option Z) : Result (XDatabase * (string * string)) :=
  let targetUserId := if Js.truthy_num userId then userId else defaultUserId in
  match targetUserId with
  | Some target =>
      if target =? 0 then Thrown (ErrorMessage "No user ID available for session creation")
      else
        match createSession db now draws target (Some (now_call + one_year)) with
        | SqlOk r => Returned r
        | SqlFail c => Thrown (SqliteError c)
        end
  | None => Thrown (ErrorMessage "No user ID available for session creation")
  end.
End WithCrypto.
End SessionManager.

(** ** Token manager (token-manager.ts) *)

(** The body sent to the token endpoint and the parsed response. *)
Module TokenRequest.
Record t := mk {
  url : string;
  authorization : string;
  grant_type : string;
  refresh_token : string;
  client_id : string
}.
End TokenRequest.

Module TokenResponse.
Record t := mk {
  access_token : string;
  refresh_token : option string;
  expires_in : Z;
  scope : option string
}.
End TokenResponse.

(** What awaiting [fetch] and then [response.text()] or [response.json()]
    gives. *)
Inductive FetchOutcome :=
| FetchThrows
| ResponseNotOk (errorText : string)
| ResponseOk (body : TokenResponse.t).

(** A settled promise: resolved, rejected with an [AuthError], rejected
    with the SqliteError of a failed statement, or rejected with the
    RangeError ('Invalid time value') of [toISOString]. *)
Inductive Promise (A : Type) :=
| Resolved (a : A)
| Rejected (e : AuthError.t)
| RejectedSql (constraint : string)
| RejectedRange.
Arguments Resolved {A} a.
Arguments Rejected {A} e.
Arguments RejectedSql {A} constraint.
Arguments RejectedRange {A}.

(** The store afterwards, the requests sent to the token endpoint, in
    order, and the settled promise. *)
Record Outcome (A : Type) := mkOutcome {
  db_after : XDatabase;
  sent : list TokenRequest.t;
  settled : Promise A
}.
Arguments mkOutcome {A} db_after sent settled.
Arguments db_after {A} o.
Arguments sent {A} o.
Arguments settled {A} o.

Module TokenManager.

(** The clock readings, the authorization server and the random draws
    that one call of [getValidAccessToken] may consult, in program order. *)
Record Env := mkEnv {
  now_check : Z;
  server : TokenRequest.t -> FetchOutcome;
  now_response : Z;
  iv_access : list byte;
  iv_refresh : list byte;
  now_save : Z
}.

Definition getToolScopes (toolName : string) : list string :=
  if String.eqb toolName "bookmarks.list" then ["bookmark.read"; "bookmarks.read"]
  else if String.eqb toolName "bookmarks.add" || String.eqb toolName "bookmarks.remove"
  then ["bookmark.write"]
  else if String.eqb toolName "tweet.create" then ["tweet.write"]
  else ["users.read"].

Definition checkScopes (grantedScopes : string) (requiredScopes : list string) : list string :=
  let granted := Js.split " " grantedScopes in
  List.filter
    (fun required =>
       if String.eqb required "bookmark.read" then
         negb (Js.includes granted "bookmark.read")
         && negb (Js.includes granted "bookmarks.read")
       else negb (Js.includes granted required))
    requiredScopes.

Definition createAuthError (code : AuthErrorCode) (message : string)
    (loginUrl : option string) (missingScopes : option (list string)) : AuthError.t :=
  AuthError.mk code message loginUrl missingScopes.

Section WithConfig.
Variable crypto : NodeCrypto.
Variable config : XConfig.t.

Definition hosted : option string :=
  match XConfig.hostedMode config, XConfig.baseUrl config with
  | Some true, Some base => if Js.truthy base then Some base else None
  | _, _ => None
  end.

Definition getLoginUrl : string :=
  match hosted with
  | Some base => base +:+ "/auth/start"
  | None => "Please run: npm run auth"
  end.

Definition getReAuthUrl (missingScopes : list string) : string :=
  match hosted with
  | Some base =>
      let scopeParam := Js.join "," missingScopes in
      base +:+ "/auth/start?additional_scopes=" +:+ Js.encodeURIComponent scopeParam
  | None =>
      "Please re-authenticate with additional scopes: " +:+ Js.join ", " missingScopes
  end.

Definition refreshRequest (currentTokens : TokenData.t) : TokenRequest.t :=
  TokenRequest.mk
    "https://api.x.com/2/oauth2/token"
    ("Basic " +:+ Buffer.to_base64 (list_byte_of_string
       (XConfig.clientId config +:+ ":" +:+ XConfig.clientSecret config)))
    "refresh_token"
    (TokenData.refresh_token currentTokens)
    (XConfig.clientId config).

Definition refreshTokens (db : XDatabase) (env : Env) (user : User.t)
    (currentTokens : TokenData.t) : Outcome TokenData.t :=
  let request := refreshRequest currentTokens in
  match server env request with
  | FetchThrows =>
      mkOutcome db [request]
        (Rejected (createAuthError auth_reauth_required
           "Network error during token refresh. Please try again or re-authenticate."
           (Some getLoginUrl) None))
  | ResponseNotOk _ =>
      mkOutcome (Db.deleteUserTokens db (User.id user)) [request]
        (Rejected (createAuthError auth_reauth_required
           "Token refresh failed. Please re-authenticate."
           (Some getLoginUrl) None))
  | ResponseOk tokenResponse =>
      let newTokens :=
        TokenData.mk
          (TokenResponse.access_token tokenResponse)
          (Js.or_else (TokenResponse.refresh_token tokenResponse)
             (TokenData.refresh_token currentTokens))
          (now_response env + TokenResponse.expires_in tokenResponse * 1000)
          (Js.or_else (TokenResponse.scope tokenResponse) (TokenData.scope currentTokens)) in
      let encryptedTokens :=
        EncryptedTokens.mk
          (User.x_user_id user)
          (TokenData.scope newTokens)
          (EncryptionManager.encrypt crypto (iv_access env) (TokenData.access_token newTokens))
          (EncryptionManager.encrypt crypto (iv_refresh env) (TokenData.refresh_token newTokens))
          (TokenData.expires_at newTokens) in
      match Db.saveUserTokens db (now_save env) (User.id user) encryptedTokens with
      | SqlOk db' => mkOutcome db' [request] (Resolved newTokens)
      | SqlFail c => mkOutcome db [request] (RejectedSql c)
      end
  end.

(** The last two statements of [getValidAccessToken]: the log line
    formats [new Date(expires_at).toISOString()], then the access token is
    returned. *)
Definition logged_and_returned (decryptedTokens : TokenData.t) : Promise string :=
  if Js.is_time_value (TokenData.expires_at decryptedTokens)
  then Resolved (TokenData.access_token decryptedTokens)
  else RejectedRange.

Definition getValidAccessToken (db : XDatabase) (env : Env) (user : User.t)
    (requiredScopes : option (list string)) : Outcome string :=
  match Db.getUserTokens db (User.id user) with
  | None =>
      mkOutcome db []
        (Rejected (createAuthError auth_reauth_required
           ("No tokens found for user " +:+ User.x_username user +:+ ". Please authenticate.")
           (Some getLoginUrl) None))
  | Some tokens =>
      match EncryptionManager.decrypt crypto (UserToken.access_token tokens),
            EncryptionManager.decrypt crypto (UserToken.refresh_token tokens) with
      | Some access, Some refresh =>
          let decryptedTokens :=
            TokenData.mk access refresh (UserToken.expires_at tokens)
              (UserToken.granted_scopes tokens) in
          let missingScopes :=
            match requiredScopes with
            | Some required => checkScopes (TokenData.scope decryptedTokens) required
            | None => []
            end in
          if (0 <? length missingScopes)%nat then
            mkOutcome db []
              (Rejected (createAuthError auth_scope_insufficient
                 ("Missing required scopes: " +:+ Js.join ", " missingScopes)
                 (Some (getReAuthUrl missingScopes)) (Some missingScopes)))
          else if now_check env >=? TokenData.expires_at decryptedTokens - 60000 then
            let refreshed := refreshTokens db env user decryptedTokens in
            mkOutcome (db_after refreshed) (sent refreshed)
              match settled refreshed with
              | Resolved newTokens => logged_and_returned newTokens
              | Rejected e => Rejected e
              | RejectedSql c => RejectedSql c
              | RejectedRange => RejectedRange
              end
          else mkOutcome db [] (logged_and_returned decryptedTokens)
      | _, _ =>
          mkOutcome db []
            (Rejected (createAuthError auth_reauth_required
               "Token decryption failed. Please re-authenticate."
               (Some getLoginUrl) None))
      end
  end.

Definition validateToolAccess (db : XDatabase) (env : Env) (user : User.t)
    (toolName : string) : Outcome string :=
  let requiredScopes := getToolScopes toolName in
  getValidAccessToken db env user (Some requiredScopes).


Definition clearUserTokens (db : XDatabase) (userId : Z) : XDatabase :=
  Db.deleteUserTokens db userId.

(** The diagnostic view of [getUserTokenInfo]. *)
Record TokenInfo := mkTokenInfo {
  hasTokens : bool;
  info_scopes : option (list string);
  info_expiresAt : option Js.Date;
  maskedToken : option Utf16.t
}.

Definition getUserTokenInfo (db : XDatabase) (user : User.t) : TokenInfo :=
  match Db.getUserTokens db (User.id user) with
  | None => mkTokenInfo false None None None
  | Some tokens =>
      match EncryptionManager.decrypt crypto (UserToken.access_token tokens) with
      | Some accessToken =>
          mkTokenInfo true
            (Some (Js.split " " (UserToken.granted_scopes tokens)))
            (Some (Js.new_Date (UserToken.expires_at tokens)))
            (Some (EncryptionManager.maskToken (Utf16.of_utf8 accessToken)))
      | None => mkTokenInfo false None None None
      end
  end.

(** The verdict of [validateUserTokens]. *)
Record Verdict := mkVerdict {
  valid : bool;
  reason : option string;
  verdict_missingScopes : option (list string);
  verdict_expiresAt : option Js.Date
}.

Definition validateUserTokens (db : XDatabase) (now : Z) (user : User.t)
    (toolName : option string) : Verdict :=
  match Db.getUserTokens db (User.id user) with
  | None => mkVerdict false (Some "No tokens found") None None
  | Some tokens =>
      match EncryptionManager.decrypt crypto (UserToken.access_token tokens) with
      | None => mkVerdict false (Some "Token decryption failed") None None
      | Some decryptedAccessToken =>
          let isExpired := now >=? UserToken.expires_at tokens - 60000 in
          let missingScopes :=
            if Js.truthy_value toolName then
              checkScopes (UserToken.granted_scopes tokens)
                (getToolScopes (default EmptyString toolName))
            else [] in
          if isExpired && (0 <? length missingScopes)%nat then
            mkVerdict false (Some "Token expired and missing scopes")
              (Some missingScopes) (Some (Js.new_Date (UserToken.expires_at tokens)))
          else if isExpired then
            mkVerdict false (Some "Token expired") None
              (Some (Js.new_Date (UserToken.expires_at tokens)))
          else if (0 <? length missingScopes)%nat then
            mkVerdict false (Some "Missing required scopes") (Some missingScopes) None
          else mkVerdict true None None (Some (Js.new_Date (UserToken.expires_at tokens)))
      end
  end.
End WithConfig.
End TokenManager.

(** ** Messages of the OAuth flows *)

Module AuthStartResponse.
Record t := mk {
  pairing_code : option string;
  login_url : option string;
  authorize_url : option string
}.
End AuthStartResponse.

(** The body sent to the token endpoint for an authorization code, and
    the parsed response.  [response.json()] is read without a check: a
    member is of the type [TokenData] declares for it, or absent
    (undefined, [None]). *)
Module ExchangeRequest.
Record t := mk {
  url : string;
  authorization : string;
  grant_type : string;
  code : string;
  redirect_uri : string;
  code_verifier : string;
  client_id : string
}.
End ExchangeRequest.

Module ExchangeResponse.
Record t := mk {
  access_token : option string;
  refresh_token : option string;
  expires_in : option Z;
  scope : option string
}.
End ExchangeResponse.

(** The object [exchangeCodeForToken] returns, typed [TokenData] by the
    program: a member is undefined when the response lacks it, and
    [expires_at] is NaN ([None]) when [expires_in] is undefined. *)
Module ExchangedTokens.
Record t := mk {
  access_token : option string;
  refresh_token : option string;
  expires_at : option Z;
  scope : option string
}.
End ExchangedTokens.

Inductive ExchangeOutcome :=
| ExchangeThrows
| ExchangeNotOk (errorText : string)
| ExchangeOk (body : ExchangeResponse.t).

(** The [data] member of the identity endpoint's response, read without
    a check as well. *)
Module XUserData.
Record t := mk {
  id : option string;
  username : option string;
  name : option string
}.
End XUserData.

Inductive UserInfoOutcome :=
| UserInfoThrows
| UserInfoNotOk (errorText : string)
| UserInfoOk (data : option XUserData.t).

Module XUser.
Record t := mk {
  id : option string;
  username : option string;
  name : option string
}.
End XUser.

(** ** OAuth flow controller: the status poll (oauth-manager.ts) *)

Module OAuthManager.

Definition checkPairingStatus (db : XDatabase) (now : Z) (pairingCode : string)
    : AuthStatusResponse.t :=
  match Db.getPairingSession db now pairingCode with
  | None => AuthStatusResponse.mk false None
  | Some session =>
      if negb (PairingSession.completed session)
         || negb (Js.truthy_num (PairingSession.user_id session))
      then AuthStatusResponse.mk false None
      else
        match PairingSession.user_id session ≫= Db.getUserById db with
        | None => AuthStatusResponse.mk false None
        | Some user =>
            AuthStatusResponse.mk true
              (Some (AuthStatusResponse.mk_user (User.id user) (User.display_name user)
                       (User.x_username user)))
        end
  end.


Definition pairing_alphabet : string := "ABCDEFGHIJKLMNPQRSTUVWXYZ123456789".

(** [draw i] is the value of [Math.floor(Math.random() * chars.length)] in
    round [i] of the loop. *)
Definition generatePairingCode (draw : nat -> nat) : string :=
  fold_left (fun code i => code +:+ Js.charAt pairing_alphabet (draw i)) (seq 0 8) EmptyString.

(** [random] is the value of [randomBytes(32)]. *)
Definition generateCodeVerifier (random : list byte) : string :=
  Buffer.to_base64url random.

Definition getRequiredScopes : list string :=
  ["users.read"; "tweet.read"; "tweet.write"; "bookmark.read"; "bookmarks.write";
   "offline.access"].

Definition getScopesString : string := Js.join " " getRequiredScopes.

Definition checkRequiredScopes (grantedScopes : string) : list string :=
  let required := getRequiredScopes in
  let granted := Js.split " " grantedScopes in
  List.filter
    (fun scope =>
       if String.eqb scope "bookmark.read" then
         negb (Js.includes granted "bookmark.read")
         && negb (Js.includes granted "bookmarks.read")
       else negb (Js.includes granted scope))
    required.

(** The clock readings, servers and draws of one pass through a callback,
    in program order. *)
Record FlowEnv := mkFlowEnv {
  now_lookup : Z;
  exchange : ExchangeRequest.t -> ExchangeOutcome;
  now_exchange : Z;
  userinfo : string -> UserInfoOutcome;
  rowid : Z;
  now_create : Z;
  iv_access : list byte;
  iv_refresh : list byte;
  now_save : Z;
  now_complete : Z
}.

(** The store afterwards, the requests sent to the token endpoint, and
    what the call returned or threw. *)
Record FlowOutcome (A : Type) := mkFlowOutcome {
  flow_db : XDatabase;
  flow_sent : list ExchangeRequest.t;
  flow_result : Result A
}.
Arguments mkFlowOutcome {A} flow_db flow_sent flow_result.
Arguments flow_db {A} f.
Arguments flow_sent {A} f.
Arguments flow_result {A} f.

Section WithConfig.
Variable crypto : NodeCrypto.
Variable config : XConfig.t.

(** The draws of [startHostedAuth]: the pairing code's, the 32 bytes of
    the verifier and the 16 bytes of the state. *)
Record HostedDraws := mkHostedDraws {
  code_draw : nat -> nat;
  verifier_bytes : list byte;
  state_bytes : list byte
}.

Definition startHostedAuth (db : XDatabase) (now : Z) (draws : HostedDraws)
    : XDatabase * Result AuthStartResponse.t :=
  let pairingCode := generatePairingCode (code_draw draws) in
  let codeVerifier := generateCodeVerifier (verifier_bytes draws) in
  let state := Buffer.to_base64url (state_bytes draws) in
  match Db.createPairingSession db now pairingCode codeVerifier state None with
  | SqlFail c => (db, Thrown (SqliteError c))
  | SqlOk (db', _) =>
      let baseUrl := Js.or_else (XConfig.baseUrl config) "http://localhost:3000" in
      let loginUrl := baseUrl +:+ "/login?pairing_code=" +:+ pairingCode in
      (db', Returned (AuthStartResponse.mk (Some pairingCode) (Some loginUrl) None))
  end.

Definition exchangeRequest (code codeVerifier : string) : ExchangeRequest.t :=
  ExchangeRequest.mk
    "https://api.x.com/2/oauth2/token"
    ("Basic " +:+ Buffer.to_base64 (list_byte_of_string
       (XConfig.clientId config +:+ ":" +:+ XConfig.clientSecret config)))
    "authorization_code"
    code
    (XConfig.redirectUri config)
    codeVerifier
    (XConfig.clientId config).

Definition exchangeCodeForToken (env : FlowEnv) (code codeVerifier : string)
    : Result ExchangedTokens.t :=
  match exchange env (exchangeRequest code codeVerifier) with
  | ExchangeThrows => Thrown FetchFailed
  | ExchangeNotOk error => Thrown (ErrorMessage ("Token exchange failed: " +:+ error))
  | ExchangeOk tokenResponse =>
      Returned (ExchangedTokens.mk
        (ExchangeResponse.access_token tokenResponse)
        (ExchangeResponse.refresh_token tokenResponse)
        ((fun expires_in => now_exchange env + expires_in * 1000)
           <$> ExchangeResponse.expires_in tokenResponse)
        (ExchangeResponse.scope tokenResponse))
  end.

(** [userinfo] is given the token as the header's template literal
    renders it. *)
Definition fetchUserInfo (env : FlowEnv) (accessToken : option string) : Result XUser.t :=
  match userinfo env (Js.interpolated accessToken) with
  | UserInfoThrows => Thrown FetchFailed
  | UserInfoNotOk error => Thrown (ErrorMessage ("Failed to fetch user info: " +:+ error))
  | UserInfoOk None => Thrown (ErrorMessage "Invalid user data response")
  | UserInfoOk (Some data) =>
      Returned (XUser.mk (XUserData.id data) (XUserData.username data)
                  (Js.or_value (XUserData.name data) (XUserData.username data)))
  end.

(** The first column, in the order of the table, that a statement would
    leave NULL. *)
Definition not_null (table : string) (columns : list (string * bool)) : string :=
  match List.filter (fun column => negb column.2) columns with
  | column :: _ => "NOT NULL constraint failed: " +:+ table +:+ "." +:+ column.1
  | [] => EmptyString
  end.

(** The store afterwards comes with the result: a throw after the user
    row was written keeps that row.  An undefined value is bound as NULL:
    the look-up by an undefined X id finds no row, and a statement that
    would put NULL in a NOT NULL column fails; [encrypt] throws on an
    undefined plaintext. *)
Definition storeUserAndTokens (db : XDatabase) (env : FlowEnv) (xUser : XUser.t)
    (tokenData : ExchangedTokens.t) : XDatabase * Result User.t :=
  let insert_fails :=
    not_null "users"
      [("display_name",
         bool_decide (is_Some (Js.or_value (XUser.name xUser) (XUser.username xUser))));
       ("x_user_id", bool_decide (is_Some (XUser.id xUser)));
       ("x_username", bool_decide (is_Some (XUser.username xUser)))] in
  let update_fails :=
    not_null "users"
      [("display_name", bool_decide (is_Some (XUser.name xUser)));
       ("x_username", bool_decide (is_Some (XUser.username xUser)))] in
  match XUser.id xUser with
  | None => (db, Thrown (SqliteError insert_fails))
  | Some xUserId =>
      let found : SqlResult (XDatabase * User.t) :=
        match Db.getUserByXUserId db xUserId with
        | None =>
            match XUser.username xUser with
            | Some username =>
                Db.createUser db (now_create env) (rowid env) xUserId username
                  (XUser.name xUser)
            | None => SqlFail insert_fails
            end
        | Some user =>
            match XUser.username xUser, XUser.name xUser with
            | Some username, Some name =>
                let updates := Db.mkUpdates (Some name) (Some username) in
                SqlOk (Db.updateUser db (User.id user) updates,
                       User.mk (User.id user) (User.created_at user) name
                         (User.x_user_id user) username)
            | _, _ => SqlFail update_fails
            end
        end in
      match found with
      | SqlFail c => (db, Thrown (SqliteError c))
      | SqlOk (db1, user) =>
          match ExchangedTokens.access_token tokenData,
                ExchangedTokens.refresh_token tokenData with
          | Some access_token, Some refresh_token =>
              match ExchangedTokens.scope tokenData, ExchangedTokens.expires_at tokenData with
              | Some scope, Some expires_at =>
                  let encryptedTokens :=
                    EncryptedTokens.mk
                      xUserId
                      scope
                      (EncryptionManager.encrypt crypto (iv_access env) access_token)
                      (EncryptionManager.encrypt crypto (iv_refresh env) refresh_token)
                      expires_at in
                  match Db.saveUserTokens db1 (now_save env) (User.id user) encryptedTokens with
                  | SqlOk db2 => (db2, Returned user)
                  | SqlFail c => (db1, Thrown (SqliteError c))
                  end
              | scope, expires_at =>
                  (db1, Thrown (SqliteError (not_null "user_tokens"
                          [("granted_scopes", bool_decide (is_Some scope));
                           ("expires_at", bool_decide (is_Some expires_at))])))
              end
          | _, _ => (db1, Thrown EncryptionFailed)
          end
      end
  end.

(** The three steps shared by the callbacks: exchange, identity, store. *)
Definition authenticate (db : XDatabase) (env : FlowEnv) (code codeVerifier : string)
    : FlowOutcome (User.t * ExchangedTokens.t) :=
  let request := exchangeRequest code codeVerifier in
  match exchangeCodeForToken env code codeVerifier with
  | Thrown e => mkFlowOutcome db [request] (Thrown e)
  | Returned tokenData =>
      match fetchUserInfo env (ExchangedTokens.access_token tokenData) with
      | Thrown e => mkFlowOutcome db [request] (Thrown e)
      | Returned xUser =>
          match storeUserAndTokens db env xUser tokenData with
          | (db', Thrown e) => mkFlowOutcome db' [request] (Thrown e)
          | (db', Returned user) => mkFlowOutcome db' [request] (Returned (user, tokenData))
          end
      end
  end.

(** Returns [user_id] and [pairing_code]. *)
Definition handleHostedCallback (db : XDatabase) (env : FlowEnv) (code state : string)
    : FlowOutcome (Z * string) :=
  match Db.selectPairingSessionByState db (now_lookup env) state with
  | None => mkFlowOutcome db [] (Thrown (ErrorMessage "Invalid or expired pairing session"))
  | Some pairingSession =>
      let authenticated :=
        authenticate db env code (PairingRow.code_verifier pairingSession) in
      match flow_result authenticated with
      | Thrown e => mkFlowOutcome (flow_db authenticated) (flow_sent authenticated) (Thrown e)
      | Returned (user, _) =>
          let pairingCode := PairingRow.pairing_code pairingSession in
          match Db.completePairingSession (flow_db authenticated) (now_complete env)
                  pairingCode (User.id user) with
          | SqlFail c =>
              mkFlowOutcome (flow_db authenticated) (flow_sent authenticated)
                (Thrown (SqliteError c))
          | SqlOk (db', _) =>
              mkFlowOutcome db' (flow_sent authenticated) (Returned (User.id user, pairingCode))
          end
      end
  end.

(** The query parameters of the redirect, as [url.searchParams.get] gives
    them, and the status code of the page written in response. *)
Record CallbackQuery := mkQuery {
  q_code : option string;
  q_state : option string;
  q_error : option string
}.

Definition handleLoopbackCallback (db : XDatabase) (env : FlowEnv) (query : CallbackQuery)
    (codeVerifier expectedState : string) : Z * FlowOutcome User.t :=
  if Js.truthy_value (q_error query) then
    (400, mkFlowOutcome db []
            (Thrown (ErrorMessage ("Authorization error: " +:+ default EmptyString (q_error query)))))
  else if negb (Js.truthy_value (q_code query)) then
    (400, mkFlowOutcome db [] (Thrown (ErrorMessage "No authorization code received")))
  else if negb (bool_decide (q_state query = Some expectedState)) then
    (400, mkFlowOutcome db [] (Thrown (ErrorMessage "Invalid state parameter")))
  else
    let authenticated :=
      authenticate db env (default EmptyString (q_code query)) codeVerifier in
    match flow_result authenticated with
    | Thrown e =>
        (500, mkFlowOutcome (flow_db authenticated) (flow_sent authenticated) (Thrown e))
    | Returned (user, _) =>
        (200, mkFlowOutcome (flow_db authenticated) (flow_sent authenticated) (Returned user))
    end.

End WithConfig.
End OAuthManager.

(** ** Histories of store operations *)

(** The statements that change the sessions, the token rows and the
    pairing sessions, as the store's methods issue them. *)
Inductive Op :=
| OpCreateSession (userId : Z) (sessionId sessionSecretHash : string) (expiresAt : option Z)
| OpDeleteSession (sessionId : string)
| OpCleanupExpiredSessions
| OpSaveUserTokens (userId : Z) (tokenData : EncryptedTokens.t)
| OpDeleteUserTokens (userId : Z)
| OpCreatePairingSession (pairingCode codeVerifier state : string) (expiresAt : option Z)
| OpCompletePairingSession (pairingCode : string) (userId : Z)
| OpDeletePairingSession (pairingCode : string)
| OpCleanupExpiredPairingSessions.

(** One method call at clock reading [now]; a call that throws leaves the
    store as it was. *)
Definition apply_op (db : XDatabase) (now : Z) (op : Op) : XDatabase :=
  match op with
  | OpCreateSession u sid h e => Db.after db (Db.createSession db now u sid h e)
  | OpDeleteSession sid => Db.deleteSession db sid
  | OpCleanupExpiredSessions => Db.cleanupExpiredSessions db now
  | OpSaveUserTokens u t =>
      match Db.saveUserTokens db now u t with
      | SqlOk db' => db'
      | SqlFail _ => db
      end
  | OpDeleteUserTokens u => Db.deleteUserTokens db u
  | OpCreatePairingSession c v s e => Db.after db (Db.createPairingSession db now c v s e)
  | OpCompletePairingSession c u => Db.after db (Db.completePairingSession db now c u)
  | OpDeletePairingSession c => Db.deletePairingSession db c
  | OpCleanupExpiredPairingSessions => Db.cleanupExpiredPairingSessions db now
  end.

Fixpoint run (db : XDatabase) (history : list (Z * Op)) : XDatabase :=
  match history with
  | [] => db
  | (now, op) :: rest => run (apply_op db now op) rest
  end.

Definition creates_pairing_code (code : string) (op : Op) : Prop :=
  match op with
  | OpCreatePairingSession c _ _ _ => c = code
  | _ => False
  end.

(** ** A stand-in for Node's crypto, to run the definitions on examples *)

(** A block cipher in miniature: PKCS#7 padding to blocks of 16 bytes and a
    byte-wise xor with a fixed key byte; deciphering fails on an input that
    is empty, not a whole number of blocks, or wrongly padded.  The
    stand-in for PBKDF2 prefixes the password with the salt. *)
Module Toy.

Definition byte_of_nat (n : nat) : byte :=
  match Byte.of_N (N.of_nat n) with
  | Some b => b
  | None => x00
  end.

Definition xor_key (b : byte) : byte :=
  match Byte.of_N (N.lxor (Byte.to_N b) 90) with
  | Some v => v
  | None => b
  end.

Definition pad (p : list byte) : list byte :=
  let n := (16 - length p mod 16)%nat in
  p ++ repeat (byte_of_nat n) n.

Definition unpad (c : list byte) : option (list byte) :=
  let n := N.to_nat (Byte.to_N (List.last c x00)) in
  if ((1 <=? n) && (n <=? 16) && (n <=? length c))%nat
  then Some (firstn (length c - n) c)
  else None.

Definition toy_cipher (p : list byte) : list byte := map xor_key (pad p).

Definition toy_decipher (c : list byte) : option (list byte) :=
  if ((0 <? length c) && (length c mod 16 =? 0))%nat
  then unpad (map xor_key c)
  else None.

Definition toy_pbkdf2 (password : string) (salt : list byte) : list byte :=
  salt ++ list_byte_of_string password.

Definition crypto : NodeCrypto := mkCrypto toy_cipher toy_decipher toy_pbkdf2.

End Toy.

(** ** Example stores *)

Module Examples.

Definition alice : User.t := User.mk 1 1000 "Alice Johnson" "user_123" "alice".
Definition bob : User.t := User.mk 2 1000 "Bob Smith" "user_456" "bob".

Definition two_users : XDatabase :=
  mkDb (<[1 := alice]> (<[2 := bob]> ∅)) ∅ ∅ ∅.

Definition local_config : XConfig.t :=
  XConfig.mk "test_client" "test_secret" "http://localhost:3000/callback" None None.

Definition hosted_config : XConfig.t :=
  XConfig.mk "test_client" "test_secret" "http://localhost:3000/callback"
    (Some true) (Some "http://localhost:3000").

Definition sample_iv : list byte :=
  [x00; x01; x02; x03; x04; x05; x06; x07; x08; x09; x0a; x0b; x0c; x0d; x0e; x0f].
Definition other_iv : list byte :=
  [xff; x01; x02; x03; x04; x05; x06; x07; x08; x09; x0a; x0b; x0c; x0d; x0e; x0f].

Definition pending : XDatabase :=
  Db.after two_users
    (Db.createPairingSession two_users 0 "ABCDEFGH" "verifier" "state_123" None).

Definition completed_by_alice : XDatabase :=
  Db.after pending (Db.completePairingSession pending 1000 "ABCDEFGH" 1).

Definition session_draws : SessionManager.Draws :=
  SessionManager.mkDraws "6f1c2d3e-0000-4000-8000-000000000001"
    (sample_iv ++ other_iv) sample_iv.

(** Alice's token row under the stand-in cipher, and the environment of a
    call at a given clock reading. *)
Definition stored_tokens (scopes : string) (expires_at : Z) : UserToken.t :=
  UserToken.mk 1 "x" "user_123" scopes
    (EncryptionManager.encrypt Toy.crypto sample_iv "access-1")
    (EncryptionManager.encrypt Toy.crypto other_iv "refresh-1")
    expires_at 1000 1000.

Definition with_tokens (scopes : string) (expires_at : Z) : XDatabase :=
  set_user_tokens two_users (<[1 := stored_tokens scopes expires_at]> ∅).

Definition server_grants : TokenRequest.t -> FetchOutcome :=
  fun _ => ResponseOk (TokenResponse.mk "access-2" None 7200 None).

Definition server_denies : TokenRequest.t -> FetchOutcome :=
  fun _ => ResponseNotOk "invalid_grant".

Definition env_at (now : Z) (server : TokenRequest.t -> FetchOutcome) : TokenManager.Env :=
  TokenManager.mkEnv now server (now + 1) other_iv sample_iv (now + 2).

(** The pairing row of [pending], and the environment of a hosted
    callback: the servers accept, the identity endpoint names [account],
    and the pairing row is completed at [completes]. *)
Definition pending_row : PairingRow.t :=
  PairingRow.mk "ABCDEFGH" 0 600000 "verifier" "state_123" None 0.

Definition x_accepts : ExchangeRequest.t -> ExchangeOutcome :=
  fun _ => ExchangeOk (ExchangeResponse.mk (Some "access-1") (Some "refresh-1") (Some 7200)
                         (Some "users.read tweet.read")).

(** The reply of a grant without [offline.access]: no refresh token. *)
Definition x_accepts_once : ExchangeRequest.t -> ExchangeOutcome :=
  fun _ => ExchangeOk (ExchangeResponse.mk (Some "access-1") None (Some 7200)
                         (Some "users.read tweet.read")).

Definition x_rejects : ExchangeRequest.t -> ExchangeOutcome :=
  fun _ => ExchangeNotOk "invalid_grant".

Definition alice_renamed : XUserData.t :=
  XUserData.mk (Some "user_123") (Some "alice_new") (Some "Alice J.").
Definition carol : XUserData.t := XUserData.mk (Some "user_789") (Some "carol") None.

Definition flow_env (exchange : ExchangeRequest.t -> ExchangeOutcome) (account : XUserData.t)
    (completes : Z) : OAuthManager.FlowEnv :=
  OAuthManager.mkFlowEnv 1000 exchange 1500 (fun _ => UserInfoOk (Some account))
    3 1600 sample_iv other_iv 1700 completes.

End Examples.

(** ** Vocabulary of the statements *)

(** A pairing row once bound to [userId] and marked completed. *)
Definition bind_row (row : PairingRow.t) (userId : Z) : PairingRow.t :=
  PairingRow.mk (PairingRow.pairing_code row) (PairingRow.created_at row)
    (PairingRow.expires_at row) (PairingRow.code_verifier row) (PairingRow.state row)
    (Some userId) 1.

(** What the status poll shows of a user. *)
Definition view (u : User.t) : AuthStatusResponse.user_view :=
  AuthStatusResponse.mk_user (User.id u) (User.display_name u) (User.x_username u).

(** The pairing session stored under [code] is unexpired at [now],
    completed, and bound to the id of the stored user [u]. *)
Definition completed_for (db : XDatabase) (now : Z) (code : string) (u : User.t) : Prop :=
  exists row uid,
    pairing_sessions db !! code = Some row
    /\ now < PairingRow.expires_at row
    /\ PairingRow.completed row <> 0
    /\ PairingRow.user_id row = Some uid
    /\ users db !! uid = Some u.

(** No session stored under [code] is still alive at [t0]. *)
Definition elapsed (db : XDatabase) (t0 : Z) (code : string) : Prop :=
  forall row, pairing_sessions db !! code = Some row -> PairingRow.expires_at row <= t0.

(** A step of a history taken at [t0] or later that does not start a new
    pairing session under [code]. *)
Definition later_and_not_recreated (t0 : Z) (code : string) (step : Z * Op) : Prop :=
  t0 <= step.1 /\ ~ creates_pairing_code code step.2.

(** The plaintext token record behind a stored row, when both secrets
    decrypt. *)
Definition decrypted (crypto : NodeCrypto) (tokens : UserToken.t) : option TokenData.t :=
  access ← EncryptionManager.decrypt crypto (UserToken.access_token tokens);
  refresh ← EncryptionManager.decrypt crypto (UserToken.refresh_token tokens);
  Some (TokenData.mk access refresh (UserToken.expires_at tokens)
          (UserToken.granted_scopes tokens)).

(** [scope] is one of the space-separated entries of the granted-scope
    string. *)
Definition granted (grantedScopes scope : string) : Prop :=
  scope ∈ Js.split " " grantedScopes.

(** The scopes a call still lacks. *)
Definition missing_for (grantedScopes : string) (requiredScopes : option (list string))
    : list string :=
  match requiredScopes with
  | Some required => TokenManager.checkScopes grantedScopes required
  | None => []
  end.

(** The promise was rejected with [auth_reauth_required] and a login hint. *)
Definition reauth_required {A : Type} (p : Promise A) : Prop :=
  exists e, p = Rejected e
            /\ AuthError.code e = auth_reauth_required
            /\ is_Some (AuthError.login_url e).

(** The token endpoint did not answer the request with a success response. *)
Definition refresh_fails (env : TokenManager.Env) (request : TokenRequest.t) : Prop :=
  forall body, TokenManager.server env request <> ResponseOk body.

(** Every character of [s] satisfies [P]. *)
Fixpoint all_chars (P : ascii -> bool) (s : string) : bool :=
  match s with
  | EmptyString => true
  | String c r => P c && all_chars P r
  end.

(** Letters, digits, [-] and [_]. *)
Definition url_safe (c : ascii) : bool :=
  let n := N_of_ascii c in
  ((65 <=? n) && (n <=? 90) || (97 <=? n) && (n <=? 122)
   || (48 <=? n) && (n <=? 57) || (n =? 45) || (n =? 95))%N.

(** The users table as [createUser] builds it: every row sits under its
    own id, ids are positive, and no two rows share an external id. *)
Definition users_wf (db : XDatabase) : Prop :=
  (forall k u, users db !! k = Some u -> User.id u = k /\ 0 < k)
  /\ (forall k1 k2 u1 u2,
        users db !! k1 = Some u1 -> users db !! k2 = Some u2 ->
        User.x_user_id u1 = User.x_user_id u2 -> k1 = k2).

(** The expiry that [createSession] and [createPairingSession] store:
    the given one, unless it is absent or zero. *)
Definition expiry_or (expiresAt : option Z) (fallback : Z) : Z :=
  match expiresAt with
  | Some e => if decide (e = 0) then fallback else e
  | None => fallback
  end.

(** A character of the pairing alphabet: a capital letter other than [O],
    or a digit other than [0]. *)
Definition pairing_char (c : ascii) : bool :=
  let n := N_of_ascii c in
  ((65 <=? n) && (n <=? 90) && negb (n =? 79) || (49 <=? n) && (n <=? 57))%N.

(** A transport request that carries the given headers. *)
Definition with_headers (headers : gmap string string) : Request.t :=
  Request.mk (Some (Request.mk_meta (Some headers))).

(** The user that stands in when no session id is given. *)
Definition local_user (db : XDatabase) (defaultUserId : option Z) : option User.t :=
  match defaultUserId with
  | Some id => if decide (id = 0) then None else users db !! id
  | None => None
  end.

(** A required scope counts as granted when it is an entry of the granted
    string, or when it is [bookmark.read] and [bookmarks.read] is one. *)
Definition satisfied (grantedScopes scope : string) : Prop :=
  granted grantedScopes scope
  \/ (scope = "bookmark.read" /\ granted grantedScopes "bookmarks.read").

(** Every pairing row sits under its own code. *)
Definition pairing_wf (db : XDatabase) : Prop :=
  forall code row, pairing_sessions db !! code = Some row -> PairingRow.pairing_code row = code.

(** [row], stored under [code], is the only row with its state that is
    still alive at [now]. *)
Definition sole_live_state (db : XDatabase) (now : Z) (code : string) (row : PairingRow.t)
    : Prop :=
  pairing_sessions db !! code = Some row
  /\ now < PairingRow.expires_at row
  /\ forall code' row',
       pairing_sessions db !! code' = Some row' ->
       PairingRow.state row' = PairingRow.state row -> now < PairingRow.expires_at row' ->
       code' = code.

(** The token row that [storeUserAndTokens] writes for [user]. *)
Definition stored_row (crypto : NodeCrypto) (db : XDatabase) (env : OAuthManager.FlowEnv)
    (user : User.t) (tokenData : TokenData.t) : UserToken.t :=
  UserToken.mk (User.id user) "x" (User.x_user_id user) (TokenData.scope tokenData)
    (EncryptionManager.encrypt crypto (OAuthManager.iv_access env)
       (TokenData.access_token tokenData))
    (EncryptionManager.encrypt crypto (OAuthManager.iv_refresh env)
       (TokenData.refresh_token tokenData))
    (TokenData.expires_at tokenData)
    (match user_tokens db !! User.id user with
     | Some old => UserToken.created_at old
     | None => OAuthManager.now_save env
     end)
    (OAuthManager.now_save env).

(** * Properties *)

(** ** Encodings *)

Example split_two : Js.split ":" "ab:cd" = ["ab"; "cd"].
Proof. reflexivity. Qed.

Example split_empty : Js.split ":" "" = [""].
Proof. reflexivity. Qed.

Example split_edges : Js.split ":" ":a:" = [""; "a"; ""].
Proof. reflexivity. Qed.

Example hex_abc : Buffer.to_hex (list_byte_of_string "abc") = "616263".
Proof. reflexivity. Qed.

Example hex_truncates : Buffer.from_hex "61zz62" = list_byte_of_string "a".
Proof. reflexivity. Qed.

Example hex_upper : Buffer.from_hex "4A4b" = list_byte_of_string "JK".
Proof. reflexivity. Qed.

Example base64_foobar : Buffer.to_base64 (list_byte_of_string "foobar") = "Zm9vYmFy".
Proof. reflexivity. Qed.

Example base64_fo : Buffer.to_base64 (list_byte_of_string "fo") = "Zm8=".
Proof. reflexivity. Qed.

Example base64url_f : Buffer.to_base64url (list_byte_of_string "f") = "Zg".
Proof. reflexivity. Qed.

Example base64url_high : Buffer.to_base64url [xfb; xff] = "-_8".
Proof. reflexivity. Qed.

Example encodeURIComponent_comma :
  Js.encodeURIComponent "bookmark.write,tweet.write" = "bookmark.write%2Ctweet.write".
Proof. reflexivity. Qed.

(** ** JavaScript strings: UTF-16 code units and their UTF-8 encoding *)

Section Utf16Properties.
Local Open Scope N_scope.

Ltac nlia := zify; Z.to_euclidean_division_equations; lia.

Ltac ntests :=
  repeat (match goal with
          | |- context [N.ltb ?a ?b] => destruct (N.ltb_spec a b); try nlia
          | |- context [N.leb ?a ?b] => destruct (N.leb_spec a b); try nlia
          | |- context [N.eqb ?a ?b] => destruct (N.eqb_spec a b); try nlia
          end; cbn [andb orb negb]).

Ltac bytes := unfold Utf16.chr, Utf16.between; rewrite ?N_ascii_embedding by nlia.

Lemma of_utf8_1 b r :
  b < 0x80 -> Utf16.of_utf8 (String (Utf16.chr b) r) = b :: Utf16.of_utf8 r.
Proof. intros Hb. cbn [Utf16.of_utf8]. bytes. by ntests. Qed.

Lemma of_utf8_2 a b r :
  2 <= a < 32 -> b < 64 ->
  Utf16.of_utf8 (String (Utf16.chr (0xC0 + a)) (String (Utf16.chr (0x80 + b)) r))
  = (a * 64 + b) :: Utf16.of_utf8 r.
Proof.
  intros Ha Hb.
  remember (String (Utf16.chr (0x80 + b)) r) as r0 eqn:E0.
  cbn [Utf16.of_utf8]. bytes. ntests.
  subst r0. bytes. ntests. f_equal. lia.
Qed.

Lemma of_utf8_3 a b c r :
  a < 16 -> b < 64 -> c < 64 -> (a = 0 -> 32 <= b) -> (a = 13 -> b < 32) ->
  Utf16.of_utf8
    (String (Utf16.chr (0xE0 + a))
       (String (Utf16.chr (0x80 + b)) (String (Utf16.chr (0x80 + c)) r)))
  = (a * 4096 + b * 64 + c) :: Utf16.of_utf8 r.
Proof.
  intros Ha Hb Hc H0 H13.
  remember (String (Utf16.chr (0x80 + c)) r) as r1 eqn:E1.
  remember (String (Utf16.chr (0x80 + b)) r1) as r0 eqn:E0.
  cbn [Utf16.of_utf8]. bytes. ntests.
  all: subst r0; bytes; ntests.
  all: subst r1; bytes; ntests.
  all: f_equal; lia.
Qed.

Lemma of_utf8_4 a b c d r :
  a <= 4 -> b < 64 -> c < 64 -> d < 64 -> (a = 0 -> 16 <= b) -> (a = 4 -> b < 16) ->
  Utf16.of_utf8
    (String (Utf16.chr (0xF0 + a))
       (String (Utf16.chr (0x80 + b))
          (String (Utf16.chr (0x80 + c)) (String (Utf16.chr (0x80 + d)) r))))
  = Utf16.of_code_point (a * 262144 + b * 4096 + c * 64 + d) ++ Utf16.of_utf8 r.
Proof.
  intros Ha Hb Hc Hd H0 H4.
  remember (String (Utf16.chr (0x80 + d)) r) as r2 eqn:E2.
  remember (String (Utf16.chr (0x80 + c)) r2) as r1 eqn:E1.
  remember (String (Utf16.chr (0x80 + b)) r1) as r0 eqn:E0.
  cbn [Utf16.of_utf8]. bytes. ntests.
  all: subst r0; bytes; ntests.
  all: subst r1; bytes; ntests.
  all: subst r2; bytes; ntests.
  all: do 2 f_equal; lia.
Qed.

Lemma of_utf8_replacement r :
  Utf16.of_utf8 (Utf16.replacement r) = 0xFFFD :: Utf16.of_utf8 r.
Proof.
  unfold Utf16.replacement.
  change 0xEF with (0xE0 + 15). change 0xBF with (0x80 + 63). change 0xBD with (0x80 + 61).
  rewrite of_utf8_3 by lia. done.
Qed.

Lemma of_code_point_pair u v :
  0xD800 <= u <= 0xDBFF -> 0xDC00 <= v <= 0xDFFF ->
  Utf16.of_code_point (0x10000 + (u - 0xD800) * 1024 + (v - 0xDC00)) = [u; v].
Proof.
  intros Hu Hv. unfold Utf16.of_code_point. ntests. f_equal; [|f_equal]; nlia.
Qed.

Lemma of_utf8_to_utf8 (x : Utf16.t) :
  Utf16.units x -> Utf16.of_utf8 (Utf16.to_utf8 x) = Utf16.toWellFormed x.
Proof.
  remember (length x) as n eqn:Hn. revert x Hn.
  induction n as [n IH] using lt_wf_ind. intros [|u r] Hn Hx; [done|].
  apply Forall_cons in Hx as [Hu Hr]. simpl in Hn.
  assert (Hrec : Utf16.of_utf8 (Utf16.to_utf8 r) = Utf16.toWellFormed r).
  { apply (IH (length r)); [lia|done|done]. }
  cbn [Utf16.to_utf8 Utf16.toWellFormed]. unfold Utf16.is_high, Utf16.is_low.
  destruct (N.ltb_spec u 0x80) as [H1|H1].
  { rewrite of_utf8_1 by done. ntests. by rewrite Hrec. }
  destruct (N.ltb_spec u 0x800) as [H2|H2].
  { rewrite of_utf8_2 by nlia. ntests. rewrite Hrec. f_equal. nlia. }
  destruct (N.leb_spec 0xD800 u) as [H3|H3]; destruct (N.leb_spec u 0xDBFF) as [H4|H4];
    cbn [andb].
  - destruct r as [|v r'].
    + by rewrite of_utf8_replacement.
    + apply Forall_cons in Hr as [Hv Hr']. unfold Utf16.is_high, Utf16.is_low.
      destruct (N.leb_spec 0xDC00 v) as [H5|H5]; destruct (N.leb_spec v 0xDFFF) as [H6|H6];
        cbn [andb]; try (by rewrite of_utf8_replacement, Hrec).
      cbn zeta.
      set (cp := 0x10000 + (u - 0xD800) * 1024 + (v - 0xDC00)).
      assert (Hcp : cp = (cp / 262144) * 262144 + ((cp / 4096) mod 64) * 4096
                         + ((cp / 64) mod 64) * 64 + cp mod 64) by nlia.
      rewrite of_utf8_4 by (subst cp; nlia).
      rewrite <- Hcp. subst cp. rewrite of_code_point_pair by lia.
      simpl. do 2 f_equal. apply (IH (length r')); [simpl in *; lia|done|done].
  - ntests. all: try (by rewrite of_utf8_replacement, Hrec).
    all: replace (u / 4096) with (u / 64 / 64) by (by rewrite N.Div0.div_div);
      rewrite of_utf8_3 by nlia; rewrite Hrec; f_equal; nlia.
  - ntests. all: try (by rewrite of_utf8_replacement, Hrec).
    all: replace (u / 4096) with (u / 64 / 64) by (by rewrite N.Div0.div_div);
      rewrite of_utf8_3 by nlia; rewrite Hrec; f_equal; nlia.
  - lia.
Qed.

Lemma toWellFormed_isWellFormed (x : Utf16.t) :
  Utf16.isWellFormed x = true -> Utf16.toWellFormed x = x.
Proof.
  remember (length x) as n eqn:Hn. revert x Hn.
  induction n as [n IH] using lt_wf_ind. intros [|u r] Hn; [done|].
  simpl in Hn. cbn [Utf16.isWellFormed Utf16.toWellFormed].
  destruct (Utf16.is_high u).
  - destruct r as [|v r']; [done|]. intros [Hv Hr']%andb_true_iff. rewrite Hv.
    do 2 f_equal. apply (IH (length r')); [simpl in *; lia|done|done].
  - intros [[Hl Hu]%andb_true_iff Hr]%andb_true_iff. apply negb_true_iff in Hl. rewrite Hl.
    f_equal. apply (IH (length r)); [lia|done|done].
Qed.

Lemma isWellFormed_units (x : Utf16.t) : Utf16.isWellFormed x = true -> Utf16.units x.
Proof.
  remember (length x) as n eqn:Hn. revert x Hn.
  induction n as [n IH] using lt_wf_ind. intros [|u r] Hn; [by constructor|].
  simpl in Hn. cbn [Utf16.isWellFormed]. unfold Utf16.is_high at 1.
  destruct (N.leb_spec 0xD800 u) as [H3|H3]; destruct (N.leb_spec u 0xDBFF) as [H4|H4];
    cbn [andb].
  - destruct r as [|v r']; [done|]. intros [Hv Hr']%andb_true_iff.
    unfold Utf16.is_low in Hv. apply andb_true_iff in Hv as [_ Hv%N.leb_le].
    constructor; [lia|]. constructor; [lia|].
    apply (IH (length r')); [simpl in *; lia|done|done].
  - intros [[_ Hu%N.ltb_lt]%andb_true_iff Hr]%andb_true_iff.
    constructor; [done|]. apply (IH (length r)); [lia|done|done].
  - intros [[_ Hu%N.ltb_lt]%andb_true_iff Hr]%andb_true_iff.
    constructor; [done|]. apply (IH (length r)); [lia|done|done].
  - lia.
Qed.

Lemma of_utf8_to_utf8_well_formed (x : Utf16.t) :
  Utf16.isWellFormed x = true -> Utf16.of_utf8 (Utf16.to_utf8 x) = x.
Proof.
  intros H. rewrite of_utf8_to_utf8 by (by apply isWellFormed_units).
  by apply toWellFormed_isWellFormed.
Qed.

Lemma toWellFormed_fixed (x : Utf16.t) :
  Utf16.units x -> Utf16.toWellFormed x = x -> Utf16.isWellFormed x = true.
Proof.
  remember (length x) as n eqn:Hn. revert x Hn.
  induction n as [n IH] using lt_wf_ind. intros [|u r] Hn Hx; [done|].
  apply Forall_cons in Hx as [Hu Hr]. simpl in Hn.
  cbn [Utf16.isWellFormed Utf16.toWellFormed].
  destruct (Utf16.is_high u) eqn:Hhigh.
  - destruct r as [|v r'].
    + intros [= <-]. done.
    + apply Forall_cons in Hr as [Hv Hr'].
      destruct (Utf16.is_low v) eqn:Hlow.
      * intros [= Heq]. simpl. apply (IH (length r')); [simpl in *; lia|done..].
      * intros [= <- _]. done.
  - destruct (Utf16.is_low u) eqn:Hlow.
    + intros [= <- _]. done.
    + intros [= Heq]. simpl. apply N.ltb_lt in Hu. rewrite Hu. simpl.
      apply (IH (length r)); [lia|done..].
Qed.

Lemma to_utf8_pair u v r :
  Utf16.is_high u = true -> Utf16.is_low v = true ->
  Utf16.to_utf8 (u :: v :: r)
  = let cp := 0x10000 + (u - 0xD800) * 1024 + (v - 0xDC00) in
    String (Utf16.chr (0xF0 + cp / 262144))
      (String (Utf16.chr (0x80 + (cp / 4096) mod 64))
         (String (Utf16.chr (0x80 + (cp / 64) mod 64))
            (String (Utf16.chr (0x80 + cp mod 64)) (Utf16.to_utf8 r)))).
Proof.
  intros Hu Hv. remember (v :: r) as r0 eqn:E0.
  cbn [Utf16.to_utf8]. rewrite Hu.
  unfold Utf16.is_high in Hu. apply andb_true_iff in Hu as [Hu%N.leb_le _].
  ntests. subst r0. by rewrite Hv.
Qed.

Lemma to_utf8_toWellFormed (x : Utf16.t) :
  Utf16.to_utf8 (Utf16.toWellFormed x) = Utf16.to_utf8 x.
Proof.
  remember (length x) as n eqn:Hn. revert x Hn.
  induction n as [n IH] using lt_wf_ind. intros [|u r] Hn; [done|].
  simpl in Hn.
  assert (Hrec : Utf16.to_utf8 (Utf16.toWellFormed r) = Utf16.to_utf8 r).
  { by apply (IH (length r)); [lia|]. }
  assert (Hrepl : forall rest, Utf16.to_utf8 (0xFFFD :: rest)
                               = Utf16.replacement (Utf16.to_utf8 rest)) by done.
  assert (Hlone : forall rest,
            Utf16.is_high u || Utf16.is_low u = true ->
            (if u <? 0x80 then String (Utf16.chr u) rest
             else if u <? 0x800 then
               String (Utf16.chr (0xC0 + u / 64)) (String (Utf16.chr (0x80 + u mod 64)) rest)
             else Utf16.replacement rest) = Utf16.replacement rest).
  { intros rest Hs. unfold Utf16.is_high, Utf16.is_low in Hs.
    destruct (N.ltb_spec u 0x80);
      [apply orb_true_iff in Hs as [[?%N.leb_le _]%andb_true_iff|[?%N.leb_le _]%andb_true_iff];
       lia|].
    destruct (N.ltb_spec u 0x800); [|done].
    apply orb_true_iff in Hs as [[?%N.leb_le _]%andb_true_iff|[?%N.leb_le _]%andb_true_iff];
      lia. }
  cbn [Utf16.toWellFormed].
  destruct (Utf16.is_high u) eqn:Hhigh.
  - destruct r as [|v r'].
    + rewrite Hrepl. cbn [Utf16.to_utf8]. rewrite Hhigh. by rewrite Hlone by done.
    + destruct (Utf16.is_low v) eqn:Hlow.
      * rewrite !to_utf8_pair by done.
        rewrite (IH (length r')) by (simpl in *; lia || done). done.
      * rewrite Hrepl, Hrec. cbn [Utf16.to_utf8]. rewrite Hhigh, Hlow.
        by rewrite Hlone by done.
  - destruct (Utf16.is_low u) eqn:Hlow.
    + rewrite Hrepl, Hrec. cbn [Utf16.to_utf8]. rewrite Hhigh, Hlow.
      by rewrite Hlone by done.
    + cbn [Utf16.to_utf8]. rewrite Hhigh, Hlow, Hrec. done.
Qed.

(** Two strings have the same UTF-8 encoding exactly when they differ
    only in their lone surrogates. *)
Lemma to_utf8_eq (x y : Utf16.t) :
  Utf16.units x -> Utf16.units y ->
  Utf16.to_utf8 x = Utf16.to_utf8 y <-> Utf16.toWellFormed x = Utf16.toWellFormed y.
Proof.
  intros Hx Hy. split; intros H.
  - by rewrite <- !of_utf8_to_utf8, H.
  - by rewrite <- (to_utf8_toWellFormed x), <- (to_utf8_toWellFormed y), H.
Qed.

End Utf16Properties.

Lemma of_utf8_hex_of_byte b s :
  Utf16.of_utf8 (Buffer.hex_of_byte b +:+ s)
  = Utf16.of_utf8 (Buffer.hex_of_byte b) ++ Utf16.of_utf8 s
  /\ length (Utf16.of_utf8 (Buffer.hex_of_byte b)) = 2%nat.
Proof. destruct b; split; reflexivity. Qed.

Lemma split_no_sep sep s : Js.contains sep s = false -> Js.split sep s = [s].
Proof.
  induction s as [|c r IH]; simpl; [done|].
  destruct (Ascii.eqb c sep); simpl; [done|].
  intros Hr. by rewrite (IH Hr).
Qed.

Lemma split_app_sep sep s t :
  Js.contains sep s = false ->
  Js.split sep (s +:+ String sep t) = s :: Js.split sep t.
Proof.
  induction s as [|c r IH]; simpl.
  - intros _. by rewrite Ascii.eqb_refl.
  - destruct (Ascii.eqb c sep); simpl; [done|].
    intros Hr. by rewrite (IH Hr).
Qed.

Lemma contains_app sep s t :
  Js.contains sep (s +:+ t) = Js.contains sep s || Js.contains sep t.
Proof.
  induction s as [|c r IH]; simpl; [done|].
  rewrite IH. by destruct (Ascii.eqb c sep).
Qed.

Lemma hex_of_byte_no_colon b : Js.contains ":" (Buffer.hex_of_byte b) = false.
Proof. destruct b; reflexivity. Qed.

Lemma to_hex_cons b r : Buffer.to_hex (b :: r) = Buffer.hex_of_byte b +:+ Buffer.to_hex r.
Proof. reflexivity. Qed.

Lemma to_hex_no_colon bs : Js.contains ":" (Buffer.to_hex bs) = false.
Proof.
  induction bs as [|b r IH]; [done|].
  by rewrite to_hex_cons, contains_app, hex_of_byte_no_colon, IH.
Qed.

Lemma from_hex_of_byte b s :
  Buffer.from_hex (Buffer.hex_of_byte b +:+ s) = b :: Buffer.from_hex s.
Proof. destruct b; reflexivity. Qed.

Lemma from_hex_to_hex bs : Buffer.from_hex (Buffer.to_hex bs) = bs.
Proof.
  induction bs as [|b r IH]; [done|].
  by rewrite to_hex_cons, from_hex_of_byte, IH.
Qed.

Lemma to_hex_truthy bs : bs <> [] -> Js.truthy (Buffer.to_hex bs) = true.
Proof. destruct bs as [|b r]; [done|]. intros _. by destruct b. Qed.

Lemma length_to_hex bs : Js.length (Buffer.to_hex bs) = (2 * length bs)%nat.
Proof.
  unfold Js.length. induction bs as [|b r IH]; [done|].
  destruct (of_utf8_hex_of_byte b (Buffer.to_hex r)) as [Happ Hlen].
  rewrite to_hex_cons, Happ, length_app, Hlen, IH. simpl. lia.
Qed.

Lemma to_hex_even bs : Nat.odd (Js.length (Buffer.to_hex bs)) = false.
Proof.
  rewrite length_to_hex, <- Nat.negb_even, Nat.even_mul. done.
Qed.

Lemma to_hex_inj bs1 bs2 : Buffer.to_hex bs1 = Buffer.to_hex bs2 -> bs1 = bs2.
Proof.
  intros H. rewrite <- (from_hex_to_hex bs1), <- (from_hex_to_hex bs2). by rewrite H.
Qed.

Lemma to_base64url_truthy bs : bs <> [] -> Js.truthy (Buffer.to_base64url bs) = true.
Proof. destruct bs as [|a [|b [|c r]]]; done. Qed.

(** ** The stand-in cipher obeys the laws assumed of AES-256-CBC *)

Lemma xor_key_involutive b : Toy.xor_key (Toy.xor_key b) = b.
Proof. destruct b; reflexivity. Qed.

Lemma map_xor_key_involutive l : map Toy.xor_key (map Toy.xor_key l) = l.
Proof.
  induction l as [|b r IH]; simpl; [done|]. by rewrite xor_key_involutive, IH.
Qed.

Lemma byte_of_nat_to_N n : (n <= 16)%nat -> N.to_nat (Byte.to_N (Toy.byte_of_nat n)) = n.
Proof.
  intros Hn.
  do 17 (destruct n as [|n]; [reflexivity|]). lia.
Qed.

Lemma pad_amount (p : list byte) : (1 <= 16 - length p mod 16 <= 16)%nat.
Proof.
  pose proof (Nat.mod_upper_bound (length p) 16). lia.
Qed.

Lemma length_pad (p : list byte) : (length (Toy.pad p) = length p + (16 - length p mod 16))%nat.
Proof. unfold Toy.pad. by rewrite length_app, repeat_length. Qed.

Lemma length_pad_blocks (p : list byte) : (length (Toy.pad p) mod 16 = 0)%nat.
Proof.
  rewrite length_pad.
  pose proof (Nat.mod_upper_bound (length p) 16 ltac:(lia)).
  pose proof (Nat.div_mod_eq (length p) 16).
  replace (length p + (16 - length p mod 16))%nat with ((length p / 16 + 1) * 16)%nat by lia.
  apply Nat.Div0.mod_mul.
Qed.

Lemma last_app_repeat (p : list byte) x n : (1 <= n)%nat -> List.last (p ++ repeat x n) x00 = x.
Proof.
  intros Hn. destruct n as [|n]; [lia|].
  replace (S n) with (n + 1)%nat by lia.
  rewrite repeat_app, app_assoc. simpl. apply last_last.
Qed.

Lemma unpad_pad (p : list byte) : Toy.unpad (Toy.pad p) = Some p.
Proof.
  pose proof (pad_amount p) as Hn.
  assert (N.to_nat (Byte.to_N (List.last (Toy.pad p) x00)) = 16 - length p mod 16)%nat
    as Hlast.
  { unfold Toy.pad. rewrite last_app_repeat by lia. apply byte_of_nat_to_N. lia. }
  unfold Toy.unpad. rewrite Hlast, length_pad.
  replace (length p + (16 - length p mod 16) - (16 - length p mod 16))%nat
    with (length p) by lia.
  unfold Toy.pad. rewrite firstn_app, firstn_all, Nat.sub_diag, firstn_O, app_nil_r.
  destruct (Nat.leb_spec 1 (16 - length p mod 16)); [|lia].
  destruct (Nat.leb_spec (16 - length p mod 16) 16); [|lia].
  destruct (Nat.leb_spec (16 - length p mod 16) (length p + (16 - length p mod 16))); [|lia].
  done.
Qed.

Lemma toy_decipher_cipher (p : list byte) : Toy.toy_decipher (Toy.toy_cipher p) = Some p.
Proof.
  unfold Toy.toy_decipher, Toy.toy_cipher.
  rewrite length_map, length_pad_blocks, map_xor_key_involutive, unpad_pad.
  pose proof (pad_amount p). rewrite length_pad.
  destruct (Nat.ltb_spec 0 (length p + (16 - length p mod 16))); [done|lia].
Qed.

Lemma toy_cipher_nonempty (p : list byte) : Toy.toy_cipher p <> [].
Proof.
  intros H. apply (f_equal length) in H. unfold Toy.toy_cipher in H.
  rewrite length_map, length_pad in H. pose proof (pad_amount p). simpl in H. lia.
Qed.

Example toy_encrypt :
  EncryptionManager.encrypt Toy.crypto [x01; x02] "hi"
  = "0102:32335454545454545454545454545454".
Proof. reflexivity. Qed.

Example toy_decrypt :
  EncryptionManager.decrypt Toy.crypto "0102:32335454545454545454545454545454" = Some "hi".
Proof. reflexivity. Qed.

Example toy_decrypt_short_block :
  EncryptionManager.decrypt Toy.crypto "0102:3233" = None.
Proof. reflexivity. Qed.

Example toy_decrypt_no_separator :
  EncryptionManager.decrypt Toy.crypto "32335454545454545454545454545454" = None.
Proof. reflexivity. Qed.

Example toy_roundtrip_empty :
  EncryptionManager.decrypt Toy.crypto (EncryptionManager.encrypt Toy.crypto Examples.sample_iv "")
  = Some "".
Proof. reflexivity. Qed.

(** ** Encryption service *)

Section EncryptionProperties.
Variable crypto : NodeCrypto.

Lemma split_encrypt iv data :
  Js.split ":" (EncryptionManager.encrypt crypto iv data)
  = [Buffer.to_hex iv; Buffer.to_hex (cipher crypto (list_byte_of_string data))].
Proof.
  unfold EncryptionManager.encrypt.
  change (":" +:+ ?e) with (String ":" e).
  rewrite split_app_sep by apply to_hex_no_colon.
  by rewrite split_no_sep by apply to_hex_no_colon.
Qed.

Lemma encrypt_inj_iv iv1 iv2 data :
  EncryptionManager.encrypt crypto iv1 data = EncryptionManager.encrypt crypto iv2 data ->
  iv1 = iv2.
Proof.
  intros H. apply (f_equal (Js.split ":")) in H.
  rewrite !split_encrypt in H. injection H as H. by apply to_hex_inj.
Qed.

(** What [decrypt] reads of its argument: whether the first segment is
    empty, and the second segment. *)
Lemma decrypt_segments iv rest :
  Js.contains ":" iv = false ->
  EncryptionManager.decrypt crypto (iv +:+ String ":" rest)
  = match head (Js.split ":" rest) with
    | Some encrypted =>
        if negb (Js.truthy iv) || negb (Js.truthy encrypted) then None
        else if Nat.odd (Js.length encrypted) then None
        else string_of_list_byte <$> decipher crypto (Buffer.from_hex encrypted)
    | None => None
    end.
Proof.
  intros Hiv. unfold EncryptionManager.decrypt.
  rewrite split_app_sep by done. simpl.
  destruct (Js.split ":" rest) as [|e t]; simpl; [done|].
  destruct (negb (Js.truthy iv) || negb (Js.truthy e)); [done|].
  destruct (Nat.odd (Js.length e)); [done|].
  by destruct (decipher crypto (Buffer.from_hex e)).
Qed.

Hypothesis decipher_cipher : forall p, decipher crypto (cipher crypto p) = Some p.
Hypothesis cipher_nonempty : forall p, cipher crypto p <> [].

Lemma decrypt_encrypt iv data :
  iv <> [] ->
  EncryptionManager.decrypt crypto (EncryptionManager.encrypt crypto iv data) = Some data.
Proof.
  intros Hiv. unfold EncryptionManager.decrypt. rewrite split_encrypt. simpl.
  rewrite (to_hex_truthy iv Hiv), (to_hex_truthy _ (cipher_nonempty _)). simpl.
  by rewrite to_hex_even, from_hex_to_hex, decipher_cipher, string_of_list_byte_of_string.
Qed.

(** C3, as amended.  For a string without a lone surrogate, decrypting
    what [encrypt] returned gives the string back, whatever 16-byte
    initialization vector was drawn; and two calls on the same plaintext
    whose draws differ return different encodings.  For an arbitrary
    string the round trip gives the string with U+FFFD in place of every
    lone surrogate: it gives the string back exactly when the string is
    well-formed. *)
Theorem encrypt_decrypt_roundtrip_fresh_iv (x : Utf16.t) (iv1 iv2 : list byte) :
  Utf16.units x ->
  length iv1 = 16%nat -> length iv2 = 16%nat -> iv1 <> iv2 ->
  let encrypted iv := EncryptionManager.encrypt crypto iv (Utf16.to_utf8 x) in
  let decrypted e := Utf16.of_utf8 <$> EncryptionManager.decrypt crypto e in
  decrypted (encrypted iv1) = Some (Utf16.toWellFormed x)
  /\ decrypted (encrypted iv2) = Some (Utf16.toWellFormed x)
  /\ (Utf16.isWellFormed x = true ->
      decrypted (encrypted iv1) = Some x /\ decrypted (encrypted iv2) = Some x)
  /\ (decrypted (encrypted iv1) = Some x -> Utf16.isWellFormed x = true)
  /\ encrypted iv1 <> encrypted iv2.
Proof.
  intros Hx H1 H2 Hne. cbn zeta.
  assert (forall iv, length iv = 16%nat ->
            Utf16.of_utf8 <$> EncryptionManager.decrypt crypto
                                (EncryptionManager.encrypt crypto iv (Utf16.to_utf8 x))
            = Some (Utf16.toWellFormed x)) as Hround.
  { intros iv Hiv. rewrite decrypt_encrypt by (by destruct iv). simpl.
    by rewrite of_utf8_to_utf8. }
  split_and!.
  - by apply Hround.
  - by apply Hround.
  - intros Hwf. rewrite !Hround by done. by rewrite toWellFormed_isWellFormed.
  - rewrite Hround by done. intros [= Hfix]. by apply toWellFormed_fixed.
  - intros Heq. apply Hne. by apply encrypt_inj_iv in Heq.
Qed.

(** An encoding whose first segment was replaced by a string that ends in
    the separator is rejected, whatever the cipher. *)
Lemma decrypt_rejects_shifted_segments iv ct :
  Js.contains ":" iv = false ->
  EncryptionManager.decrypt crypto ((iv +:+ ":") +:+ String ":" ct) = None.
Proof.
  intros Hiv. unfold EncryptionManager.decrypt.
  replace ((iv +:+ ":") +:+ String ":" ct) with (iv +:+ String ":" (String ":" ct)).
  - rewrite split_app_sep by done. simpl. by rewrite orb_true_r.
  - clear. induction iv as [|c r IH]; [done|].
    change (String c (r +:+ String ":" (String ":" ct))
            = String c ((r +:+ ":") +:+ String ":" ct)).
    by f_equal.
Qed.

End EncryptionProperties.

(** C10, as amended.  [decrypt] reads of the first segment only whether it
    is empty: for two non-empty first segments without the separator and
    the same remainder it returns the same result, plaintext or failure. *)
Theorem decrypt_ignores_iv_segment (crypto : NodeCrypto) (iv iv' rest : string) :
  Js.truthy iv = true -> Js.truthy iv' = true ->
  Js.contains ":" iv = false -> Js.contains ":" iv' = false ->
  EncryptionManager.decrypt crypto (iv' +:+ ":" +:+ rest)
  = EncryptionManager.decrypt crypto (iv +:+ ":" +:+ rest).
Proof.
  intros Ht Ht' Hc Hc'.
  change (":" +:+ rest) with (String ":" rest).
  rewrite !decrypt_segments by done. by rewrite Ht, Ht'.
Qed.

Lemma encrypt_decrypt_roundtrip_fresh_iv_witness :
  let x := ([0x74; 0xE9; 0x20AC; 0xD83D; 0xDE00]%N : Utf16.t) in
  let encrypted iv := EncryptionManager.encrypt Toy.crypto iv (Utf16.to_utf8 x) in
  Utf16.of_utf8 <$> EncryptionManager.decrypt Toy.crypto (encrypted Examples.sample_iv) = Some x
  /\ Utf16.of_utf8 <$> EncryptionManager.decrypt Toy.crypto (encrypted Examples.other_iv)
     = Some x
  /\ encrypted Examples.sample_iv <> encrypted Examples.other_iv.
Proof.
  cbn zeta.
  destruct (encrypt_decrypt_roundtrip_fresh_iv Toy.crypto
              toy_decipher_cipher toy_cipher_nonempty
              [0x74; 0xE9; 0x20AC; 0xD83D; 0xDE00]%N Examples.sample_iv Examples.other_iv)
    as (_ & _ & Hwf & _ & Hdiff);
    [repeat constructor | reflexivity | reflexivity | discriminate |].
  destruct (Hwf eq_refl) as [Ha Hb]. by split_and!.
Defined.

(** C3, as stated, fails: a string that is one lone surrogate comes back
    as U+FFFD. *)
Lemma encrypt_decrypt_lone_surrogate :
  let x := ([0xD800]%N : Utf16.t) in
  Utf16.of_utf8 <$> EncryptionManager.decrypt Toy.crypto
                      (EncryptionManager.encrypt Toy.crypto Examples.sample_iv
                         (Utf16.to_utf8 x))
  = Some [0xFFFD]%N
  /\ [0xFFFD]%N <> x.
Proof. split; [reflexivity|discriminate]. Qed.

Lemma decrypt_ignores_iv_segment_witness :
  EncryptionManager.decrypt Toy.crypto
    ("ff" +:+ ":" +:+ "32335454545454545454545454545454")
  = EncryptionManager.decrypt Toy.crypto
    ("0102" +:+ ":" +:+ "32335454545454545454545454545454").
Proof.
  apply (decrypt_ignores_iv_segment Toy.crypto "0102" "ff"); reflexivity.
Defined.

(** C10, as stated, fails: a non-empty replacement for the first segment
    that contains the separator shifts the segments, and an encoding that
    decrypted before is then rejected. *)
Lemma decrypt_iv_segment_with_colon :
  let ct := "32335454545454545454545454545454" in
  Js.truthy "ff:" = true
  /\ EncryptionManager.decrypt Toy.crypto ("0102" +:+ ":" +:+ ct) = Some "hi"
  /\ EncryptionManager.decrypt Toy.crypto ("ff:" +:+ ":" +:+ ct) = None.
Proof. repeat split. Qed.

(** ** Persistent store: expiry-driven cleanup *)

Lemma filter_unexpired_lookup `{Countable K} {A} (expires : A -> Z) (now : Z)
    (m : gmap K A) (k : K) (row : A) :
  filter (fun kv : K * A => ~ expires kv.2 <= now) m !! k = Some row
  <-> m !! k = Some row /\ now < expires row.
Proof. rewrite map_lookup_filter_Some. simpl. intuition lia. Qed.

Lemma filter_unexpired_idemp `{Countable K} {A} (expires : A -> Z) (now : Z) (m : gmap K A) :
  filter (fun kv : K * A => ~ expires kv.2 <= now)
    (filter (fun kv : K * A => ~ expires kv.2 <= now) m)
  = filter (fun kv : K * A => ~ expires kv.2 <= now) m.
Proof.
  apply map_filter_id. intros k row Hk.
  apply map_lookup_filter_Some in Hk. tauto.
Qed.

Lemma filter_unexpired_deleted `{Countable K} {A} (expires : A -> Z) (now : Z)
    (m : gmap K A) (k : K) (row : A) :
  m !! k = Some row ->
  filter (fun kv : K * A => ~ expires kv.2 <= now) m !! k = None <-> expires row <= now.
Proof.
  intros Hk. split.
  - intros Hnone. destruct (Z_le_gt_dec (expires row) now) as [|Hgt]; [done|].
    assert (m !! k = Some row /\ now < expires row) as Hs by (split; [done|lia]).
    apply (filter_unexpired_lookup expires) in Hs. congruence.
  - intros Hle. apply eq_None_not_Some. intros [row' Hs].
    apply (filter_unexpired_lookup expires) in Hs. destruct Hs as [Hs ?].
    assert (row' = row) by congruence. subst. lia.
Qed.

(** C7.  [cleanupExpiredSessions] and [cleanupExpiredPairingSessions]
    delete exactly the rows whose [expires_at] is at or before the clock
    reading: a row survives if and only if it was stored and expires later,
    a stored row is gone if and only if it had expired, the other tables
    are untouched, and a second call at the same instant changes nothing. *)
Theorem cleanup_deletes_exactly_expired (db : XDatabase) (now : Z) :
  let db1 := Db.cleanupExpiredSessions db now in
  let db2 := Db.cleanupExpiredPairingSessions db now in
  (forall sid row,
      sessions db1 !! sid = Some row
      <-> sessions db !! sid = Some row /\ now < Session.expires_at row)
  /\ (forall sid row,
      sessions db !! sid = Some row ->
      (sessions db1 !! sid = None <-> Session.expires_at row <= now))
  /\ (users db1, user_tokens db1, pairing_sessions db1)
     = (users db, user_tokens db, pairing_sessions db)
  /\ Db.cleanupExpiredSessions db1 now = db1
  /\ (forall code row,
      pairing_sessions db2 !! code = Some row
      <-> pairing_sessions db !! code = Some row /\ now < PairingRow.expires_at row)
  /\ (forall code row,
      pairing_sessions db !! code = Some row ->
      (pairing_sessions db2 !! code = None <-> PairingRow.expires_at row <= now))
  /\ (users db2, sessions db2, user_tokens db2) = (users db, sessions db, user_tokens db)
  /\ Db.cleanupExpiredPairingSessions db2 now = db2.
Proof.
  cbn zeta. unfold Db.cleanupExpiredSessions, Db.cleanupExpiredPairingSessions.
  unfold set_sessions, set_pairing_sessions. simpl. split_and!.
  - intros sid row. apply (filter_unexpired_lookup Session.expires_at).
  - intros sid row. apply (filter_unexpired_deleted Session.expires_at).
  - done.
  - by rewrite filter_unexpired_idemp.
  - intros code row. apply (filter_unexpired_lookup PairingRow.expires_at).
  - intros code row. apply (filter_unexpired_deleted PairingRow.expires_at).
  - done.
  - by rewrite filter_unexpired_idemp.
Qed.

(** ** Persistent store: completing a pairing session *)

Lemma completePairingSession_unknown db now code userId :
  pairing_sessions db !! code = None ->
  Db.completePairingSession db now code userId = SqlOk (db, 0).
Proof. intros H. unfold Db.completePairingSession. by rewrite H. Qed.

Lemma completePairingSession_expired db now code userId row :
  pairing_sessions db !! code = Some row -> PairingRow.expires_at row <= now ->
  Db.completePairingSession db now code userId = SqlOk (db, 0).
Proof.
  intros H Hle. unfold Db.completePairingSession. rewrite H.
  destruct (Z.gtb_spec (PairingRow.expires_at row) now); [lia|done].
Qed.

Lemma completePairingSession_unexpired db now code userId row :
  pairing_sessions db !! code = Some row -> now < PairingRow.expires_at row ->
  is_Some (users db !! userId) ->
  Db.completePairingSession db now code userId
  = SqlOk (set_pairing_sessions db (<[code := bind_row row userId]> (pairing_sessions db)), 1).
Proof.
  intros H Hlt [u Hu]. unfold Db.completePairingSession. rewrite H, Hu.
  destruct (Z.gtb_spec (PairingRow.expires_at row) now); [done|lia].
Qed.

(** C1, as amended.  [completePairingSession] succeeds only before the
    expiry of the pairing session: for an unknown code, and at or after
    the row's [expires_at], it changes no row and leaves the store as it
    was.  Before the expiry, for a stored user, it rewrites the row with
    the given user id and the completed flag set, whatever the row held
    before, and touches nothing else. *)
Theorem completePairingSession_only_before_expiry
    (db : XDatabase) (now : Z) (code : string) (userId : Z) :
  (pairing_sessions db !! code = None ->
   Db.completePairingSession db now code userId = SqlOk (db, 0))
  /\ (forall row,
        pairing_sessions db !! code = Some row -> PairingRow.expires_at row <= now ->
        Db.completePairingSession db now code userId = SqlOk (db, 0))
  /\ (forall row,
        pairing_sessions db !! code = Some row -> now < PairingRow.expires_at row ->
        is_Some (users db !! userId) ->
        exists db',
          Db.completePairingSession db now code userId = SqlOk (db', 1)
          /\ pairing_sessions db' !! code = Some (bind_row row userId)
          /\ (forall other, other <> code ->
                pairing_sessions db' !! other = pairing_sessions db !! other)
          /\ (users db', sessions db', user_tokens db')
             = (users db, sessions db, user_tokens db)).
Proof.
  split_and!.
  - apply completePairingSession_unknown.
  - intros row. apply completePairingSession_expired.
  - intros row Hrow Hlt Huser. eexists. split_and!.
    + by apply completePairingSession_unexpired.
    + simpl. apply lookup_insert_eq.
    + intros other Hne. simpl. by apply lookup_insert_ne.
    + done.
Qed.

Lemma completePairingSession_only_before_expiry_witness :
  Db.completePairingSession Examples.pending 600000 "ABCDEFGH" 1 = SqlOk (Examples.pending, 0)
  /\ exists db',
       Db.completePairingSession Examples.completed_by_alice 2000 "ABCDEFGH" 2 = SqlOk (db', 1)
       /\ PairingRow.user_id <$> pairing_sessions db' !! "ABCDEFGH" = Some (Some 2).
Proof.
  split.
  - apply (completePairingSession_only_before_expiry Examples.pending 600000 "ABCDEFGH" 1)
      with (row := PairingRow.mk "ABCDEFGH" 0 600000 "verifier" "state_123" None 0);
      [reflexivity | simpl; lia].
  - destruct (proj2 (proj2 (completePairingSession_only_before_expiry
                 Examples.completed_by_alice 2000 "ABCDEFGH" 2))
               (PairingRow.mk "ABCDEFGH" 0 600000 "verifier" "state_123" (Some 1) 1))
      as (db' & Hrun & Hrow & _);
      [reflexivity | simpl; lia | by exists Examples.bob |].
    exists db'. split; [exact Hrun|]. by rewrite Hrow.
Defined.

(** C1, as stated, fails: a second invocation before the expiry is not a
    no-op.  The row completed for user 1 is rebound to user 2. *)
Lemma completePairingSession_twice_rebinds :
  PairingRow.user_id <$> pairing_sessions Examples.completed_by_alice !! "ABCDEFGH" = Some (Some 1)
  /\ exists db',
       Db.completePairingSession Examples.completed_by_alice 2000 "ABCDEFGH" 2 = SqlOk (db', 1)
       /\ PairingRow.user_id <$> pairing_sessions db' !! "ABCDEFGH" = Some (Some 2).
Proof. split; [reflexivity|]. eexists. split; reflexivity. Qed.

(** ** OAuth flow controller: polling the pairing status *)

Lemma checkPairingStatus_cases db now code :
  (exists u, completed_for db now code u
             /\ OAuthManager.checkPairingStatus db now code
                = AuthStatusResponse.mk true (Some (view u)))
  \/ OAuthManager.checkPairingStatus db now code = AuthStatusResponse.mk false None.
Proof.
  unfold OAuthManager.checkPairingStatus, Db.getPairingSession, Db.getUserById.
  destruct (pairing_sessions db !! code) as [row|] eqn:Hrow; [|by right].
  destruct (Z.gtb_spec (PairingRow.expires_at row) now) as [Hgt|]; [|by right].
  destruct row as [pc ca ea cv st uid c]. simpl in *.
  destruct (Z.eqb_spec c 0) as [|Hc]; [by right|]. simpl.
  destruct uid as [uid|]; [|by right]. simpl.
  destruct (Z.eqb_spec uid 0) as [|Hu]; [by right|]. simpl.
  rewrite (proj2 (Z.eqb_neq uid 0) Hu). simpl.
  destruct (users db !! uid) as [u|] eqn:Huser; [|by right].
  left. exists u. split; [|done].
  exists (PairingRow.mk pc ca ea cv st (Some uid) c), uid. simpl. split_and!; (done || lia).
Qed.

Lemma checkPairingStatus_completed db now code u :
  users db !! 0 = None ->
  completed_for db now code u ->
  OAuthManager.checkPairingStatus db now code = AuthStatusResponse.mk true (Some (view u)).
Proof.
  intros H0 (row & uid & Hrow & Hlt & Hc & Huid & Hu).
  assert (uid <> 0) as Hne by (intros ->; congruence).
  unfold OAuthManager.checkPairingStatus, Db.getPairingSession, Db.getUserById, Db.toPairingSession.
  rewrite Hrow. destruct (Z.gtb_spec (PairingRow.expires_at row) now); [|lia].
  simpl. rewrite Huid.
  rewrite (proj2 (Z.eqb_neq _ 0) Hc), (proj2 (Z.eqb_neq uid 0) Hne). simpl.
  rewrite (proj2 (Z.eqb_neq uid 0) Hne). simpl. by rewrite Hu.
Qed.

Lemma checkPairingStatus_elapsed db t0 t code :
  elapsed db t0 code -> t0 <= t ->
  OAuthManager.checkPairingStatus db t code = AuthStatusResponse.mk false None.
Proof.
  intros He Hle. unfold OAuthManager.checkPairingStatus, Db.getPairingSession.
  destruct (pairing_sessions db !! code) as [row|] eqn:Hrow; [|done].
  specialize (He row Hrow).
  destruct (Z.gtb_spec (PairingRow.expires_at row) t); [lia|done].
Qed.

Lemma apply_op_elapsed db t0 code now op :
  elapsed db t0 code -> t0 <= now -> ~ creates_pairing_code code op ->
  elapsed (apply_op db now op) t0 code.
Proof.
  intros He Hle Hnc row. unfold elapsed in He.
  destruct op as [u sid h e|sid| |u td|u|c v s e|c u|c| ]; simpl.
  - unfold Db.createSession.
    destruct (sessions db !! sid); [apply He|]. destruct (users db !! u); apply He.
  - apply He.
  - apply He.
  - unfold Db.saveUserTokens. destruct (users db !! u); apply He.
  - apply He.
  - unfold Db.createPairingSession.
    destruct (pairing_sessions db !! c); simpl; [apply He|].
    simpl in Hnc. rewrite lookup_insert_ne by done. apply He.
  - unfold Db.completePairingSession.
    destruct (pairing_sessions db !! c) as [r|] eqn:Hr; simpl; [|apply He].
    destruct (Z.gtb_spec (PairingRow.expires_at r) now) as [Hgt|]; simpl; [|apply He].
    destruct (users db !! u); simpl; [|apply He].
    destruct (decide (c = code)) as [->|Hne].
    + specialize (He r Hr). lia.
    + rewrite lookup_insert_ne by done. apply He.
  - rewrite lookup_delete. case_decide; [done|apply He].
  - intros Hf. apply map_lookup_filter_Some in Hf. apply He, Hf.
Qed.

Lemma run_elapsed history : forall db t0 code,
  elapsed db t0 code -> Forall (later_and_not_recreated t0 code) history ->
  elapsed (run db history) t0 code.
Proof.
  induction history as [|[now op] rest IH]; intros db t0 code He Hall; simpl; [done|].
  inversion Hall as [|? ? [Hle Hnc] Hrest]; subst. simpl in *.
  apply IH; [|done]. by apply apply_op_elapsed.
Qed.

(** C9, as amended.  In a store whose user ids start at 1, [checkPairingStatus]
    answers [verified: true], with the user, exactly when a pairing session
    is stored under the code, is unexpired at the time of the read, is
    marked completed, and its bound user id resolves to a stored user;
    otherwise it answers [verified: false].  Once the time to live of the
    session has elapsed the answer is [verified: false] at every later
    read, whatever store operations happen in between, short of starting a
    new session under the same code. *)
Theorem checkPairingStatus_verified_iff (db : XDatabase) (now : Z) (code : string) :
  users db !! 0 = None ->
  (forall u, completed_for db now code u ->
     OAuthManager.checkPairingStatus db now code = AuthStatusResponse.mk true (Some (view u)))
  /\ ((forall u, ~ completed_for db now code u) ->
     OAuthManager.checkPairingStatus db now code = AuthStatusResponse.mk false None)
  /\ (AuthStatusResponse.verified (OAuthManager.checkPairingStatus db now code) = true
      <-> exists u, completed_for db now code u)
  /\ (forall t0 history t,
        elapsed db t0 code -> Forall (later_and_not_recreated t0 code) history -> t0 <= t ->
        OAuthManager.checkPairingStatus (run db history) t code
        = AuthStatusResponse.mk false None).
Proof.
  intros H0. split_and!.
  - intros u. by apply checkPairingStatus_completed.
  - intros Hno. destruct (checkPairingStatus_cases db now code) as [(u & Hu & _)|]; [|done].
    by destruct (Hno u).
  - split.
    + intros Hv. destruct (checkPairingStatus_cases db now code) as [(u & Hu & _)|Hf].
      * by exists u.
      * rewrite Hf in Hv. done.
    + intros [u Hu]. by rewrite (checkPairingStatus_completed db now code u H0 Hu).
  - intros t0 history t He Hall Hle.
    apply (checkPairingStatus_elapsed _ t0); [|done]. by apply run_elapsed.
Qed.

Lemma checkPairingStatus_verified_iff_witness :
  OAuthManager.checkPairingStatus Examples.completed_by_alice 2000 "ABCDEFGH"
  = AuthStatusResponse.mk true (Some (view Examples.alice))
  /\ OAuthManager.checkPairingStatus
       (run Examples.pending
          [(600000, OpCompletePairingSession "ABCDEFGH" 2);
           (700000, OpCleanupExpiredSessions)])
       800000 "ABCDEFGH"
     = AuthStatusResponse.mk false None.
Proof.
  split.
  - apply (checkPairingStatus_verified_iff Examples.completed_by_alice 2000 "ABCDEFGH");
      [reflexivity|].
    exists (PairingRow.mk "ABCDEFGH" 0 600000 "verifier" "state_123" (Some 1) 1), 1.
    repeat split; (reflexivity || (simpl; lia) || discriminate).
  - apply (checkPairingStatus_verified_iff Examples.pending 0 "ABCDEFGH") with (t0 := 600000);
      [reflexivity | | | lia].
    + intros row Hrow. vm_compute in Hrow. injection Hrow as <-. simpl. lia.
    + repeat constructor; simpl; (lia || tauto).
Defined.

(** C9, as stated, fails: the pending session of the example expires at
    600000 without completion and the status is [verified: false]; once
    the clean-up has deleted the row, a new session started under the same
    code and completed makes the status of the code [verified: true]. *)
Lemma checkPairingStatus_verified_after_recreation :
  OAuthManager.checkPairingStatus Examples.pending 600000 "ABCDEFGH"
  = AuthStatusResponse.mk false None
  /\ OAuthManager.checkPairingStatus
       (run Examples.pending
          [(600000, OpCleanupExpiredPairingSessions);
           (600001, OpCreatePairingSession "ABCDEFGH" "verifier-2" "state_456" None);
           (600002, OpCompletePairingSession "ABCDEFGH" 1)])
       600003 "ABCDEFGH"
     = AuthStatusResponse.mk true (Some (view Examples.alice)).
Proof. split; reflexivity. Qed.

(** The scenario of the specification: pending, completed, expired. *)
Example pairing_status_pending :
  OAuthManager.checkPairingStatus Examples.pending 500 "ABCDEFGH"
  = AuthStatusResponse.mk false None.
Proof. reflexivity. Qed.

Example pairing_status_completed :
  OAuthManager.checkPairingStatus Examples.completed_by_alice 2000 "ABCDEFGH"
  = AuthStatusResponse.mk true (Some (AuthStatusResponse.mk_user 1 "Alice Johnson" "alice")).
Proof. reflexivity. Qed.

Example pairing_status_expired :
  OAuthManager.checkPairingStatus Examples.completed_by_alice 600000 "ABCDEFGH"
  = AuthStatusResponse.mk false None.
Proof. reflexivity. Qed.

(** ** Session manager *)

Section SessionProperties.
Variable crypto : NodeCrypto.

Lemma verifySessionSecret_unsalted secret hash random :
  Js.contains ":" hash = false ->
  SessionManager.verifySessionSecret crypto secret hash random
  = String.eqb (Buffer.to_hex (pbkdf2Sync crypto secret random)) hash.
Proof.
  intros Hc. unfold SessionManager.verifySessionSecret.
  by rewrite split_no_sep by done.
Qed.

Lemma createSession_stores db now draws userId expiresAt db' sid secret :
  SessionManager.createSession crypto db now draws userId expiresAt = SqlOk (db', (sid, secret)) ->
  sid = SessionManager.uuid draws
  /\ secret = Buffer.to_base64url (SessionManager.secret_bytes draws)
  /\ exists row,
       sessions db' !! sid = Some row
       /\ Session.session_secret_hash row
          = Buffer.to_hex (pbkdf2Sync crypto secret (SessionManager.salt_bytes draws))
       /\ Session.user_id row = userId.
Proof.
  unfold SessionManager.createSession, Db.createSession.
  destruct (sessions db !! SessionManager.uuid draws); [done|].
  destruct (users db !! userId); [|done].
  intros [= <- <- <-]. split_and!; [done..|].
  eexists. split; [apply lookup_insert_eq|]. done.
Qed.

(** C2.  [createSession] stores the hash of the secret without the salt
    it was computed with, and the verification of an unsalted hash draws a
    salt of its own: validating a session with the very secret that
    [createSession] returned fails whenever PBKDF2 gives different outputs
    for the two salts. *)
Theorem validateSession_rejects_own_secret
    (db db' : XDatabase) (now now' : Z) (draws : SessionManager.Draws)
    (userId : Z) (expiresAt : option Z) (sid secret : string) (random : list byte) :
  SessionManager.createSession crypto db now draws userId expiresAt = SqlOk (db', (sid, secret)) ->
  length (SessionManager.secret_bytes draws) = 32%nat ->
  pbkdf2Sync crypto secret random <> pbkdf2Sync crypto secret (SessionManager.salt_bytes draws) ->
  SessionManager.validateSession crypto db' now' random sid (Some secret) = None.
Proof.
  intros Hcreate Hlen Hkdf.
  destruct (createSession_stores _ _ _ _ _ _ _ _ Hcreate) as (-> & -> & row & Hrow & Hhash & _).
  unfold SessionManager.validateSession, Db.getSession. rewrite Hrow.
  destruct (Session.expires_at row >? now'); [|done].
  rewrite to_base64url_truthy by (by destruct (SessionManager.secret_bytes draws)).
  simpl.
  rewrite verifySessionSecret_unsalted by (rewrite Hhash; apply to_hex_no_colon).
  rewrite Hhash.
  destruct (String.eqb_spec
                (Buffer.to_hex (pbkdf2Sync crypto
                   (Buffer.to_base64url (SessionManager.secret_bytes draws)) random))
                (Buffer.to_hex (pbkdf2Sync crypto
                   (Buffer.to_base64url (SessionManager.secret_bytes draws))
                   (SessionManager.salt_bytes draws)))) as [Heq|]; [|done].
    by apply to_hex_inj in Heq.
Qed.

(** Without a secret the session is accepted on its id alone. *)
Lemma validateSession_without_secret db now random sid :
  SessionManager.validateSession crypto db now random sid None = Db.getSession db now sid.
Proof.
  unfold SessionManager.validateSession. by destruct (Db.getSession db now sid).
Qed.

(** While the session is unexpired, its own secret is accepted only when
    the verification happens to draw the salt's hash again. *)
Lemma validateSession_own_secret_iff
    db db' now now' draws userId expiresAt sid secret random row :
  SessionManager.createSession crypto db now draws userId expiresAt = SqlOk (db', (sid, secret)) ->
  length (SessionManager.secret_bytes draws) = 32%nat ->
  Db.getSession db' now' sid = Some row ->
  SessionManager.validateSession crypto db' now' random sid (Some secret) = Some row
  <-> pbkdf2Sync crypto secret random = pbkdf2Sync crypto secret (SessionManager.salt_bytes draws).
Proof.
  intros Hcreate Hlen Hget.
  destruct (createSession_stores _ _ _ _ _ _ _ _ Hcreate)
    as (-> & -> & row' & Hrow & Hhash & _).
  unfold SessionManager.validateSession. rewrite Hget.
  unfold Db.getSession in Hget. rewrite Hrow in Hget.
  destruct (Session.expires_at row' >? now'); [|done]. injection Hget as ->.
  rewrite to_base64url_truthy by (by destruct (SessionManager.secret_bytes draws)).
  simpl.
  rewrite verifySessionSecret_unsalted by (rewrite Hhash; apply to_hex_no_colon).
  rewrite Hhash.
  destruct (String.eqb_spec
              (Buffer.to_hex (pbkdf2Sync crypto
                 (Buffer.to_base64url (SessionManager.secret_bytes draws)) random))
              (Buffer.to_hex (pbkdf2Sync crypto
                 (Buffer.to_base64url (SessionManager.secret_bytes draws))
                 (SessionManager.salt_bytes draws)))) as [Heq|Hne]; simpl.
  - split; [|done]. intros _. by apply to_hex_inj.
  - split; [done|]. intros Heq. by rewrite Heq in Hne.
Qed.

End SessionProperties.

Lemma validateSession_rejects_own_secret_witness :
  exists db' sid secret,
    SessionManager.createSession Toy.crypto Examples.two_users 0 Examples.session_draws 1 None
    = SqlOk (db', (sid, secret))
    /\ is_Some (Db.getSession db' 1000 sid)
    /\ SessionManager.validateSession Toy.crypto db' 1000 Examples.other_iv sid (Some secret)
       = None.
Proof.
  eexists _, _, _. split; [reflexivity|]. split; [by eexists|].
  apply (validateSession_rejects_own_secret Toy.crypto Examples.two_users _ 0 1000
           Examples.session_draws 1 None);
    [reflexivity | reflexivity | discriminate].
Defined.


(** ** Token manager *)

Lemma includes_elem (a : list string) (x : string) : Js.includes a x = true <-> x ∈ a.
Proof.
  unfold Js.includes. rewrite existsb_exists. split.
  - intros (y & Hin & Heq). apply String.eqb_eq in Heq. subst. by apply list_elem_of_In.
  - intros Hin. exists x. split; [by apply list_elem_of_In|apply String.eqb_refl].
Qed.

Lemma includes_not_elem (a : list string) (x : string) : Js.includes a x = false <-> x ∉ a.
Proof.
  rewrite <- includes_elem. destruct (Js.includes a x); split; (done || congruence).
Qed.

(** A required scope is reported missing when it is not granted, except
    that a required [bookmark.read] is also satisfied by a granted
    [bookmarks.read]. *)
Lemma checkScopes_elem grantedScopes requiredScopes scope :
  scope ∈ TokenManager.checkScopes grantedScopes requiredScopes
  <-> scope ∈ requiredScopes
      /\ ~ granted grantedScopes scope
      /\ (scope = "bookmark.read" -> ~ granted grantedScopes "bookmarks.read").
Proof.
  unfold TokenManager.checkScopes, granted.
  rewrite !list_elem_of_In, filter_In, <- !list_elem_of_In.
  destruct (String.eqb_spec scope "bookmark.read") as [->|Hne].
  - rewrite andb_true_iff, !negb_true_iff, !includes_not_elem. tauto.
  - rewrite negb_true_iff, includes_not_elem. tauto.
Qed.

Section TokenProperties.
Variable crypto : NodeCrypto.
Variable config : XConfig.t.

Lemma decrypted_Some tokens td :
  decrypted crypto tokens = Some td <->
  exists access refresh,
    EncryptionManager.decrypt crypto (UserToken.access_token tokens) = Some access
    /\ EncryptionManager.decrypt crypto (UserToken.refresh_token tokens) = Some refresh
    /\ td = TokenData.mk access refresh (UserToken.expires_at tokens)
              (UserToken.granted_scopes tokens).
Proof.
  unfold decrypted.
  destruct (EncryptionManager.decrypt crypto (UserToken.access_token tokens)) as [a|];
    destruct (EncryptionManager.decrypt crypto (UserToken.refresh_token tokens)) as [r|];
    simpl; split; try done; try (intros (? & ? & ? & ? & ?); done).
  - intros [= <-]. by exists a, r.
  - intros (? & ? & [= <-] & [= <-] & ->). done.
Qed.

Lemma decrypted_None tokens :
  decrypted crypto tokens = None <->
  EncryptionManager.decrypt crypto (UserToken.access_token tokens) = None
  \/ EncryptionManager.decrypt crypto (UserToken.refresh_token tokens) = None.
Proof.
  unfold decrypted.
  destruct (EncryptionManager.decrypt crypto (UserToken.access_token tokens)) as [a|];
    destruct (EncryptionManager.decrypt crypto (UserToken.refresh_token tokens)) as [r|];
    simpl; split; try done; try tauto; intros [|]; done.
Qed.

(** The four ways through [getValidAccessToken] once a row is stored. *)
Lemma getValidAccessToken_no_row db env user requiredScopes :
  Db.getUserTokens db (User.id user) = None ->
  TokenManager.getValidAccessToken crypto config db env user requiredScopes
  = mkOutcome db []
      (Rejected (AuthError.mk auth_reauth_required
         ("No tokens found for user " +:+ User.x_username user +:+ ". Please authenticate.")
         (Some (TokenManager.getLoginUrl config)) None)).
Proof. intros H. unfold TokenManager.getValidAccessToken. by rewrite H. Qed.

Lemma getValidAccessToken_undecryptable db env user requiredScopes tokens :
  Db.getUserTokens db (User.id user) = Some tokens ->
  decrypted crypto tokens = None ->
  TokenManager.getValidAccessToken crypto config db env user requiredScopes
  = mkOutcome db []
      (Rejected (AuthError.mk auth_reauth_required
         "Token decryption failed. Please re-authenticate."
         (Some (TokenManager.getLoginUrl config)) None)).
Proof.
  intros H Hd. unfold TokenManager.getValidAccessToken. rewrite H.
  unfold decrypted in Hd.
  destruct (EncryptionManager.decrypt crypto (UserToken.access_token tokens)) as [a|];
    destruct (EncryptionManager.decrypt crypto (UserToken.refresh_token tokens)) as [r|];
    done.
Qed.

Lemma getValidAccessToken_missing db env user requiredScopes tokens td :
  Db.getUserTokens db (User.id user) = Some tokens ->
  decrypted crypto tokens = Some td ->
  missing_for (UserToken.granted_scopes tokens) requiredScopes <> [] ->
  TokenManager.getValidAccessToken crypto config db env user requiredScopes
  = let missingScopes := missing_for (UserToken.granted_scopes tokens) requiredScopes in
    mkOutcome db []
      (Rejected (AuthError.mk auth_scope_insufficient
         ("Missing required scopes: " +:+ Js.join ", " missingScopes)
         (Some (TokenManager.getReAuthUrl config missingScopes)) (Some missingScopes))).
Proof.
  intros H Hd Hm. apply decrypted_Some in Hd as (a & r & Ha & Hr & ->).
  unfold TokenManager.getValidAccessToken. rewrite H, Ha, Hr. simpl.
  unfold missing_for in *.
  destruct requiredScopes as [required|]; [|done].
  destruct (TokenManager.checkScopes (UserToken.granted_scopes tokens) required); done.
Qed.

Lemma getValidAccessToken_fresh db env user requiredScopes tokens td :
  Db.getUserTokens db (User.id user) = Some tokens ->
  decrypted crypto tokens = Some td ->
  missing_for (UserToken.granted_scopes tokens) requiredScopes = [] ->
  TokenManager.now_check env < UserToken.expires_at tokens - 60000 ->
  TokenManager.getValidAccessToken crypto config db env user requiredScopes
  = mkOutcome db [] (TokenManager.logged_and_returned td).
Proof.
  intros H Hd Hm Hlt. apply decrypted_Some in Hd as (a & r & Ha & Hr & ->).
  unfold TokenManager.getValidAccessToken. rewrite H, Ha, Hr. simpl.
  unfold missing_for in Hm.
  assert ((0 <? length match requiredScopes with
                       | Some required =>
                           TokenManager.checkScopes (UserToken.granted_scopes tokens) required
                       | None => []
                       end)%nat = false) as ->.
  { by rewrite Hm. }
  destruct (Z.geb_spec (TokenManager.now_check env) (UserToken.expires_at tokens - 60000));
    [lia|done].
Qed.

Lemma getValidAccessToken_due db env user requiredScopes tokens td :
  Db.getUserTokens db (User.id user) = Some tokens ->
  decrypted crypto tokens = Some td ->
  missing_for (UserToken.granted_scopes tokens) requiredScopes = [] ->
  TokenManager.now_check env >= UserToken.expires_at tokens - 60000 ->
  let refreshed := TokenManager.refreshTokens crypto config db env user td in
  TokenManager.getValidAccessToken crypto config db env user requiredScopes
  = mkOutcome (db_after refreshed) (sent refreshed)
      match settled refreshed with
      | Resolved newTokens => TokenManager.logged_and_returned newTokens
      | Rejected e => Rejected e
      | RejectedSql c => RejectedSql c
      | RejectedRange => RejectedRange
      end.
Proof.
  intros H Hd Hm Hge. apply decrypted_Some in Hd as (a & r & Ha & Hr & ->).
  unfold TokenManager.getValidAccessToken. rewrite H, Ha, Hr. simpl.
  unfold missing_for in Hm.
  assert ((0 <? length match requiredScopes with
                       | Some required =>
                           TokenManager.checkScopes (UserToken.granted_scopes tokens) required
                       | None => []
                       end)%nat = false) as ->.
  { by rewrite Hm. }
  destruct (Z.geb_spec (TokenManager.now_check env) (UserToken.expires_at tokens - 60000));
    [done|lia].
Qed.

Lemma refreshTokens_sent db env user current :
  sent (TokenManager.refreshTokens crypto config db env user current)
  = [TokenManager.refreshRequest config current].
Proof.
  unfold TokenManager.refreshTokens.
  destruct (TokenManager.server env _); simpl; [done..|].
  by destruct (Db.saveUserTokens _ _ _ _).
Qed.

Lemma refreshTokens_reauth db env user current :
  reauth_required (settled (TokenManager.refreshTokens crypto config db env user current))
  <-> refresh_fails env (TokenManager.refreshRequest config current).
Proof.
  unfold reauth_required, refresh_fails, TokenManager.refreshTokens.
  destruct (TokenManager.server env _) as [|text|body]; simpl.
  - split; [done|]. intros _. eexists. by split_and!.
  - split; [done|]. intros _. eexists. by split_and!.
  - split.
    + intros (e & He & _). by destruct (Db.saveUserTokens _ _ _ _).
    + intros Hf. by destruct (Hf body).
Qed.

(** C4, as amended.  When the user has no stored token row, or one of the
    stored encrypted tokens fails to decrypt, [getValidAccessToken] leaves
    the store alone, sends nothing, and rejects with [auth_reauth_required]
    carrying the login hint: no token and no other error.  These are not
    the only such cases: the call ends in [auth_reauth_required] exactly
    when there is no row, or a token does not decrypt, or the scopes
    suffice, the token is due for a refresh and the token endpoint does not
    answer with a success response. *)
Theorem getValidAccessToken_reauth_cases
    (db : XDatabase) (env : TokenManager.Env) (user : User.t)
    (requiredScopes : option (list string)) :
  let out := TokenManager.getValidAccessToken crypto config db env user requiredScopes in
  let no_row := Db.getUserTokens db (User.id user) = None in
  let undecryptable :=
    exists tokens,
      Db.getUserTokens db (User.id user) = Some tokens
      /\ (EncryptionManager.decrypt crypto (UserToken.access_token tokens) = None
          \/ EncryptionManager.decrypt crypto (UserToken.refresh_token tokens) = None) in
  let failed_refresh :=
    exists tokens td,
      Db.getUserTokens db (User.id user) = Some tokens
      /\ decrypted crypto tokens = Some td
      /\ missing_for (UserToken.granted_scopes tokens) requiredScopes = []
      /\ TokenManager.now_check env >= UserToken.expires_at tokens - 60000
      /\ refresh_fails env (TokenManager.refreshRequest config td) in
  (no_row \/ undecryptable ->
   exists e,
     out = mkOutcome db [] (Rejected e)
     /\ AuthError.code e = auth_reauth_required
     /\ AuthError.login_url e = Some (TokenManager.getLoginUrl config)
     /\ AuthError.missing_scopes e = None)
  /\ (reauth_required (settled out) <-> no_row \/ undecryptable \/ failed_refresh).
Proof.
  cbn zeta. split.
  - intros [Hnone|(tokens & Hrow & Hdec)].
    + rewrite getValidAccessToken_no_row by done. eexists. by split_and!.
    + apply decrypted_None in Hdec.
      rewrite (getValidAccessToken_undecryptable _ _ _ _ tokens) by done.
      eexists. by split_and!.
  - destruct (Db.getUserTokens db (User.id user)) as [tokens|] eqn:Hrow.
    2:{ rewrite getValidAccessToken_no_row by done. split; [by left|].
        intros _. eexists. by split_and!. }
    destruct (decrypted crypto tokens) as [td|] eqn:Hdec.
    2:{ rewrite (getValidAccessToken_undecryptable _ _ _ _ tokens) by done. split.
        - intros _. right. left. exists tokens. split; [done|]. by apply decrypted_None.
        - intros _. eexists. by split_and!. }
    destruct (missing_for (UserToken.granted_scopes tokens) requiredScopes) as [|m ms] eqn:Hm.
    2:{ rewrite (getValidAccessToken_missing _ _ _ _ tokens td) by (done || by rewrite Hm).
        simpl. split.
        - intros (e & [= <-] & Hcode & _). done.
        - intros [|[(t' & [= <-] & Hnone)|(t' & td' & [= <-] & _ & Hm' & _)]]; [done| |].
          + apply decrypted_None in Hnone. congruence.
          + congruence. }
    destruct (Z_lt_ge_dec (TokenManager.now_check env) (UserToken.expires_at tokens - 60000))
      as [Hlt|Hge].
    + rewrite (getValidAccessToken_fresh _ _ _ _ tokens td) by done. simpl. split.
      * unfold TokenManager.logged_and_returned.
        destruct (Js.is_time_value _); intros (e & ? & _); done.
      * intros [|[(t' & [= <-] & Hnone)|(t' & td' & [= <-] & _ & _ & Hge & _)]]; [done| |lia].
        apply decrypted_None in Hnone. congruence.
    + rewrite (getValidAccessToken_due _ _ _ _ tokens td) by done. simpl.
      pose proof (refreshTokens_reauth db env user td) as Hre.
      split.
      * intros (e & He & Hcode & Hurl). right. right. exists tokens, td.
        split_and!; [done..|]. apply Hre.
        destruct (settled (TokenManager.refreshTokens crypto config db env user td))
          as [newTokens|e0|c|]; [|injection He as <-; by exists e0|done..].
        unfold TokenManager.logged_and_returned in He.
        by destruct (Js.is_time_value _).
      * intros [|[(t' & [= <-] & Hnone)|(t' & td' & [= <-] & Hd' & _ & _ & Hf)]]; [done| |].
        -- apply decrypted_None in Hnone. congruence.
        -- assert (td' = td) as -> by congruence.
           apply Hre in Hf as (e & -> & ? & ?). by exists e.
Qed.




End TokenProperties.

Lemma or_else_provided (s fallback : string) :
  s <> "" -> Js.or_else (Some s) fallback = s.
Proof. by destruct s. Qed.

Lemma or_else_absent (fallback : string) :
  Js.or_else None fallback = fallback /\ Js.or_else (Some "") fallback = fallback.
Proof. done. Qed.

Section RefreshProperties.
Variable crypto : NodeCrypto.
Variable config : XConfig.t.
Hypothesis decipher_cipher : forall p, decipher crypto (cipher crypto p) = Some p.
Hypothesis cipher_nonempty : forall p, cipher crypto p <> [].


End RefreshProperties.

(** C8.  The code does not treat the two spellings of the bookmark read
    scope as equivalent for [bookmarks.list]: the tool requires both
    [bookmark.read] and [bookmarks.read], and only the first of them may
    be satisfied by the other spelling.  With the provider's singular
    [bookmark.read] granted and the plural absent, the call is rejected
    with [auth_scope_insufficient] listing [bookmarks.read]. *)
Theorem validateToolAccess_bookmarks_list_rejects_singular
    (crypto : NodeCrypto) (config : XConfig.t) (db : XDatabase) (env : TokenManager.Env)
    (user : User.t) (tokens : UserToken.t) (td : TokenData.t) :
  Db.getUserTokens db (User.id user) = Some tokens ->
  decrypted crypto tokens = Some td ->
  granted (UserToken.granted_scopes tokens) "bookmark.read" ->
  ~ granted (UserToken.granted_scopes tokens) "bookmarks.read" ->
  exists e,
    TokenManager.validateToolAccess crypto config db env user "bookmarks.list"
    = mkOutcome db [] (Rejected e)
    /\ AuthError.code e = auth_scope_insufficient
    /\ AuthError.missing_scopes e = Some ["bookmarks.read"].
Proof.
  intros Hrow Hdec Hsing Hplur.
  assert (missing_for (UserToken.granted_scopes tokens)
            (Some (TokenManager.getToolScopes "bookmarks.list")) = ["bookmarks.read"]) as Hm.
  { unfold missing_for, TokenManager.checkScopes, granted in *. simpl.
    apply includes_elem in Hsing. apply includes_not_elem in Hplur.
    by rewrite Hsing, Hplur. }
  unfold TokenManager.validateToolAccess.
  rewrite (getValidAccessToken_missing _ _ _ _ _ _ tokens td) by (done || by rewrite Hm).
  rewrite Hm. eexists. by split_and!.
Qed.

Lemma validateToolAccess_bookmarks_list_rejects_singular_witness :
  exists e,
    TokenManager.validateToolAccess Toy.crypto Examples.local_config
      (Examples.with_tokens "users.read bookmark.read" 10000000) (Examples.env_at 5000 Examples.server_grants)
      Examples.alice "bookmarks.list"
    = mkOutcome (Examples.with_tokens "users.read bookmark.read" 10000000) [] (Rejected e)
    /\ AuthError.code e = auth_scope_insufficient
    /\ AuthError.missing_scopes e = Some ["bookmarks.read"].
Proof.
  apply (validateToolAccess_bookmarks_list_rejects_singular Toy.crypto Examples.local_config
           (Examples.with_tokens "users.read bookmark.read" 10000000) (Examples.env_at 5000 Examples.server_grants)
           Examples.alice (Examples.stored_tokens "users.read bookmark.read" 10000000)
           (TokenData.mk "access-1" "refresh-1" 10000000 "users.read bookmark.read")).
  - reflexivity.
  - reflexivity.
  - apply includes_elem. reflexivity.
  - apply includes_not_elem. reflexivity.
Defined.

(** The scenario of the specification. *)
Example validateToolAccess_bookmarks_add_scenario :
  settled (TokenManager.validateToolAccess Toy.crypto Examples.hosted_config
             (Examples.with_tokens "users.read tweet.read" 10000000) (Examples.env_at 5000 Examples.server_grants)
             Examples.alice "bookmarks.add")
  = Rejected (AuthError.mk auth_scope_insufficient
      "Missing required scopes: bookmark.write"
      (Some "http://localhost:3000/auth/start?additional_scopes=bookmark.write")
      (Some ["bookmark.write"])).
Proof. reflexivity. Qed.


Lemma getValidAccessToken_reauth_cases_witness :
  reauth_required
    (settled (TokenManager.getValidAccessToken Toy.crypto Examples.local_config
                Examples.two_users (Examples.env_at 5000 Examples.server_grants) Examples.alice None)).
Proof.
  apply (getValidAccessToken_reauth_cases Toy.crypto Examples.local_config
           Examples.two_users (Examples.env_at 5000 Examples.server_grants) Examples.alice None).
  left. reflexivity.
Defined.

(** C4, as stated, fails: with a stored row whose tokens decrypt, a refresh
    that the token endpoint denies also ends in [auth_reauth_required]. *)
Lemma getValidAccessToken_reauth_after_failed_refresh :
  let db := Examples.with_tokens "users.read tweet.read" 10000 in
  Db.getUserTokens db 1 = Some (Examples.stored_tokens "users.read tweet.read" 10000)
  /\ EncryptionManager.decrypt Toy.crypto
       (UserToken.access_token (Examples.stored_tokens "users.read tweet.read" 10000)) = Some "access-1"
  /\ EncryptionManager.decrypt Toy.crypto
       (UserToken.refresh_token (Examples.stored_tokens "users.read tweet.read" 10000)) = Some "refresh-1"
  /\ settled (TokenManager.getValidAccessToken Toy.crypto Examples.local_config db
                (Examples.env_at 5000 Examples.server_denies) Examples.alice None)
     = Rejected (AuthError.mk auth_reauth_required
         "Token refresh failed. Please re-authenticate."
         (Some "Please run: npm run auth") None).
Proof. repeat split. Qed.



Example refresh_at_the_boundary :
  sent (TokenManager.getValidAccessToken Toy.crypto Examples.local_config
          (Examples.with_tokens "users.read" 65000) (Examples.env_at 5000 Examples.server_grants) Examples.alice None)
  <> [].
Proof. discriminate. Qed.

Example refresh_denied_deletes_row :
  Db.getUserTokens
    (db_after (TokenManager.getValidAccessToken Toy.crypto Examples.local_config
                 (Examples.with_tokens "users.read" 10000) (Examples.env_at 5000 Examples.server_denies)
                 Examples.alice None)) 1
  = None.
Proof. reflexivity. Qed.

(** * Further properties *)

(** ** Strings *)

Lemma append_cons c r t : String c r +:+ t = String c (r +:+ t).
Proof. reflexivity. Qed.

Lemma append_nil_r s : s +:+ "" = s.
Proof. induction s as [|c r IH]; [done|]. by rewrite append_cons, IH. Qed.

Lemma append_assoc s t u : (s +:+ t) +:+ u = s +:+ (t +:+ u).
Proof. induction s as [|c r IH]; [done|]. by rewrite !append_cons, IH. Qed.

Lemma all_chars_app P s t : all_chars P (s +:+ t) = all_chars P s && all_chars P t.
Proof.
  induction s as [|c r IH]; [done|]. rewrite append_cons. simpl.
  by rewrite IH, andb_assoc.
Qed.

Lemma all_chars_impl (P Q : ascii -> bool) s :
  (forall c, P c = true -> Q c = true) -> all_chars P s = true -> all_chars Q s = true.
Proof.
  intros HPQ. induction s as [|c r IH]; simpl; [done|].
  rewrite !andb_true_iff. intros [? ?]. auto.
Qed.

Lemma contains_all_chars sep s :
  Js.contains sep s = false <-> all_chars (fun c => negb (Ascii.eqb c sep)) s = true.
Proof.
  induction s as [|c r IH]; simpl; [done|].
  rewrite orb_false_iff, andb_true_iff, negb_true_iff, IH. done.
Qed.

(** ** Encryption service: masks, tokens and password hashes *)

(** X1.  [maskToken] shows at most eight code units of a token: a token
    of eight code units or fewer is replaced by three asterisks, a longer
    one by its first four code units, three dots and its last four; the
    mask is 3 or 11 code units long whatever the token's length. *)
Theorem maskToken_shows_at_most_eight (token : Utf16.t) :
  ((length token <= 8)%nat -> EncryptionManager.maskToken token = Utf16.of_utf8 "***")
  /\ ((8 < length token)%nat ->
      exists first middle last,
        token = first ++ middle ++ last
        /\ length first = 4%nat /\ length last = 4%nat
        /\ EncryptionManager.maskToken token = first ++ Utf16.of_utf8 "..." ++ last)
  /\ (length (EncryptionManager.maskToken token) = 3%nat
      \/ length (EncryptionManager.maskToken token) = 11%nat).
Proof.
  unfold EncryptionManager.maskToken.
  destruct (Nat.leb_spec (length token) 8) as [Hle|Hgt].
  - split_and!; [done|lia|by left].
  - assert (length (firstn 4 token) = 4%nat) as Hfirst by (rewrite length_firstn; lia).
    assert (length (skipn (length token - 4) token) = 4%nat) as Hlast
      by (rewrite length_skipn; lia).
    split_and!; [lia| |].
    + intros _.
      exists (firstn 4 token),
             (firstn (length token - 8) (skipn 4 token)),
             (skipn (length token - 4) token).
      split_and!; [|done..].
      replace (skipn (length token - 4) token)
        with (skipn (length token - 8) (skipn 4 token)).
      * by rewrite (firstn_skipn (length token - 8)), firstn_skipn.
      * rewrite skipn_skipn. f_equal. lia.
    + right. rewrite !length_app, Hfirst, Hlast. done.
Qed.

(** The cuts fall between code units, not between characters: the mask
    of a well-formed token can hold a lone surrogate. *)
Example maskToken_splits_a_pair :
  let token := Utf16.of_utf8 "abc" ++ [0xD83D; 0xDE00]%N ++ Utf16.of_utf8 "defgh" in
  Utf16.isWellFormed token = true
  /\ EncryptionManager.maskToken token
     = Utf16.of_utf8 "abc" ++ [0xD83D]%N ++ Utf16.of_utf8 "...efgh"
  /\ Utf16.isWellFormed (EncryptionManager.maskToken token) = false.
Proof. repeat split. Qed.

Lemma list_ind3 {A} (P : list A -> Prop) :
  P [] -> (forall a, P [a]) -> (forall a b, P [a; b]) ->
  (forall a b c r, P r -> P (a :: b :: c :: r)) ->
  forall l, P l.
Proof.
  intros H0 H1 H2 H3.
  fix IH 1. intros [|a [|b [|c r]]]; [done..|]. apply H3, IH.
Qed.

Lemma b64_url_char_safe (n : N) : (n < 64)%N -> url_safe (Buffer.b64_char Buffer.b64_url n) = true.
Proof.
  intros Hn. unfold Buffer.b64_char.
  assert (N.to_nat n < 64)%nat as Hm by lia.
  generalize dependent (N.to_nat n). intros m Hm.
  do 64 (destruct m as [|m]; [reflexivity|]). lia.
Qed.

Lemma b64_bounds (x y z : N) :
  (x <= 255 -> y <= 255 -> z <= 255 ->
   x / 4 < 64 /\ (x mod 4) * 16 < 64 /\ (x mod 4) * 16 + y / 16 < 64
   /\ (y mod 16) * 4 < 64 /\ (y mod 16) * 4 + z / 64 < 64 /\ z mod 64 < 64)%N.
Proof.
  intros Hx Hy Hz.
  assert (x / 4 < 64)%N by (apply N.Div0.div_lt_upper_bound; lia).
  assert (y / 16 < 16)%N by (apply N.Div0.div_lt_upper_bound; lia).
  assert (z / 64 < 4)%N by (apply N.Div0.div_lt_upper_bound; lia).
  pose proof (N.mod_lt x 4 ltac:(lia)).
  pose proof (N.mod_lt y 16 ltac:(lia)).
  pose proof (N.mod_lt z 64 ltac:(lia)).
  lia.
Qed.

Lemma to_base64url_safe (bs : list byte) : all_chars url_safe (Buffer.to_base64url bs) = true.
Proof.
  unfold Buffer.to_base64url.
  induction bs as [|a|a b|a b c r IH] using list_ind3; [done|..].
  - destruct (b64_bounds (Byte.to_N a) 0 0) as (? & ? & _);
      [apply Byte.to_N_bounded|lia..|].
    cbn [Buffer.to_base64_with all_chars]. by rewrite !b64_url_char_safe.
  - destruct (b64_bounds (Byte.to_N a) (Byte.to_N b) 0) as (? & _ & ? & ? & _);
      [apply Byte.to_N_bounded..|lia|].
    cbn [Buffer.to_base64_with all_chars]. by rewrite !b64_url_char_safe.
  - destruct (b64_bounds (Byte.to_N a) (Byte.to_N b) (Byte.to_N c)) as (? & _ & ? & _ & ? & ?);
      [apply Byte.to_N_bounded..|].
    cbn [Buffer.to_base64_with all_chars]. by rewrite !b64_url_char_safe, IH.
Qed.

Lemma length_to_base64url (bs : list byte) :
  String.length (Buffer.to_base64url bs) = ((4 * length bs + 2) / 3)%nat.
Proof.
  unfold Buffer.to_base64url.
  induction bs as [|a|a b|a b c r IH] using list_ind3; [done..|].
  cbn [Buffer.to_base64_with String.length length]. rewrite IH.
  replace (4 * S (S (S (length r))) + 2)%nat with ((4 * length r + 2) + 4 * 3)%nat by lia.
  rewrite Nat.div_add by lia. lia.
Qed.

Lemma encodeURIComponent_unreserved s :
  all_chars Js.unreserved s = true -> Js.encodeURIComponent s = s.
Proof.
  induction s as [|c r IH]; simpl; [done|].
  rewrite andb_true_iff. intros [-> Hr]. by rewrite IH.
Qed.

Lemma url_safe_unreserved c : url_safe c = true -> Js.unreserved c = true.
Proof.
  unfold url_safe, Js.unreserved. cbn zeta. intros H.
  destruct ((65 <=? N_of_ascii c) && (N_of_ascii c <=? 90)
            || (97 <=? N_of_ascii c) && (N_of_ascii c <=? 122)
            || (48 <=? N_of_ascii c) && (N_of_ascii c <=? 57))%N eqn:Halnum; [done|].
  simpl in *. apply orb_true_iff in H as [H|H]; apply N.eqb_eq in H.
  - assert (c = "-"%char) as -> by (rewrite <- (ascii_N_embedding c), H; reflexivity). done.
  - assert (c = "_"%char) as -> by (rewrite <- (ascii_N_embedding c), H; reflexivity). done.
Qed.

Lemma url_safe_not_colon c : url_safe c = true -> negb (Ascii.eqb c ":") = true.
Proof.
  intros H. destruct (Ascii.eqb_spec c ":") as [->|]; [|done]. done.
Qed.

(** X2.  [generateSecureToken] returns only letters, digits, [-] and
    [_]: the token holds no [:] (the separator of the bearer header and of
    the stored ciphertext), is left unchanged by [encodeURIComponent], and
    has [ceil(4n/3)] characters for [n] random bytes. *)
Theorem generateSecureToken_url_safe (random : list byte) :
  let token := EncryptionManager.generateSecureToken random in
  all_chars url_safe token = true
  /\ Js.contains ":" token = false
  /\ Js.encodeURIComponent token = token
  /\ String.length token = ((4 * length random + 2) / 3)%nat.
Proof.
  cbn zeta. unfold EncryptionManager.generateSecureToken.
  pose proof (to_base64url_safe random) as Hsafe. split_and!.
  - done.
  - apply contains_all_chars. revert Hsafe. apply all_chars_impl, url_safe_not_colon.
  - apply encodeURIComponent_unreserved. revert Hsafe.
    apply all_chars_impl, url_safe_unreserved.
  - apply length_to_base64url.
Qed.

Section PasswordProperties.
Variable crypto : NodeCrypto.

(** X3.  A password checks against its own hash: with the hash and salt
    that [hashPassword] returned for a drawn, non-empty salt,
    [verifyPassword] accepts the password whatever bytes it draws itself,
    hashing again with the returned salt gives the same pair, and another
    password is accepted exactly when PBKDF2 maps it to the same key under
    that salt. *)
Theorem verifyPassword_accepts_hashPassword
    (password : string) (random random' : list byte) :
  random <> [] ->
  let hashed := EncryptionManager.hashPassword crypto password None random in
  hashed.2 = Buffer.to_hex random
  /\ EncryptionManager.verifyPassword crypto password hashed.1 hashed.2 random' = true
  /\ EncryptionManager.hashPassword crypto password (Some hashed.2) random' = hashed
  /\ forall other,
       EncryptionManager.verifyPassword crypto other hashed.1 hashed.2 random' = true
       <-> pbkdf2Sync crypto other random = pbkdf2Sync crypto password random.
Proof.
  intros Hne. cbn zeta.
  unfold EncryptionManager.verifyPassword, EncryptionManager.hashPassword. simpl.
  rewrite (to_hex_truthy random Hne), from_hex_to_hex. split_and!.
  - done.
  - apply String.eqb_refl.
  - done.
  - intros other. rewrite String.eqb_eq. split; [apply to_hex_inj|by intros ->].
Qed.

(** X4.  [decrypt] rejects malformed input: a string without [:], an
    empty IV segment, an empty ciphertext segment, and a doubled separator
    all throw 'Invalid encrypted data format' (no result), whatever the
    cipher. *)
Theorem decrypt_rejects_malformed :
  (forall s, Js.contains ":" s = false -> EncryptionManager.decrypt crypto s = None)
  /\ (forall rest, EncryptionManager.decrypt crypto (":" +:+ rest) = None)
  /\ (forall iv, Js.contains ":" iv = false ->
        EncryptionManager.decrypt crypto (iv +:+ ":") = None)
  /\ (forall iv rest, Js.contains ":" iv = false ->
        EncryptionManager.decrypt crypto (iv +:+ "::" +:+ rest) = None).
Proof.
  split_and!.
  - intros s Hs. unfold EncryptionManager.decrypt. by rewrite split_no_sep.
  - intros rest. change (":" +:+ rest) with ("" +:+ String ":" rest).
    rewrite decrypt_segments by done. by destruct (head (Js.split ":" rest)).
  - intros iv Hiv. change ":" with (String ":" "").
    rewrite decrypt_segments by done. simpl. by rewrite orb_true_r.
  - intros iv rest Hiv. change ("::" +:+ rest) with (String ":" (String ":" rest)).
    rewrite decrypt_segments by done. simpl. by rewrite orb_true_r.
Qed.

Hypothesis decipher_cipher : forall p, decipher crypto (cipher crypto p) = Some p.

Lemma cipher_inj p q : cipher crypto p = cipher crypto q -> p = q.
Proof.
  intros H. apply (f_equal (decipher crypto)) in H.
  rewrite !decipher_cipher in H. congruence.
Qed.

(** X5.  The drawn IV does not randomise the ciphertext: for a cipher
    that can be inverted, the ciphertext segments of two [encrypt] results
    are equal exactly when the plaintexts have the same UTF-8 encoding,
    that is, when they agree up to their lone surrogates, whatever the two
    IVs; for plaintexts without lone surrogates, exactly when they are
    equal. *)
Theorem encrypt_ciphertext_segment_ignores_iv (iv1 iv2 : list byte) (x y : Utf16.t) :
  Utf16.units x -> Utf16.units y ->
  let segment iv z :=
    Js.at_index (Js.split ":" (EncryptionManager.encrypt crypto iv (Utf16.to_utf8 z))) 1 in
  (segment iv1 x = segment iv2 y <-> Utf16.toWellFormed x = Utf16.toWellFormed y)
  /\ (Utf16.isWellFormed x = true -> Utf16.isWellFormed y = true ->
      (segment iv1 x = segment iv2 y <-> x = y)).
Proof.
  intros Hx Hy. cbn zeta.
  assert (Js.at_index
            (Js.split ":" (EncryptionManager.encrypt crypto iv1 (Utf16.to_utf8 x))) 1
          = Js.at_index
              (Js.split ":" (EncryptionManager.encrypt crypto iv2 (Utf16.to_utf8 y))) 1
          <-> Utf16.toWellFormed x = Utf16.toWellFormed y) as Hiff.
  { rewrite <- (to_utf8_eq x y Hx Hy), !split_encrypt. simpl. split.
    - intros [= H]. apply to_hex_inj, cipher_inj in H.
      rewrite <- (string_of_list_byte_of_string (Utf16.to_utf8 x)),
        <- (string_of_list_byte_of_string (Utf16.to_utf8 y)).
      by rewrite H.
    - by intros ->. }
  split; [exact Hiff|].
  intros Hwx Hwy. rewrite Hiff.
  by rewrite (toWellFormed_isWellFormed x Hwx), (toWellFormed_isWellFormed y Hwy).
Qed.

End PasswordProperties.

(** ** Persistent store: sessions, users and token rows *)

Lemma or_else_num_expiry expiresAt fallback :
  Js.or_else_num expiresAt fallback = expiry_or expiresAt fallback.
Proof.
  unfold Js.or_else_num, expiry_or. destruct expiresAt as [e|]; [|done].
  destruct (Z.eqb_spec e 0); by case_decide.
Qed.

Lemma getSession_Some db now sid row :
  Db.getSession db now sid = Some row
  <-> sessions db !! sid = Some row /\ now < Session.expires_at row.
Proof.
  unfold Db.getSession. destruct (sessions db !! sid) as [r|]; [|by split; [|intros []]].
  destruct (Z.gtb_spec (Session.expires_at r) now); split.
  - intros [= ->]. split; [done|lia].
  - by intros [[= ->] _].
  - done.
  - intros [[= ->] ?]. lia.
Qed.

(** X6.  A session row can be read back until it expires.  For a free
    session id and a stored user, [createSession] stores the row with the
    given expiry, or thirty days from now when none (or zero) is given;
    [getSession] returns the row strictly before the expiry and nothing from
    the expiry on; other ids are not affected; after [deleteSession] the id
    is gone and the other ids read as before the insertion. *)
Theorem createSession_getSession
    (db : XDatabase) (now userId : Z) (sessionId sessionSecretHash : string)
    (expiresAt : option Z) :
  sessions db !! sessionId = None -> is_Some (users db !! userId) ->
  let expires := expiry_or expiresAt (now + 2592000000) in
  let row := Session.mk sessionId userId now expires sessionSecretHash in
  exists db',
    Db.createSession db now userId sessionId sessionSecretHash expiresAt = SqlOk (db', row)
    /\ (forall t, t < expires -> Db.getSession db' t sessionId = Some row)
    /\ (forall t, expires <= t -> Db.getSession db' t sessionId = None)
    /\ (forall t other, other <> sessionId ->
          Db.getSession db' t other = Db.getSession db t other)
    /\ (forall t, Db.getSession (Db.deleteSession db' sessionId) t sessionId = None)
    /\ (forall t other, other <> sessionId ->
          Db.getSession (Db.deleteSession db' sessionId) t other = Db.getSession db t other).
Proof.
  intros Hfree [u Hu]. cbn zeta. unfold Db.createSession.
  rewrite Hfree, Hu, or_else_num_expiry.
  change Db.thirty_days with 2592000000. eexists. split; [done|].
  unfold Db.getSession, Db.deleteSession. simpl. split_and!.
  - intros t Ht. rewrite lookup_insert_eq. simpl.
    destruct (Z.gtb_spec (expiry_or expiresAt (now + 2592000000)) t); [done|lia].
  - intros t Ht. rewrite lookup_insert_eq. simpl.
    destruct (Z.gtb_spec (expiry_or expiresAt (now + 2592000000)) t); [lia|done].
  - intros t other Hne. by rewrite lookup_insert_ne.
  - intros t. by rewrite lookup_delete_eq.
  - intros t other Hne. by rewrite lookup_delete_ne, lookup_insert_ne.
Qed.

Lemma createSession_getSession_witness :
  exists db' row,
    Db.createSession Examples.two_users 5000 1 "sid-1" "hash" (Some 0) = SqlOk (db', row)
    /\ Db.getSession db' (5000 + 2592000000 - 1) "sid-1" = Some row
    /\ Db.getSession db' (5000 + 2592000000) "sid-1" = None.
Proof.
  destruct (createSession_getSession Examples.two_users 5000 1 "sid-1" "hash" (Some 0))
    as (db' & Hcreate & Hbefore & Hafter & _); [reflexivity | by exists Examples.alice |].
  eexists db', _. split; [exact Hcreate|]. split.
  - apply Hbefore. simpl. lia.
  - apply Hafter. simpl. lia.
Defined.

Lemma getPairingSession_cleanup db now t code :
  now <= t ->
  Db.getPairingSession (Db.cleanupExpiredPairingSessions db now) t code
  = Db.getPairingSession db t code.
Proof.
  intros Hle. unfold Db.getPairingSession, Db.cleanupExpiredPairingSessions. simpl.
  destruct (pairing_sessions db !! code) as [row|] eqn:Hrow.
  - destruct (Z_le_gt_dec (PairingRow.expires_at row) now) as [Hexp|Hlive].
    + rewrite (proj2 (filter_unexpired_deleted PairingRow.expires_at now _ code row Hrow) Hexp).
      destruct (Z.gtb_spec (PairingRow.expires_at row) t); [lia|done].
    + assert (filter (fun kv : string * PairingRow.t => ~ PairingRow.expires_at kv.2 <= now)
                (pairing_sessions db) !! code = Some row) as ->; [|done].
      apply filter_unexpired_lookup. split; [done|lia].
  - assert (filter (fun kv : string * PairingRow.t => ~ PairingRow.expires_at kv.2 <= now)
              (pairing_sessions db) !! code = None) as ->; [|done].
    apply eq_None_not_Some. intros [r Hr].
    apply filter_unexpired_lookup in Hr as [? _]. congruence.
Qed.

Lemma getSession_cleanup db now t sid :
  now <= t ->
  Db.getSession (Db.cleanupExpiredSessions db now) t sid = Db.getSession db t sid.
Proof.
  intros Hle. unfold Db.getSession, Db.cleanupExpiredSessions. simpl.
  destruct (sessions db !! sid) as [row|] eqn:Hrow.
  - destruct (Z_le_gt_dec (Session.expires_at row) now) as [Hexp|Hlive].
    + rewrite (proj2 (filter_unexpired_deleted Session.expires_at now _ sid row Hrow) Hexp).
      destruct (Z.gtb_spec (Session.expires_at row) t); [lia|done].
    + assert (filter (fun kv : string * Session.t => ~ Session.expires_at kv.2 <= now)
                (sessions db) !! sid = Some row) as ->; [|done].
      apply filter_unexpired_lookup. split; [done|lia].
  - assert (filter (fun kv : string * Session.t => ~ Session.expires_at kv.2 <= now)
              (sessions db) !! sid = None) as ->; [|done].
    apply eq_None_not_Some. intros [r Hr].
    apply filter_unexpired_lookup in Hr as [? _]. congruence.
Qed.

(** X7.  The two clean-up statements never change an answer: after a
    clean-up at [now], every later [getSession], [validateSession],
    [getPairingSession] and [checkPairingStatus] returns what it would have
    returned without the clean-up. *)
Theorem cleanup_is_advisory (crypto : NodeCrypto) (db : XDatabase) (now t : Z) :
  now <= t ->
  (forall sid, Db.getSession (Db.cleanupExpiredSessions db now) t sid = Db.getSession db t sid)
  /\ (forall random sid secret,
        SessionManager.validateSession crypto (Db.cleanupExpiredSessions db now) t random
          sid secret
        = SessionManager.validateSession crypto db t random sid secret)
  /\ (forall code,
        Db.getPairingSession (Db.cleanupExpiredPairingSessions db now) t code
        = Db.getPairingSession db t code)
  /\ (forall code,
        OAuthManager.checkPairingStatus (Db.cleanupExpiredPairingSessions db now) t code
        = OAuthManager.checkPairingStatus db t code).
Proof.
  intros Hle. split_and!.
  - intros sid. by apply getSession_cleanup.
  - intros random sid secret. unfold SessionManager.validateSession.
    by rewrite getSession_cleanup.
  - intros code. by apply getPairingSession_cleanup.
  - intros code. unfold OAuthManager.checkPairingStatus.
    by rewrite getPairingSession_cleanup.
Qed.

Lemma cleanup_is_advisory_witness :
  OAuthManager.checkPairingStatus
    (Db.cleanupExpiredPairingSessions Examples.completed_by_alice 1500) 2000 "ABCDEFGH"
  = OAuthManager.checkPairingStatus Examples.completed_by_alice 2000 "ABCDEFGH".
Proof.
  apply (cleanup_is_advisory Toy.crypto Examples.completed_by_alice 1500 2000). lia.
Defined.

Lemma apply_op_created_at db now op u row :
  user_tokens db !! u = Some row -> op <> OpDeleteUserTokens u ->
  exists row', user_tokens (apply_op db now op) !! u = Some row'
               /\ UserToken.created_at row' = UserToken.created_at row.
Proof.
  intros Hrow Hop.
  destruct op as [u' sid h e|sid| |u' td|u'|c v s e|c u'|c| ]; simpl.
  - unfold Db.createSession. destruct (sessions db !! sid); [by exists row|].
    destruct (users db !! u'); by exists row.
  - by exists row.
  - by exists row.
  - unfold Db.saveUserTokens. destruct (users db !! u'); [|by exists row]. simpl.
    destruct (decide (u' = u)) as [->|Hne].
    + rewrite lookup_insert_eq, Hrow. by eexists.
    + rewrite lookup_insert_ne by done. by exists row.
  - assert (u' <> u) by congruence. rewrite lookup_delete_ne by done. by exists row.
  - unfold Db.createPairingSession. destruct (pairing_sessions db !! c); by exists row.
  - unfold Db.completePairingSession. destruct (pairing_sessions db !! c) as [r|]; [|by exists row].
    destruct (PairingRow.expires_at r >? now); [|by exists row].
    destruct (users db !! u'); by exists row.
  - by exists row.
  - by exists row.
Qed.

(** X8.  A token row keeps its creation time: through any history of
    store operations that does not delete the user's tokens, the user still
    has a token row and its [created_at] is the original one (the upsert
    replaces every other column). *)
Theorem token_row_keeps_created_at
    (history : list (Z * Op)) (db : XDatabase) (u : Z) (row : UserToken.t) :
  user_tokens db !! u = Some row ->
  Forall (fun step : Z * Op => step.2 <> OpDeleteUserTokens u) history ->
  exists row', user_tokens (run db history) !! u = Some row'
               /\ UserToken.created_at row' = UserToken.created_at row.
Proof.
  revert db row. induction history as [|[now op] rest IH]; intros db row Hrow Hall; simpl.
  - by exists row.
  - inversion Hall as [|? ? Hop Hrest]; subst. simpl in Hop.
    destruct (apply_op_created_at db now op u row Hrow Hop) as (row1 & Hrow1 & Hc1).
    destruct (IH _ _ Hrow1 Hrest) as (row2 & Hrow2 & Hc2).
    exists row2. split; [done|congruence].
Qed.

Lemma token_row_keeps_created_at_witness :
  exists row',
    user_tokens
      (run (Examples.with_tokens "users.read" 10000)
         [(20000, OpSaveUserTokens 1 (EncryptedTokens.mk "user_123" "users.read tweet.read"
                                        "aa:bb" "cc:dd" 90000));
          (30000, OpCleanupExpiredSessions)]) !! 1 = Some row'
    /\ UserToken.created_at row' = 1000.
Proof.
  apply (token_row_keeps_created_at _ (Examples.with_tokens "users.read" 10000) 1
           (Examples.stored_tokens "users.read" 10000)); [reflexivity|].
  repeat constructor; discriminate.
Defined.

(** ** Persistent store: users *)

Lemma getUserByXUserId_Some_inv db x u :
  Db.getUserByXUserId db x = Some u ->
  exists k, users db !! k = Some u /\ User.x_user_id u = x.
Proof.
  unfold Db.getUserByXUserId.
  destruct (map_to_list _) as [|[k u'] rest] eqn:Hl; simpl; [done|].
  intros [= <-]. exists k.
  assert ((k, u') ∈ map_to_list
            (filter (fun kv : Z * User.t => User.x_user_id kv.2 = x) (users db))) as Hin
    by (rewrite Hl; left).
  apply elem_of_map_to_list, map_lookup_filter_Some in Hin. done.
Qed.

Lemma getUserByXUserId_None db x :
  Db.getUserByXUserId db x = None
  <-> forall k u, users db !! k = Some u -> User.x_user_id u <> x.
Proof.
  unfold Db.getUserByXUserId. split.
  - destruct (map_to_list _) as [|[k' u'] rest] eqn:Hl; simpl; [|done].
    intros _ k u Hk Hx. apply map_to_list_empty_iff in Hl.
    assert (filter (fun kv : Z * User.t => User.x_user_id kv.2 = x) (users db) !! k = Some u)
      as Hf by (by apply map_lookup_filter_Some).
    rewrite Hl in Hf. by rewrite lookup_empty in Hf.
  - intros Hno.
    destruct (map_to_list _) as [|[k u] rest] eqn:Hl; simpl; [done|].
    assert ((k, u) ∈ map_to_list
              (filter (fun kv : Z * User.t => User.x_user_id kv.2 = x) (users db))) as Hin
      by (rewrite Hl; left).
    apply elem_of_map_to_list, map_lookup_filter_Some in Hin as [Hk Hx].
    by destruct (Hno k u Hk).
Qed.

Lemma getUserByXUserId_Some db x k u :
  users_wf db -> users db !! k = Some u -> User.x_user_id u = x ->
  Db.getUserByXUserId db x = Some u.
Proof.
  intros [_ Huniq] Hk Hx.
  destruct (Db.getUserByXUserId db x) as [u'|] eqn:Hget.
  - apply getUserByXUserId_Some_inv in Hget as (k' & Hk' & Hx').
    assert (k' = k) as -> by (apply (Huniq k' k u' u); congruence). congruence.
  - rewrite getUserByXUserId_None in Hget. by destruct (Hget k u Hk).
Qed.

Lemma createUser_wf db now rowid x username displayName db' u :
  users_wf db -> 0 < rowid ->
  Db.createUser db now rowid x username displayName = SqlOk (db', u) ->
  users_wf db'
  /\ u = User.mk rowid now (Js.or_else displayName username) x username
  /\ users db !! rowid = None
  /\ users db' = <[rowid := u]> (users db)
  /\ (sessions db', user_tokens db', pairing_sessions db')
     = (sessions db, user_tokens db, pairing_sessions db).
Proof.
  intros [Hid Huniq] Hpos. unfold Db.createUser.
  destruct (Db.getUserByXUserId db x) eqn:Hget; [done|].
  destruct (users db !! rowid) eqn:Hrow; [done|].
  intros [= <- <-]. split_and!; try done.
  rewrite getUserByXUserId_None in Hget. split; simpl.
  - intros k u Hk. destruct (decide (k = rowid)) as [->|Hne].
    + rewrite lookup_insert_eq in Hk. injection Hk as <-. done.
    + rewrite lookup_insert_ne in Hk by done. by apply Hid.
  - intros k1 k2 u1 u2 H1 H2 Hx.
    destruct (decide (k1 = rowid)) as [->|Hne1]; destruct (decide (k2 = rowid)) as [->|Hne2];
      try done.
    + rewrite lookup_insert_eq in H1. rewrite lookup_insert_ne in H2 by done.
      injection H1 as <-. simpl in Hx. by destruct (Hget k2 u2 H2).
    + rewrite lookup_insert_eq in H2. rewrite lookup_insert_ne in H1 by done.
      injection H2 as <-. simpl in Hx. by destruct (Hget k1 u1 H1).
    + rewrite lookup_insert_ne in H1, H2 by done. by apply (Huniq k1 k2 u1 u2).
Qed.

Lemma createUser_fresh db now rowid x username displayName :
  users_wf db -> 0 < rowid -> users db !! rowid = None ->
  Db.getUserByXUserId db x = None ->
  exists db' u,
    Db.createUser db now rowid x username displayName = SqlOk (db', u)
    /\ users_wf db'
    /\ u = User.mk rowid now (Js.or_else displayName username) x username
    /\ users db' = <[rowid := u]> (users db)
    /\ Db.getUserByXUserId db' x = Some u.
Proof.
  intros Hwf Hpos Hfree Hnone.
  destruct (Db.createUser db now rowid x username displayName) as [[db' u]|c] eqn:Hc.
  2:{ unfold Db.createUser in Hc. by rewrite Hnone, Hfree in Hc. }
  destruct (createUser_wf _ _ _ _ _ _ _ _ Hwf Hpos Hc) as (Hwf' & Hu & _ & Husers & _).
  exists db', u. split_and!; try done.
  apply (getUserByXUserId_Some db' x rowid); [done| |by rewrite Hu].
  rewrite Husers. apply lookup_insert_eq.
Qed.

Lemma updateUser_lookup db id updates k :
  users (Db.updateUser db id updates) !! k
  = if decide (k = id) then Db.apply_updates updates <$> users db !! k else users db !! k.
Proof.
  unfold Db.updateUser.
  destruct updates as [[d|] [n|]]; simpl;
    try (rewrite lookup_alter; repeat case_decide; by subst).
  case_decide; [|done]. unfold Db.apply_updates. simpl.
  destruct (users db !! k) as [[]|]; done.
Qed.

Lemma updateUser_wf db id updates : users_wf db -> users_wf (Db.updateUser db id updates).
Proof.
  intros [Hid Huniq].
  assert (forall k u', users (Db.updateUser db id updates) !! k = Some u' ->
            exists u, users db !! k = Some u /\ User.id u' = User.id u
                      /\ User.x_user_id u' = User.x_user_id u) as Hback.
  { intros k u' Hk. rewrite updateUser_lookup in Hk. case_decide.
    - destruct (users db !! k) as [u|]; [|done]. injection Hk as <-. by exists u.
    - by exists u'. }
  split.
  - intros k u' Hk. destruct (Hback k u' Hk) as (u & Hu & -> & _). by apply Hid.
  - intros k1 k2 u1 u2 H1 H2 Hx.
    destruct (Hback k1 u1 H1) as (v1 & Hv1 & _ & Hx1).
    destruct (Hback k2 u2 H2) as (v2 & Hv2 & _ & Hx2).
    apply (Huniq k1 k2 v1 v2); congruence.
Qed.

(** X9.  [createUser] and [getUserByXUserId].  In a store whose user
    ids are positive and whose X ids are unique, with a fresh row id: a
    second user for a known X id is refused (UNIQUE constraint), and for an
    unknown one the new user is returned, carries the row id, and is found
    by X id and by id, while every other lookup is unchanged and the store
    stays well formed. *)
Theorem createUser_getUser
    (db : XDatabase) (now rowid : Z) (xUserId username : string) (displayName : option string) :
  users_wf db -> 0 < rowid -> users db !! rowid = None ->
  (is_Some (Db.getUserByXUserId db xUserId) ->
   exists c, Db.createUser db now rowid xUserId username displayName = SqlFail c)
  /\ (Db.getUserByXUserId db xUserId = None ->
      exists db' u,
        Db.createUser db now rowid xUserId username displayName = SqlOk (db', u)
        /\ User.id u = rowid /\ User.x_user_id u = xUserId /\ User.x_username u = username
        /\ users_wf db'
        /\ Db.getUserByXUserId db' xUserId = Some u
        /\ Db.getUserById db' rowid = Some u
        /\ (forall other, other <> xUserId ->
              Db.getUserByXUserId db' other = Db.getUserByXUserId db other)
        /\ (forall id, id <> rowid -> Db.getUserById db' id = Db.getUserById db id)).
Proof.
  intros Hwf Hpos Hfree. split.
  - intros [u Hu]. unfold Db.createUser. rewrite Hu. by eexists.
  - intros Hnone.
    destruct (Db.createUser db now rowid xUserId username displayName) as [[db' u]|c] eqn:Hc.
    2:{ unfold Db.createUser in Hc. by rewrite Hnone, Hfree in Hc. }
    destruct (createUser_wf _ _ _ _ _ _ _ _ Hwf Hpos Hc) as (Hwf' & Hu & _ & Husers & _).
    exists db', u. split_and!; try done; try (by rewrite Hu).
    + apply (getUserByXUserId_Some db' xUserId rowid); [done| |by rewrite Hu].
      rewrite Husers. apply lookup_insert_eq.
    + unfold Db.getUserById. rewrite Husers. apply lookup_insert_eq.
    + intros other Hne.
      destruct (Db.getUserByXUserId db other) as [v|] eqn:Hget.
      * apply getUserByXUserId_Some_inv in Hget as (k & Hk & Hx).
        apply (getUserByXUserId_Some db' other k); [done| |done].
        rewrite Husers. rewrite lookup_insert_ne by (intros <-; congruence). done.
      * apply getUserByXUserId_None. rewrite getUserByXUserId_None in Hget.
        intros k v Hk. rewrite Husers in Hk.
        destruct (decide (k = rowid)) as [->|Hnek].
        -- rewrite lookup_insert_eq in Hk. injection Hk as <-. rewrite Hu. simpl. congruence.
        -- rewrite lookup_insert_ne in Hk by done. by apply (Hget k).
    + intros id Hne. unfold Db.getUserById. rewrite Husers. by apply lookup_insert_ne.
Qed.

Lemma two_users_wf : users_wf Examples.two_users.
Proof.
  split.
  - intros k u Hk. simpl in Hk.
    apply lookup_insert_Some in Hk as [[<- <-]|[_ Hk]]; [done|].
    apply lookup_insert_Some in Hk as [[<- <-]|[_ Hk]]; [done|].
    by rewrite lookup_empty in Hk.
  - intros k1 k2 u1 u2 H1 H2 Hx. simpl in H1, H2.
    apply lookup_insert_Some in H1 as [[<- <-]|[_ H1]];
      apply lookup_insert_Some in H2 as [[<- <-]|[_ H2]]; try done.
    + apply lookup_insert_Some in H2 as [[<- <-]|[_ H2]]; [done|].
      by rewrite lookup_empty in H2.
    + apply lookup_insert_Some in H1 as [[<- <-]|[_ H1]]; [done|].
      by rewrite lookup_empty in H1.
    + apply lookup_insert_Some in H1 as [[<- <-]|[_ H1]];
        apply lookup_insert_Some in H2 as [[<- <-]|[_ H2]]; try done;
        by rewrite lookup_empty in *.
Qed.

Lemma createUser_getUser_witness :
  exists db' u,
    Db.createUser Examples.two_users 7000 3 "u1" "alice3" None = SqlOk (db', u)
    /\ Db.getUserByXUserId db' "u1" = Some u
    /\ User.display_name u = "alice3"
    /\ exists c, Db.createUser Examples.two_users 7000 3 "user_123" "again" None = SqlFail c.
Proof.
  destruct (createUser_getUser Examples.two_users 7000 3 "u1" "alice3" None
              two_users_wf ltac:(lia) eq_refl) as [_ Hnew].
  destruct (Hnew eq_refl) as (db' & u & Hc & _ & _ & _ & _ & Hget & _).
  destruct (createUser_getUser Examples.two_users 7000 3 "user_123" "again" None
              two_users_wf ltac:(lia) eq_refl) as [Hdup _].
  exists db', u. split_and!; [done|done| |].
  - vm_compute in Hc. by injection Hc as _ <-.
  - apply Hdup. by eexists.
Defined.

(** ** Session manager: carriers and the local user *)

Lemma split_pair a b :
  Js.contains ":" a = false -> Js.contains ":" b = false ->
  Js.split ":" (a +:+ ":" +:+ b) = [a; b].
Proof.
  intros Ha Hb. change (":" +:+ b) with (String ":" b).
  by rewrite split_app_sep, split_no_sep.
Qed.

Lemma extract_bearer headers token :
  Js.or_value (headers !! "authorization") (headers !! "Authorization")
  = Some ("Bearer " +:+ token) ->
  SessionManager.extractSessionContext (with_headers headers)
  = (Js.at_index (Js.split ":" token) 0, Js.at_index (Js.split ":" token) 1).
Proof.
  intros H. unfold SessionManager.extractSessionContext, with_headers. simpl.
  rewrite H. simpl. change ("" +:+ token) with token. by destruct token.
Qed.

(** X10.  What [createSession] returns travels through the bearer
    header: when the drawn UUID holds no [:], [extractSessionContext] reads
    back the session id and the secret from
    'Bearer <sessionId>:<sessionSecret>'. *)
Theorem created_session_survives_the_bearer_header
    (crypto : NodeCrypto) (db db' : XDatabase) (now : Z) (draws : SessionManager.Draws)
    (userId : Z) (expiresAt : option Z) (sessionId sessionSecret : string)
    (headers : gmap string string) :
  SessionManager.createSession crypto db now draws userId expiresAt
  = SqlOk (db', (sessionId, sessionSecret)) ->
  Js.contains ":" (SessionManager.uuid draws) = false ->
  Js.or_value (headers !! "authorization") (headers !! "Authorization")
  = Some ("Bearer " +:+ sessionId +:+ ":" +:+ sessionSecret) ->
  SessionManager.extractSessionContext (with_headers headers)
  = (Some sessionId, Some sessionSecret).
Proof.
  intros Hcreate Huuid Hauth.
  destruct (createSession_stores _ _ _ _ _ _ _ _ _ Hcreate) as (-> & -> & _).
  rewrite (extract_bearer headers _ Hauth).
  rewrite split_pair; [done|done|].
  apply contains_all_chars. generalize (to_base64url_safe (SessionManager.secret_bytes draws)).
  apply all_chars_impl, url_safe_not_colon.
Qed.

Lemma created_session_survives_the_bearer_header_witness :
  exists db' sid secret,
    SessionManager.createSession Toy.crypto Examples.two_users 0 Examples.session_draws 1 None
    = SqlOk (db', (sid, secret))
    /\ SessionManager.extractSessionContext
         (with_headers {[ "Authorization" := "Bearer " +:+ sid +:+ ":" +:+ secret ]})
       = (Some sid, Some secret).
Proof.
  eexists _, _, _. split; [reflexivity|].
  eapply (created_session_survives_the_bearer_header Toy.crypto Examples.two_users _ 0
            Examples.session_draws 1 None);
    reflexivity.
Defined.

Lemma getUserFromSession_no_id crypto db now random defaultUserId sessionId secret :
  Js.truthy_value sessionId = false ->
  SessionManager.getUserFromSession crypto db now random defaultUserId sessionId secret
  = local_user db defaultUserId.
Proof.
  intros H. unfold SessionManager.getUserFromSession, local_user. rewrite H. simpl.
  destruct defaultUserId as [id|]; simpl; [|done].
  destruct (Z.eqb_spec id 0); by case_decide.
Qed.

(** X11.  A request that carries no session id is served as the local
    user: without [meta], with a bearer header whose credential is empty or
    starts with [:], or without any of the four headers,
    [getUserFromSession] returns the default user (or nobody when there is
    none), whatever the store holds. *)
Theorem requests_without_session_id_are_the_local_user
    (crypto : NodeCrypto) (db : XDatabase) (now : Z) (random : list byte)
    (defaultUserId : option Z) (request : Request.t) :
  Request.meta request = None
  \/ (exists headers rest,
        request = with_headers headers
        /\ Js.or_value (headers !! "authorization") (headers !! "Authorization")
           = Some ("Bearer " +:+ rest)
        /\ (rest = EmptyString \/ Js.startsWith rest ":" = true))
  \/ (exists headers,
        request = with_headers headers
        /\ headers !! "authorization" = None /\ headers !! "Authorization" = None
        /\ headers !! "cookie" = None /\ headers !! "x-session-id" = None) ->
  let context := SessionManager.extractSessionContext request in
  SessionManager.getUserFromSession crypto db now random defaultUserId context.1 context.2
  = local_user db defaultUserId.
Proof.
  intros [Hmeta|[(headers & rest & -> & Hauth & Hrest)|(headers & -> & H1 & H2 & H3 & H4)]];
    cbn zeta; apply getUserFromSession_no_id.
  - unfold SessionManager.extractSessionContext. by rewrite Hmeta.
  - rewrite (extract_bearer headers rest Hauth).
    destruct Hrest as [->|Hcolon]; [done|].
    destruct rest as [|c r]; [done|]. simpl in Hcolon.
    apply andb_true_iff in Hcolon as [Hc _]. simpl. by rewrite Hc.
  - unfold SessionManager.extractSessionContext, with_headers. simpl.
    by rewrite H1, H2, H3, H4.
Qed.

Lemma requests_without_session_id_are_the_local_user_witness :
  let context :=
    SessionManager.extractSessionContext (with_headers {[ "authorization" := "Bearer " ]}) in
  SessionManager.getUserFromSession Toy.crypto Examples.two_users 0 [] (Some 1)
    context.1 context.2
  = Some Examples.alice.
Proof.
  apply (requests_without_session_id_are_the_local_user Toy.crypto Examples.two_users 0 []
           (Some 1) (with_headers {[ "authorization" := "Bearer " ]})).
  right. left. exists {[ "authorization" := "Bearer " ]}, "". split_and!; [done|done|by left].
Defined.

(** X12.  A session id alone authenticates: a bearer header holding an
    unexpired session id and no secret makes [requireUser] return the
    session's user; the stored secret hash is not consulted. *)
Theorem session_id_alone_authenticates
    (crypto : NodeCrypto) (db : XDatabase) (now : Z) (random : list byte)
    (defaultUserId : option Z) (headers : gmap string string)
    (sessionId : string) (session : Session.t) (user : User.t) :
  sessionId <> EmptyString -> Js.contains ":" sessionId = false ->
  Js.or_value (headers !! "authorization") (headers !! "Authorization")
  = Some ("Bearer " +:+ sessionId) ->
  sessions db !! sessionId = Some session -> now < Session.expires_at session ->
  users db !! Session.user_id session = Some user ->
  let context := SessionManager.extractSessionContext (with_headers headers) in
  context = (Some sessionId, None)
  /\ SessionManager.requireUser crypto db now random defaultUserId context.1 context.2
     = Returned user.
Proof.
  intros Hne Hcolon Hauth Hrow Hlive Huser. cbn zeta.
  rewrite (extract_bearer headers sessionId Hauth), split_no_sep by done. simpl.
  split; [done|].
  assert (Db.getSession db now sessionId = Some session) as Hget
    by (by apply getSession_Some).
  unfold SessionManager.requireUser, SessionManager.getUserFromSession.
  destruct sessionId as [|c r]; [done|]. simpl.
  unfold SessionManager.validateSession. rewrite Hget.
  unfold Db.getUserById. by rewrite Huser.
Qed.

Lemma session_id_alone_authenticates_witness :
  exists db' sid secret,
    SessionManager.createSession Toy.crypto Examples.two_users 0 Examples.session_draws 1 None
    = SqlOk (db', (sid, secret))
    /\ let context :=
         SessionManager.extractSessionContext
           (with_headers {[ "authorization" := "Bearer " +:+ sid ]}) in
       SessionManager.requireUser Toy.crypto db' 1000 [] None context.1 context.2
       = Returned Examples.alice.
Proof.
  eexists _, _, _. split; [reflexivity|].
  eapply (session_id_alone_authenticates Toy.crypto _ 1000 [] None
            {[ "authorization" := "Bearer " +:+ "6f1c2d3e-0000-4000-8000-000000000001" ]}
            "6f1c2d3e-0000-4000-8000-000000000001");
    [discriminate | reflexivity | reflexivity | reflexivity | reflexivity | reflexivity].
Defined.

(** X13.  [requireUser] throws [auth_invalid_session] for a non-empty
    session id that is unknown or expired, with or without a secret; it does
    not fall back to the default user. *)
Theorem requireUser_rejects_dead_sessions
    (crypto : NodeCrypto) (db : XDatabase) (now : Z) (random : list byte)
    (defaultUserId : option Z) (sessionId : string) (sessionSecret : option string) :
  sessionId <> EmptyString ->
  (forall session, sessions db !! sessionId = Some session -> Session.expires_at session <= now) ->
  SessionManager.requireUser crypto db now random defaultUserId (Some sessionId) sessionSecret
  = Thrown (AuthErr (AuthError.mk auth_invalid_session "Invalid or expired session" None None)).
Proof.
  intros Hne Hdead.
  assert (Db.getSession db now sessionId = None) as Hget.
  { apply eq_None_not_Some. intros [s Hs]. apply getSession_Some in Hs as [Hs Hlive].
    specialize (Hdead s Hs). lia. }
  unfold SessionManager.requireUser, SessionManager.getUserFromSession.
  destruct sessionId as [|c r]; [done|]. simpl.
  unfold SessionManager.validateSession. by rewrite Hget.
Qed.

Lemma requireUser_rejects_dead_sessions_witness :
  exists db' sid secret,
    SessionManager.createSession Toy.crypto Examples.two_users 0 Examples.session_draws 1
      (Some 5000)
    = SqlOk (db', (sid, secret))
    /\ SessionManager.requireUser Toy.crypto db' 5000 [] (Some 1) (Some sid) None
       = Thrown (AuthErr (AuthError.mk auth_invalid_session "Invalid or expired session"
                            None None)).
Proof.
  eexists _, _, _. split; [reflexivity|].
  apply requireUser_rejects_dead_sessions; [discriminate|].
  intros session Hs. vm_compute in Hs. injection Hs as <-. simpl. lia.
Defined.

(** X14.  [initializeDefaultUser] is idempotent: the first call
    returns the id of the user with X id 'local_user', creating it only when
    it is missing; a second call returns the same id and leaves the store as
    it is; with that id as default, a request without a session is served as
    this user. *)
Theorem initializeDefaultUser_idempotent
    (crypto : NodeCrypto) (db : XDatabase) (now rowid now' rowid' : Z) :
  users_wf db -> 0 < rowid -> users db !! rowid = None ->
  exists db' id user,
    SessionManager.initializeDefaultUser db now rowid = SqlOk (db', id)
    /\ users_wf db'
    /\ SessionManager.initializeDefaultUser db' now' rowid' = SqlOk (db', id)
    /\ users db' !! id = Some user
    /\ User.x_user_id user = "local_user"
    /\ (forall t random secret,
          SessionManager.getUserFromSession crypto db' t random (Some id) None secret
          = Some user)
    /\ (is_Some (Db.getUserByXUserId db "local_user") -> db' = db).
Proof.
  intros Hwf Hpos Hfree. unfold SessionManager.initializeDefaultUser.
  destruct (Db.getUserByXUserId db "local_user") as [u|] eqn:Hget.
  - destruct (getUserByXUserId_Some_inv _ _ _ Hget) as (k & Hk & Hx).
    destruct Hwf as [Hid Huniq]. destruct (Hid k u Hk) as [Hidk Hkpos].
    exists db, (User.id u), u. rewrite Hget. split_and!; try done.
    + by rewrite Hidk.
    + intros t random secret. rewrite getUserFromSession_no_id by done.
      unfold local_user. case_decide; [lia|]. by rewrite Hidk.
  - destruct (createUser_fresh db now rowid "local_user" "local_user" (Some "Local User")
                Hwf Hpos Hfree Hget) as (db' & u & Hc & Hwf' & Hu & Husers & Hget').
    assert (User.id u = rowid) as Hidu by (by rewrite Hu).
    rewrite Hc. exists db', (User.id u), u. rewrite Hget'. split_and!; try done.
    + rewrite Husers, Hidu. apply lookup_insert_eq.
    + by rewrite Hu.
    + intros t random secret. rewrite getUserFromSession_no_id by done.
      unfold local_user. case_decide; [lia|]. unfold Db.getUserById. simpl.
      rewrite Husers, Hidu. apply lookup_insert_eq.
Qed.

Lemma initializeDefaultUser_idempotent_witness :
  exists db' id,
    SessionManager.initializeDefaultUser Examples.two_users 100 3 = SqlOk (db', id)
    /\ SessionManager.initializeDefaultUser db' 200 4 = SqlOk (db', id).
Proof.
  destruct (initializeDefaultUser_idempotent Toy.crypto Examples.two_users 100 3 200 4
              two_users_wf ltac:(lia) eq_refl) as (db' & id & _ & H1 & _ & H2 & _).
  by exists db', id.
Defined.

(** X15.  A local session lasts one year from the call: when the
    target user (the given id, else the default one) is stored and the drawn
    UUID is free, [createLocalSession] returns the UUID, which authenticates
    the user until 365 days after the first clock reading and nobody from
    then on. *)
Theorem createLocalSession_lasts_a_year
    (crypto : NodeCrypto) (db : XDatabase) (now_call now : Z) (draws : SessionManager.Draws)
    (defaultUserId userId : option Z) (target : Z) (user : User.t) :
  0 <= now_call ->
  (if Js.truthy_num userId then userId else defaultUserId) = Some target ->
  target <> 0 -> users db !! target = Some user ->
  SessionManager.uuid draws <> EmptyString ->
  sessions db !! SessionManager.uuid draws = None ->
  exists db' secret,
    SessionManager.createLocalSession crypto db now_call now draws defaultUserId userId
    = Returned (db', (SessionManager.uuid draws, secret))
    /\ (forall t random,
          t < now_call + 31536000000 ->
          SessionManager.getUserFromSession crypto db' t random defaultUserId
            (Some (SessionManager.uuid draws)) None
          = Some user)
    /\ (forall t random sessionSecret,
          now_call + 31536000000 <= t ->
          SessionManager.getUserFromSession crypto db' t random defaultUserId
            (Some (SessionManager.uuid draws)) sessionSecret
          = None).
Proof.
  intros Hclock Htarget Hne Huser Huuid Hfree.
  unfold SessionManager.createLocalSession. rewrite Htarget.
  destruct (Z.eqb_spec target 0); [done|].
  unfold SessionManager.createSession, Db.createSession. rewrite Hfree, Huser.
  rewrite or_else_num_expiry. unfold expiry_or.
  change SessionManager.one_year with 31536000000.
  case_decide; [lia|].
  eexists _, _. split; [done|].
  unfold SessionManager.getUserFromSession, SessionManager.validateSession, Db.getSession.
  destruct (SessionManager.uuid draws) as [|c r] eqn:Hid; [done|]. simpl.
  rewrite lookup_insert_eq. simpl. split.
  - intros t random Ht.
    destruct (Z.gtb_spec (now_call + 31536000000) t); [|lia].
    unfold Db.getUserById. simpl. by rewrite Huser.
  - intros t random sessionSecret Ht.
    destruct (Z.gtb_spec (now_call + 31536000000) t); [lia|done].
Qed.

Lemma createLocalSession_lasts_a_year_witness :
  exists db' secret,
    SessionManager.createLocalSession Toy.crypto Examples.two_users 1000 1001
      Examples.session_draws (Some 1) None
    = Returned (db', (SessionManager.uuid Examples.session_draws, secret))
    /\ SessionManager.getUserFromSession Toy.crypto db' 31536000999 [] (Some 1)
         (Some (SessionManager.uuid Examples.session_draws)) None
       = Some Examples.alice.
Proof.
  destruct (createLocalSession_lasts_a_year Toy.crypto Examples.two_users 1000 1001
              Examples.session_draws (Some 1) None 1 Examples.alice)
    as (db' & secret & Hcreate & Hlive & _);
    [lia | reflexivity | lia | reflexivity | discriminate | reflexivity |].
  exists db', secret. split; [exact Hcreate|]. apply Hlive. lia.
Defined.

Lemma take_until_app sep v rest :
  Js.contains sep v = false ->
  rest = EmptyString \/ Js.startsWith rest (String sep EmptyString) = true ->
  Js.take_until sep (v +:+ rest) = v.
Proof.
  intros Hv Hrest. induction v as [|c r IH].
  - change ("" +:+ rest) with rest. destruct Hrest as [->|Hs]; [done|].
    destruct rest as [|c r]; [done|]. simpl in *.
    apply andb_true_iff in Hs as [-> _]. done.
  - rewrite append_cons. simpl in *. apply orb_false_iff in Hv as [-> Hr].
    by rewrite IH.
Qed.

Lemma match_session_leading v rest :
  v <> EmptyString -> Js.contains ";" v = false ->
  rest = EmptyString \/ Js.startsWith rest ";" = true ->
  SessionManager.match_session ("session=" +:+ v +:+ rest) = Some v.
Proof.
  intros Hne Hv Hrest.
  change ("session=" +:+ v +:+ rest)
    with (String "s" (String "e" (String "s" (String "s" (String "i" (String "o"
            (String "n" (String "=" (v +:+ rest))))))))).
  cbn [SessionManager.match_session Js.startsWith Js.drop]. simpl.
  destruct (v +:+ rest) eqn:Hvr.
  - destruct v; [done|]. by rewrite append_cons in Hvr.
  - rewrite <- Hvr, take_until_app by done. by destruct v.
Qed.

(** X16.  Without an authorization header, the session is read from
    the cookie: for a cookie string that starts with
    'session=<id>:<secret>', followed by nothing or by [;],
    [extractSessionContext] returns the id and the secret. *)
Theorem extractSessionContext_session_cookie
    (headers : gmap string string) (sessionId sessionSecret rest : string) :
  headers !! "authorization" = None -> headers !! "Authorization" = None ->
  headers !! "cookie" = Some ("session=" +:+ (sessionId +:+ ":" +:+ sessionSecret) +:+ rest) ->
  Js.contains ";" sessionId = false -> Js.contains ":" sessionId = false ->
  Js.contains ";" sessionSecret = false -> Js.contains ":" sessionSecret = false ->
  rest = EmptyString \/ Js.startsWith rest ";" = true ->
  SessionManager.extractSessionContext (with_headers headers)
  = (Some sessionId, Some sessionSecret).
Proof.
  intros H1 H2 Hcookie Hs1 Hs2 Hs3 Hs4 Hrest.
  unfold SessionManager.extractSessionContext, with_headers. simpl.
  rewrite H1, H2, Hcookie.
  cbn [Js.or_value Js.truthy_value andb].
  change (default "" (Some ?x)) with x.
  assert (Js.truthy ("session=" +:+ (sessionId +:+ ":" +:+ sessionSecret) +:+ rest) = true)
    as -> by done.
  rewrite match_session_leading; [| |  |done].
  - by rewrite split_pair.
  - destruct sessionId; done.
  - change (":" +:+ sessionSecret) with (String ":" sessionSecret).
    rewrite contains_app. simpl. by rewrite Hs1, Hs3.
Qed.

Lemma extractSessionContext_session_cookie_witness :
  SessionManager.extractSessionContext
    (with_headers {[ "cookie" := "session=" +:+ ("abc" +:+ ":" +:+ "s3cr3t") +:+ "; theme=dark" ]})
  = (Some "abc", Some "s3cr3t").
Proof.
  apply (extractSessionContext_session_cookie
           {[ "cookie" := "session=" +:+ ("abc" +:+ ":" +:+ "s3cr3t") +:+ "; theme=dark" ]}
           "abc" "s3cr3t" "; theme=dark"); try reflexivity.
  by right.
Defined.

Example cookie_regex_is_not_anchored :
  SessionManager.extractSessionContext
    (with_headers {[ "cookie" := "nosession=abc:def; session=real:one" ]})
  = (Some "abc", Some "def").
Proof. reflexivity. Qed.

(** ** OAuth flow controller: starting the hosted flow *)

Lemma charAt_pairing_alphabet i :
  (i < 34)%nat ->
  exists c, Js.charAt OAuthManager.pairing_alphabet i = String c EmptyString
            /\ pairing_char c = true.
Proof.
  intros Hi. do 34 (destruct i as [|i]; [by eexists|]). lia.
Qed.

Lemma generatePairingCode_chars (draw : nat -> nat) :
  (forall i, (draw i < 34)%nat) ->
  exists c0 c1 c2 c3 c4 c5 c6 c7,
    OAuthManager.generatePairingCode draw
    = String c0 (String c1 (String c2 (String c3 (String c4 (String c5 (String c6
        (String c7 EmptyString)))))))
    /\ Forall (fun c => pairing_char c = true) [c0; c1; c2; c3; c4; c5; c6; c7].
Proof.
  intros Hdraw. unfold OAuthManager.generatePairingCode. simpl.
  destruct (charAt_pairing_alphabet (draw 0%nat) (Hdraw _)) as (c0 & -> & H0).
  destruct (charAt_pairing_alphabet (draw 1%nat) (Hdraw _)) as (c1 & -> & H1).
  destruct (charAt_pairing_alphabet (draw 2%nat) (Hdraw _)) as (c2 & -> & H2).
  destruct (charAt_pairing_alphabet (draw 3%nat) (Hdraw _)) as (c3 & -> & H3).
  destruct (charAt_pairing_alphabet (draw 4%nat) (Hdraw _)) as (c4 & -> & H4).
  destruct (charAt_pairing_alphabet (draw 5%nat) (Hdraw _)) as (c5 & -> & H5).
  destruct (charAt_pairing_alphabet (draw 6%nat) (Hdraw _)) as (c6 & -> & H6).
  destruct (charAt_pairing_alphabet (draw 7%nat) (Hdraw _)) as (c7 & -> & H7).
  exists c0, c1, c2, c3, c4, c5, c6, c7. split; [reflexivity|].
  repeat constructor; done.
Qed.

Lemma pairing_char_unreserved c : pairing_char c = true -> Js.unreserved c = true.
Proof.
  unfold pairing_char, Js.unreserved. cbn zeta. intros Hc.
  apply orb_true_iff. left.
  apply orb_true_iff in Hc as [Hc|Hc].
  - apply andb_true_iff in Hc as [Hc _]. by rewrite Hc.
  - apply andb_true_iff in Hc as [Ha Hb].
    assert ((48 <=? N_of_ascii c)%N = true) as ->
      by (apply N.leb_le; apply N.leb_le in Ha; lia).
    rewrite Hb. by rewrite !orb_true_r.
Qed.

(** X17.  A pairing code is eight characters of the 34-letter
    alphabet: for draws below 34 it never holds [O] or [0], and
    [encodeURIComponent] leaves it as it is, so it can be appended to the
    login URL unescaped. *)
Theorem generatePairingCode_alphabet (draw : nat -> nat) :
  (forall i, (draw i < 34)%nat) ->
  let code := OAuthManager.generatePairingCode draw in
  String.length code = 8%nat
  /\ all_chars pairing_char code = true
  /\ Js.contains "O" code = false /\ Js.contains "0" code = false
  /\ Js.encodeURIComponent code = code.
Proof.
  intros Hdraw. cbn zeta.
  destruct (generatePairingCode_chars draw Hdraw)
    as (c0 & c1 & c2 & c3 & c4 & c5 & c6 & c7 & -> & Hall).
  assert (all_chars pairing_char (String c0 (String c1 (String c2 (String c3 (String c4
            (String c5 (String c6 (String c7 "")))))))) = true) as Hchars.
  { simpl. repeat (apply Forall_cons in Hall as [-> Hall]). done. }
  split_and!; [done|done| | |].
  - apply contains_all_chars. revert Hchars. apply all_chars_impl.
    intros c Hc. destruct (Ascii.eqb_spec c "O") as [->|]; done.
  - apply contains_all_chars. revert Hchars. apply all_chars_impl.
    intros c Hc. destruct (Ascii.eqb_spec c "0") as [->|]; done.
  - apply encodeURIComponent_unreserved. revert Hchars.
    apply all_chars_impl, pairing_char_unreserved.
Qed.

Lemma generatePairingCode_alphabet_witness :
  OAuthManager.generatePairingCode (fun i => Nat.min (i + 10) 33) = "KLMNPQRS"
  /\ Js.contains "O" (OAuthManager.generatePairingCode (fun i => Nat.min (i + 10) 33)) = false.
Proof.
  split; [reflexivity|].
  apply (generatePairingCode_alphabet (fun i => Nat.min (i + 10) 33)).
  intros i. lia.
Defined.

(** X18.  [startHostedAuth] opens a pending pairing session.  A drawn
    code that is already stored makes it throw and leaves the store; for a
    free code it returns the code and the login URL built on the base URL
    (or on http://localhost:3000), the status poll of the code is
    unverified at every instant, the session is readable with the drawn
    verifier and state for ten minutes and not from then on, and the other
    codes are not affected. *)
Theorem startHostedAuth_is_pending
    (config : XConfig.t) (db : XDatabase) (now : Z) (draws : OAuthManager.HostedDraws) :
  let code := OAuthManager.generatePairingCode (OAuthManager.code_draw draws) in
  let verifier := Buffer.to_base64url (OAuthManager.verifier_bytes draws) in
  let state := Buffer.to_base64url (OAuthManager.state_bytes draws) in
  (is_Some (pairing_sessions db !! code) ->
   exists c, OAuthManager.startHostedAuth config db now draws = (db, Thrown (SqliteError c)))
  /\ (pairing_sessions db !! code = None ->
      exists db' url,
        OAuthManager.startHostedAuth config db now draws
        = (db', Returned (AuthStartResponse.mk (Some code) (Some url) None))
        /\ url = Js.or_else (XConfig.baseUrl config) "http://localhost:3000"
                 +:+ "/login?pairing_code=" +:+ code
        /\ (forall t, OAuthManager.checkPairingStatus db' t code
                      = AuthStatusResponse.mk false None)
        /\ (forall t, t < now + 600000 ->
              Db.getPairingSession db' t code
              = Some (PairingSession.mk code now (now + 600000) verifier state None false))
        /\ (forall t, now + 600000 <= t -> Db.getPairingSession db' t code = None)
        /\ (forall t other, other <> code ->
              Db.getPairingSession db' t other = Db.getPairingSession db t other)).
Proof.
  cbn zeta. unfold OAuthManager.startHostedAuth, Db.createPairingSession,
    OAuthManager.generateCodeVerifier. split.
  - intros [row Hrow]. rewrite Hrow. by eexists.
  - intros Hfree. rewrite Hfree. simpl. change Db.ten_minutes with 600000.
    eexists _, _. split; [done|]. split; [done|].
    unfold OAuthManager.checkPairingStatus, Db.getPairingSession. simpl. split_and!.
    + intros t. rewrite lookup_insert_eq. simpl. by destruct (now + 600000 >? t).
    + intros t Ht. rewrite lookup_insert_eq. simpl.
      destruct (Z.gtb_spec (now + 600000) t); [done|lia].
    + intros t Ht. rewrite lookup_insert_eq. simpl.
      destruct (Z.gtb_spec (now + 600000) t); [lia|done].
    + intros t other Hne. by rewrite lookup_insert_ne.
Qed.

(** ** Token manager: scopes, diagnostics and what follows a refresh *)

Lemma filter_sublist {A} (f : A -> bool) (l : list A) : sublist (List.filter f l) l.
Proof.
  induction l as [|a l IH]; simpl; [constructor|].
  destruct (f a); by constructor.
Qed.

Lemma checkScopes_unsatisfied grantedScopes requiredScopes scope :
  scope ∈ TokenManager.checkScopes grantedScopes requiredScopes
  <-> scope ∈ requiredScopes /\ ~ satisfied grantedScopes scope.
Proof.
  rewrite checkScopes_elem. unfold satisfied. tauto.
Qed.

(** X19.  [checkScopes] reports exactly the required scopes that the
    grant does not satisfy, in the order they were required; the result is
    empty exactly when every required scope is satisfied, and granting more
    scopes never adds to it. *)
Theorem checkScopes_reports_the_unsatisfied (grantedScopes : string) (requiredScopes : list string) :
  (forall scope,
      scope ∈ TokenManager.checkScopes grantedScopes requiredScopes
      <-> scope ∈ requiredScopes /\ ~ satisfied grantedScopes scope)
  /\ sublist (TokenManager.checkScopes grantedScopes requiredScopes) requiredScopes
  /\ (TokenManager.checkScopes grantedScopes requiredScopes = []
      <-> forall scope, scope ∈ requiredScopes -> satisfied grantedScopes scope)
  /\ (forall more scope,
        (forall s, granted grantedScopes s -> granted more s) ->
        scope ∈ TokenManager.checkScopes more requiredScopes ->
        scope ∈ TokenManager.checkScopes grantedScopes requiredScopes).
Proof.
  split_and!.
  - intros scope. apply checkScopes_unsatisfied.
  - apply filter_sublist.
  - split.
    + intros Hnil scope Hreq.
      destruct (decide (scope ∈ Js.split " " grantedScopes)) as [|Hno]; [by left|].
      destruct (decide (scope = "bookmark.read"
                        /\ "bookmarks.read" ∈ Js.split " " grantedScopes)) as [|Hno'];
        [by right|].
      assert (scope ∈ TokenManager.checkScopes grantedScopes requiredScopes) as Hin.
      { apply checkScopes_unsatisfied. split; [done|]. by intros [|]. }
      rewrite Hnil in Hin. by apply elem_of_nil in Hin.
    + intros Hall.
      destruct (TokenManager.checkScopes grantedScopes requiredScopes) as [|m ms] eqn:Hc;
        [done|].
      assert (m ∈ TokenManager.checkScopes grantedScopes requiredScopes) as Hin
        by (rewrite Hc; left).
      apply checkScopes_unsatisfied in Hin as [Hreq Hnot]. by destruct (Hnot (Hall m Hreq)).
  - intros more scope Hmore. rewrite !checkScopes_unsatisfied.
    intros [Hreq Hnot]. split; [done|].
    intros [Hg|[-> Hg]]; apply Hnot; [left|right]; auto.
Qed.

(** X20.  The scopes the OAuth flow asks for do not cover the bookmark
    writes: a grant that [checkRequiredScopes] finds complete holds
    'bookmarks.write', and unless it also holds 'bookmark.write' the token
    manager reports that scope missing for bookmarks.add and
    bookmarks.remove, while tweet.create passes. *)
Theorem requested_scopes_do_not_cover_bookmark_writes (grantedScopes : string) :
  OAuthManager.checkRequiredScopes grantedScopes = [] ->
  ~ granted grantedScopes "bookmark.write" ->
  granted grantedScopes "bookmarks.write"
  /\ TokenManager.checkScopes grantedScopes (TokenManager.getToolScopes "bookmarks.add")
     = ["bookmark.write"]
  /\ TokenManager.checkScopes grantedScopes (TokenManager.getToolScopes "bookmarks.remove")
     = ["bookmark.write"]
  /\ TokenManager.checkScopes grantedScopes (TokenManager.getToolScopes "tweet.create") = [].
Proof.
  unfold OAuthManager.checkRequiredScopes, OAuthManager.getRequiredScopes, granted.
  intros Hall Hno. apply includes_not_elem in Hno.
  simpl in Hall.
  destruct (Js.includes (Js.split " " grantedScopes) "users.read") eqn:H1; [|done].
  destruct (Js.includes (Js.split " " grantedScopes) "tweet.read") eqn:H2; [|done].
  destruct (Js.includes (Js.split " " grantedScopes) "tweet.write") eqn:H3; [|done].
  destruct (negb (Js.includes (Js.split " " grantedScopes) "bookmark.read")
            && negb (Js.includes (Js.split " " grantedScopes) "bookmarks.read")) eqn:H4;
    [done|].
  destruct (Js.includes (Js.split " " grantedScopes) "bookmarks.write") eqn:H5; [|done].
  split_and!.
  - by apply includes_elem.
  - unfold TokenManager.checkScopes. simpl. by rewrite Hno.
  - unfold TokenManager.checkScopes. simpl. by rewrite Hno.
  - unfold TokenManager.checkScopes. simpl. by rewrite H3.
Qed.

Lemma requested_scopes_do_not_cover_bookmark_writes_witness :
  TokenManager.checkScopes OAuthManager.getScopesString
    (TokenManager.getToolScopes "bookmarks.add")
  = ["bookmark.write"].
Proof.
  apply (requested_scopes_do_not_cover_bookmark_writes OAuthManager.getScopesString).
  - reflexivity.
  - apply includes_not_elem. reflexivity.
Defined.

Lemma maskToken_length token :
  length (EncryptionManager.maskToken token) = 3%nat
  \/ length (EncryptionManager.maskToken token) = 11%nat.
Proof.
  unfold EncryptionManager.maskToken.
  destruct (Nat.leb_spec (length token) 8) as [Hle|Hgt]; [by left|right].
  rewrite !length_app, length_firstn, length_skipn.
  change (length (Utf16.of_utf8 "...")) with 3%nat. lia.
Qed.

Section DiagnosticProperties.
Variable crypto : NodeCrypto.
Variable config : XConfig.t.

(** X21.  The diagnosis agrees with the access check.  For a stored,
    decryptable token row and a named tool, at the same clock reading:
    [validateUserTokens] says valid exactly when [validateToolAccess]
    sends nothing, leaves the store, and returns the stored access token
    or, when the stored expiry is not a time value, throws the RangeError
    of its log line; the missing scopes it lists are the ones of the
    [auth_scope_insufficient] error; and it says 'Token expired' exactly
    when the access check sends a refresh request. *)
Theorem validateUserTokens_agrees_with_validateToolAccess
    (db : XDatabase) (env : TokenManager.Env) (user : User.t) (toolName : string)
    (tokens : UserToken.t) (td : TokenData.t) :
  Db.getUserTokens db (User.id user) = Some tokens ->
  decrypted crypto tokens = Some td ->
  toolName <> EmptyString ->
  let verdict :=
    TokenManager.validateUserTokens crypto db (TokenManager.now_check env) user
      (Some toolName) in
  let out := TokenManager.validateToolAccess crypto config db env user toolName in
  (TokenManager.valid verdict = true
   <-> out = mkOutcome db []
               (if Js.is_time_value (UserToken.expires_at tokens)
                then Resolved (TokenData.access_token td) else RejectedRange))
  /\ (forall missing,
        TokenManager.verdict_missingScopes verdict = Some missing ->
        exists e, out = mkOutcome db [] (Rejected e)
                  /\ AuthError.code e = auth_scope_insufficient
                  /\ AuthError.missing_scopes e = Some missing)
  /\ (TokenManager.reason verdict = Some "Token expired"
      <-> sent out = [TokenManager.refreshRequest config td]).
Proof.
  intros Hrow Hdec Hname. cbn zeta.
  pose proof Hdec as Hdec'. apply decrypted_Some in Hdec' as (a & r & Ha & Hr & Htd).
  unfold TokenManager.validateUserTokens, TokenManager.validateToolAccess.
  rewrite Hrow, Ha.
  assert (Js.truthy_value (Some toolName) = true) as -> by (by destruct toolName).
  change (default "" (Some toolName)) with toolName.
  destruct (TokenManager.checkScopes (UserToken.granted_scopes tokens)
              (TokenManager.getToolScopes toolName)) as [|m ms] eqn:Hm.
  - destruct (Z.geb_spec (TokenManager.now_check env) (UserToken.expires_at tokens - 60000))
      as [Hdue|Hfresh]; simpl.
    + rewrite (getValidAccessToken_due crypto config db env user _ tokens td Hrow Hdec)
        by (done || lia).
      simpl. rewrite refreshTokens_sent. split; [|split; [done|done]].
      split; [done|]. by intros [= _ Hsent _].
    + rewrite (getValidAccessToken_fresh crypto config db env user _ tokens td Hrow Hdec)
        by (done || lia).
      unfold TokenManager.logged_and_returned. rewrite Htd. simpl.
      split; [done|split; [done|]]. split; done.
  - rewrite (getValidAccessToken_missing crypto config db env user _ tokens td Hrow Hdec)
      by (simpl; by rewrite Hm).
    cbn [missing_for]. rewrite Hm. cbn zeta.
    assert (forall e : AuthError.t,
              mkOutcome db [] (Rejected e)
              <> mkOutcome db []
                   (if Js.is_time_value (UserToken.expires_at tokens)
                    then Resolved (TokenData.access_token td) else RejectedRange)) as Hne.
    { intros e. by destruct (Js.is_time_value _). }
    destruct (TokenManager.now_check env >=? UserToken.expires_at tokens - 60000); simpl.
    + split; [split; [done|by intros ?%Hne]|split; [|done]].
      intros missing [= <-]. eexists. by split_and!.
    + split; [split; [done|by intros ?%Hne]|split; [|done]].
      intros missing [= <-]. eexists. by split_and!.
Qed.

(** X22.  [getUserTokenInfo] says [hasTokens = false] only when
    [getValidAccessToken] demands re-authentication, sending and storing
    nothing; when it says [true], it shows the granted scopes, the expiry
    as a Date (the Invalid Date past 8.64e15) and the mask of the decrypted
    access token, 3 or 11 code units long. *)
Theorem getUserTokenInfo_without_tokens_means_reauth
    (db : XDatabase) (env : TokenManager.Env) (user : User.t)
    (requiredScopes : option (list string)) :
  let info := TokenManager.getUserTokenInfo crypto db user in
  (TokenManager.hasTokens info = false ->
   db_after (TokenManager.getValidAccessToken crypto config db env user requiredScopes) = db
   /\ sent (TokenManager.getValidAccessToken crypto config db env user requiredScopes) = []
   /\ reauth_required
        (settled (TokenManager.getValidAccessToken crypto config db env user requiredScopes)))
  /\ (TokenManager.hasTokens info = true ->
      exists tokens access masked,
        Db.getUserTokens db (User.id user) = Some tokens
        /\ EncryptionManager.decrypt crypto (UserToken.access_token tokens) = Some access
        /\ TokenManager.info_scopes info = Some (Js.split " " (UserToken.granted_scopes tokens))
        /\ TokenManager.info_expiresAt info = Some (Js.new_Date (UserToken.expires_at tokens))
        /\ TokenManager.maskedToken info = Some masked
        /\ masked = EncryptionManager.maskToken (Utf16.of_utf8 access)
        /\ (length masked = 3%nat \/ length masked = 11%nat)).
Proof.
  cbn zeta. unfold TokenManager.getUserTokenInfo.
  destruct (Db.getUserTokens db (User.id user)) as [tokens|] eqn:Hrow.
  - destruct (EncryptionManager.decrypt crypto (UserToken.access_token tokens)) as [a|] eqn:Ha;
      simpl; split; try done.
    + intros _. exists tokens, a, (EncryptionManager.maskToken (Utf16.of_utf8 a)).
      split_and!; try done. apply maskToken_length.
    + intros _.
      rewrite (getValidAccessToken_undecryptable crypto config db env user _ tokens Hrow)
        by (apply decrypted_None; by left).
      simpl. split_and!; [done..|]. eexists. by split_and!.
  - simpl. split; [|done]. intros _.
    rewrite getValidAccessToken_no_row by done. simpl.
    split_and!; [done..|]. eexists. by split_and!.
Qed.

(** X23.  A refresh that the token endpoint refuses deletes the
    user's tokens: the call demands re-authentication, [getUserTokenInfo]
    then reports no tokens, and every later [getValidAccessToken] fails
    with 'No tokens found'.  A refresh that fails on the network demands
    re-authentication too, but leaves the store as it is. *)
Theorem denied_refresh_forces_reauthentication
    (db : XDatabase) (env : TokenManager.Env) (user : User.t)
    (requiredScopes : option (list string)) (tokens : UserToken.t) (td : TokenData.t) :
  Db.getUserTokens db (User.id user) = Some tokens ->
  decrypted crypto tokens = Some td ->
  missing_for (UserToken.granted_scopes tokens) requiredScopes = [] ->
  TokenManager.now_check env >= UserToken.expires_at tokens - 60000 ->
  let out := TokenManager.getValidAccessToken crypto config db env user requiredScopes in
  ((exists text,
      TokenManager.server env (TokenManager.refreshRequest config td) = ResponseNotOk text) ->
   reauth_required (settled out)
   /\ db_after out = TokenManager.clearUserTokens db (User.id user)
   /\ TokenManager.hasTokens (TokenManager.getUserTokenInfo crypto (db_after out) user) = false
   /\ forall env' requiredScopes',
        TokenManager.getValidAccessToken crypto config (db_after out) env' user requiredScopes'
        = mkOutcome (db_after out) []
            (Rejected (AuthError.mk auth_reauth_required
               ("No tokens found for user " +:+ User.x_username user
                +:+ ". Please authenticate.")
               (Some (TokenManager.getLoginUrl config)) None)))
  /\ (TokenManager.server env (TokenManager.refreshRequest config td) = FetchThrows ->
      reauth_required (settled out) /\ db_after out = db).
Proof.
  intros Hrow Hdec Hm Hdue. cbn zeta.
  rewrite (getValidAccessToken_due crypto config db env user _ tokens td Hrow Hdec Hm Hdue).
  simpl. unfold TokenManager.refreshTokens. split.
  - intros [text ->]. simpl.
    assert (Db.getUserTokens (Db.deleteUserTokens db (User.id user)) (User.id user) = None)
      as Hgone by apply lookup_delete_eq.
    split_and!.
    + eexists. by split_and!.
    + done.
    + unfold TokenManager.getUserTokenInfo. by rewrite Hgone.
    + intros env' requiredScopes'. by rewrite getValidAccessToken_no_row.
  - intros ->. simpl. split; [|done]. eexists. by split_and!.
Qed.

Hypothesis decipher_cipher : forall p, decipher crypto (cipher crypto p) = Some p.
Hypothesis cipher_nonempty : forall p, cipher crypto p <> [].

(** X24.  A refreshed token is served from the store afterwards: when
    [getValidAccessToken] returned a token after sending a refresh request,
    the stored row decrypts to that token and its expiry is a time value,
    and every later call made more than a minute before the stored expiry,
    for any scopes the stored grant covers, returns the same token without
    contacting the token endpoint.  The token is a [string], its UTF-8
    form: the stored copy of a token with a lone surrogate has U+FFFD in
    its place. *)
Theorem refreshed_token_is_served_from_the_store
    (db : XDatabase) (env : TokenManager.Env) (user : User.t)
    (requiredScopes : option (list string)) (token : string) :
  length (TokenManager.iv_access env) = 16%nat ->
  length (TokenManager.iv_refresh env) = 16%nat ->
  let out := TokenManager.getValidAccessToken crypto config db env user requiredScopes in
  settled out = Resolved token -> sent out <> [] ->
  exists row,
    Db.getUserTokens (db_after out) (User.id user) = Some row
    /\ EncryptionManager.decrypt crypto (UserToken.access_token row) = Some token
    /\ Js.is_time_value (UserToken.expires_at row) = true
    /\ forall env' requiredScopes',
         TokenManager.now_check env' < UserToken.expires_at row - 60000 ->
         missing_for (UserToken.granted_scopes row) requiredScopes' = [] ->
         TokenManager.getValidAccessToken crypto config (db_after out) env' user
           requiredScopes'
         = mkOutcome (db_after out) [] (Resolved token).
Proof.
  intros Hiv1 Hiv2. cbn zeta. intros Hres Hsent.
  destruct (Db.getUserTokens db (User.id user)) as [tokens|] eqn:Hrow.
  2:{ by rewrite getValidAccessToken_no_row in Hres by done. }
  destruct (decrypted crypto tokens) as [td|] eqn:Hdec.
  2:{ by rewrite (getValidAccessToken_undecryptable crypto config db env user _ tokens)
        in Hres by done. }
  destruct (missing_for (UserToken.granted_scopes tokens) requiredScopes) as [|m ms] eqn:Hm.
  2:{ by rewrite (getValidAccessToken_missing crypto config db env user _ tokens td)
        in Hres by (done || by rewrite Hm). }
  destruct (Z_lt_ge_dec (TokenManager.now_check env) (UserToken.expires_at tokens - 60000))
    as [Hfresh|Hdue].
  { by rewrite (getValidAccessToken_fresh crypto config db env user _ tokens td)
      in Hsent by done. }
  rewrite (getValidAccessToken_due crypto config db env user _ tokens td Hrow Hdec Hm Hdue)
    in Hres |- *.
  simpl in Hres |- *. unfold TokenManager.refreshTokens in Hres |- *.
  destruct (TokenManager.server env (TokenManager.refreshRequest config td))
    as [|text|body]; simpl in Hres; [done..|].
  unfold Db.saveUserTokens in Hres |- *.
  destruct (users db !! User.id user) as [u|]; simpl in Hres; [|done].
  unfold TokenManager.logged_and_returned in Hres. simpl in Hres.
  destruct (Js.is_time_value
              (TokenManager.now_response env + TokenResponse.expires_in body * 1000))
    eqn:Htime; [|done].
  injection Hres as <-. simpl.
  assert (forall iv data, length iv = 16%nat ->
            EncryptionManager.decrypt crypto (EncryptionManager.encrypt crypto iv data)
            = Some data) as Hround.
  { intros iv data Hlen. apply (decrypt_encrypt crypto decipher_cipher cipher_nonempty).
    intros Hnil. by rewrite Hnil in Hlen. }
  eexists. split; [unfold Db.getUserTokens; simpl; apply lookup_insert_eq|].
  simpl. split_and!; [by apply Hround|done|]. intros env' requiredScopes' Hlater Hcovered.
  etrans.
  { eapply (getValidAccessToken_fresh crypto config _ env' user requiredScopes' _
              (TokenData.mk (TokenResponse.access_token body)
                 (Js.or_else (TokenResponse.refresh_token body) (TokenData.refresh_token td))
                 (TokenManager.now_response env + TokenResponse.expires_in body * 1000)
                 (Js.or_else (TokenResponse.scope body) (TokenData.scope td)))).
    - unfold Db.getUserTokens. simpl. apply lookup_insert_eq.
    - unfold decrypted. simpl. by rewrite !Hround.
    - done.
    - simpl. lia. }
  unfold TokenManager.logged_and_returned. simpl. by rewrite Htime.
Qed.

End DiagnosticProperties.

(** ** OAuth flow controller: storing the identity and the callbacks *)

Lemma select_state_Some_inv db now state row :
  Db.selectPairingSessionByState db now state = Some row ->
  exists code, pairing_sessions db !! code = Some row
               /\ PairingRow.state row = state /\ now < PairingRow.expires_at row.
Proof.
  unfold Db.selectPairingSessionByState.
  destruct (map_to_list _) as [|[k r] rest] eqn:Hl; simpl; [done|].
  intros [= <-]. exists k.
  assert ((k, r) ∈ map_to_list
            (filter (fun kv : string * PairingRow.t =>
                       PairingRow.state kv.2 = state /\ now < PairingRow.expires_at kv.2)
               (pairing_sessions db))) as Hin by (rewrite Hl; left).
  apply elem_of_map_to_list, map_lookup_filter_Some in Hin as [? [? ?]]. done.
Qed.

Lemma select_state_None db now state :
  Db.selectPairingSessionByState db now state = None
  <-> forall code row, pairing_sessions db !! code = Some row ->
                       PairingRow.state row = state -> PairingRow.expires_at row <= now.
Proof.
  unfold Db.selectPairingSessionByState. split.
  - destruct (map_to_list _) as [|[k' r'] rest] eqn:Hl; simpl; [|done].
    intros _ code row Hrow Hstate. apply map_to_list_empty_iff in Hl.
    destruct (Z_le_gt_dec (PairingRow.expires_at row) now) as [|Hlive]; [done|].
    assert (filter (fun kv : string * PairingRow.t =>
                      PairingRow.state kv.2 = state /\ now < PairingRow.expires_at kv.2)
              (pairing_sessions db) !! code = Some row) as Hf.
    { apply map_lookup_filter_Some. split; [done|]. simpl. split; [done|lia]. }
    rewrite Hl in Hf. by rewrite lookup_empty in Hf.
  - intros Hno.
    destruct (map_to_list _) as [|[k r] rest] eqn:Hl; simpl; [done|].
    assert ((k, r) ∈ map_to_list
              (filter (fun kv : string * PairingRow.t =>
                         PairingRow.state kv.2 = state /\ now < PairingRow.expires_at kv.2)
                 (pairing_sessions db))) as Hin by (rewrite Hl; left).
    apply elem_of_map_to_list, map_lookup_filter_Some in Hin as [Hk [Hs Hlive]].
    simpl in *. specialize (Hno k r Hk Hs). lia.
Qed.

Lemma select_sole_live_state db now code row :
  sole_live_state db now code row ->
  Db.selectPairingSessionByState db now (PairingRow.state row) = Some row.
Proof.
  intros (Hrow & Hlive & Hsole).
  destruct (Db.selectPairingSessionByState db now (PairingRow.state row)) as [r|] eqn:Hsel.
  - apply select_state_Some_inv in Hsel as (code' & Hr & Hs & Hl).
    assert (code' = code) as -> by (by apply (Hsole code' r)). congruence.
  - rewrite select_state_None in Hsel. specialize (Hsel code row Hrow eq_refl). lia.
Qed.

Section FlowProperties.
Variable crypto : NodeCrypto.
Variable config : XConfig.t.

Lemma or_value_Some name username :
  Js.or_value name (Some username) = Some (Js.or_else name username).
Proof. by destruct name as [[|a s]|]. Qed.

Lemma or_else_twice name username :
  Js.or_else (Some (Js.or_else name username)) username = Js.or_else name username.
Proof. by destruct name as [[|a s]|], username. Qed.

(** A throw of [storeUserAndTokens] comes before the token row is
    written. *)
Lemma storeUserAndTokens_thrown db env xUser tokenData db' e :
  OAuthManager.storeUserAndTokens crypto db env xUser tokenData = (db', Thrown e) ->
  user_tokens db' = user_tokens db /\ sessions db' = sessions db
  /\ pairing_sessions db' = pairing_sessions db.
Proof.
  unfold OAuthManager.storeUserAndTokens. cbv zeta.
  destruct (XUser.id xUser) as [xUserId|]; [|by intros [= <- _]].
  assert (forall db1 user,
            match Db.getUserByXUserId db xUserId with
            | None =>
                match XUser.username xUser with
                | Some username =>
                    Db.createUser db (OAuthManager.now_create env) (OAuthManager.rowid env)
                      xUserId username (XUser.name xUser)
                | None => SqlFail EmptyString
                end
            | Some user =>
                match XUser.username xUser, XUser.name xUser with
                | Some username, Some name =>
                    SqlOk (Db.updateUser db (User.id user)
                             (Db.mkUpdates (Some name) (Some username)),
                           User.mk (User.id user) (User.created_at user) name
                             (User.x_user_id user) username)
                | _, _ => SqlFail EmptyString
                end
            end = SqlOk (db1, user) ->
            user_tokens db1 = user_tokens db /\ sessions db1 = sessions db
            /\ pairing_sessions db1 = pairing_sessions db) as Hfound.
  { intros db1 user. destruct (Db.getUserByXUserId db xUserId) as [old|] eqn:Hget.
    - destruct (XUser.username xUser), (XUser.name xUser); try done.
      by intros [= <- _].
    - destruct (XUser.username xUser) as [username|]; [|done].
      unfold Db.createUser. rewrite Hget.
      destruct (users db !! OAuthManager.rowid env); [done|]. by intros [= <- _]. }
  destruct (Db.getUserByXUserId db xUserId) as [old|].
  - destruct (XUser.username xUser) as [username|], (XUser.name xUser) as [name|];
      try (by intros [= <- _]).
    specialize (Hfound _ _ eq_refl).
    destruct (ExchangedTokens.access_token tokenData),
      (ExchangedTokens.refresh_token tokenData),
      (ExchangedTokens.scope tokenData), (ExchangedTokens.expires_at tokenData);
      try (by intros [= <- _]).
    destruct (Db.saveUserTokens _ _ _ _); [done|]. by intros [= <- _].
  - destruct (XUser.username xUser) as [username|]; [|by intros [= <- _]].
    destruct (Db.createUser _ _ _ _ _ _) as [[db1 user]|c]; [|by intros [= <- _]].
    specialize (Hfound _ _ eq_refl).
    destruct (ExchangedTokens.access_token tokenData),
      (ExchangedTokens.refresh_token tokenData),
      (ExchangedTokens.scope tokenData), (ExchangedTokens.expires_at tokenData);
      try (by intros [= <- _]).
    destruct (Db.saveUserTokens _ _ _ _); [done|]. by intros [= <- _].
Qed.

(** The user that [storeUserAndTokens] returns has a row, and only the
    users and the token rows have changed. *)
Lemma storeUserAndTokens_returned db env xUser tokenData db' user :
  OAuthManager.storeUserAndTokens crypto db env xUser tokenData = (db', Returned user) ->
  is_Some (users db' !! User.id user) /\ sessions db' = sessions db
  /\ pairing_sessions db' = pairing_sessions db.
Proof.
  unfold OAuthManager.storeUserAndTokens. cbv zeta.
  destruct (XUser.id xUser) as [xUserId|]; [|done].
  destruct (Db.getUserByXUserId db xUserId) as [old|] eqn:Hget.
  - destruct (XUser.username xUser) as [username|], (XUser.name xUser) as [name|]; try done.
    destruct (ExchangedTokens.access_token tokenData),
      (ExchangedTokens.refresh_token tokenData),
      (ExchangedTokens.scope tokenData), (ExchangedTokens.expires_at tokenData); try done.
    unfold Db.saveUserTokens.
    destruct (users _ !! _) eqn:Hrow; [|done]. intros [= <- <-]. simpl in *.
    rewrite Hrow. split; [by eexists|done].
  - destruct (XUser.username xUser) as [username|]; [|done].
    unfold Db.createUser. rewrite Hget.
    destruct (users db !! OAuthManager.rowid env); [done|].
    destruct (ExchangedTokens.access_token tokenData),
      (ExchangedTokens.refresh_token tokenData),
      (ExchangedTokens.scope tokenData), (ExchangedTokens.expires_at tokenData); try done.
    unfold Db.saveUserTokens.
    destruct (users _ !! _) eqn:Hrow; [|done]. intros [= <- <-]. simpl in *.
    rewrite Hrow. split; [by eexists|done].
Qed.

Lemma storeUserAndTokens_ok db env xid username name access refresh expires_at scope :
  users_wf db -> 0 < OAuthManager.rowid env -> users db !! OAuthManager.rowid env = None ->
  exists db' user,
    OAuthManager.storeUserAndTokens crypto db env
      (XUser.mk (Some xid) (Some username) (Some name))
      (ExchangedTokens.mk (Some access) (Some refresh) (Some expires_at) (Some scope))
    = (db', Returned user)
    /\ users_wf db'
    /\ users db' !! User.id user = Some user
    /\ User.x_user_id user = xid
    /\ User.x_username user = username
    /\ (name <> EmptyString -> User.display_name user = name)
    /\ (forall old, Db.getUserByXUserId db xid = Some old ->
          User.id user = User.id old /\ User.created_at user = User.created_at old)
    /\ (Db.getUserByXUserId db xid = None ->
          User.id user = OAuthManager.rowid env
          /\ User.created_at user = OAuthManager.now_create env)
    /\ (forall k, k <> User.id user -> users db' !! k = users db !! k)
    /\ sessions db' = sessions db
    /\ pairing_sessions db' = pairing_sessions db
    /\ user_tokens db'
       = <[User.id user :=
             stored_row crypto db env user (TokenData.mk access refresh expires_at scope)]>
           (user_tokens db)
    /\ forall access' refresh' expires_at' scope',
         access' = None \/ refresh' = None ->
         exists db1,
           OAuthManager.storeUserAndTokens crypto db env
             (XUser.mk (Some xid) (Some username) (Some name))
             (ExchangedTokens.mk access' refresh' expires_at' scope')
           = (db1, Thrown EncryptionFailed)
           /\ users db1 = users db' /\ user_tokens db1 = user_tokens db.
Proof.
  intros Hwf Hpos Hfree. unfold OAuthManager.storeUserAndTokens.
  cbn [XUser.id XUser.username XUser.name ExchangedTokens.access_token
       ExchangedTokens.refresh_token ExchangedTokens.scope ExchangedTokens.expires_at].
  destruct (Db.getUserByXUserId db xid) as [old|] eqn:Hget.
  - destruct (getUserByXUserId_Some_inv _ _ _ Hget) as (k & Hk & Hx).
    pose proof Hwf as [Hid _]. destruct (Hid k old Hk) as [Hidk Hkpos].
    pose proof (updateUser_wf db (User.id old)
                  (Db.mkUpdates (Some name) (Some username)) Hwf) as Hwf'.
    assert (users (Db.updateUser db (User.id old) (Db.mkUpdates (Some name) (Some username)))
              !! User.id old
            = Some (User.mk (User.id old) (User.created_at old) name
                      (User.x_user_id old) username)) as Hnew.
    { rewrite updateUser_lookup. case_decide; [|done]. rewrite <- Hidk in Hk.
      rewrite Hk. reflexivity. }
    cbv zeta. cbn [User.id]. unfold Db.saveUserTokens. rewrite Hnew.
    eexists _, _. split; [done|].
    simpl. split_and!; try done.
    + intros old' [= <-]. done.
    + intros k' Hne. rewrite lookup_alter. case_decide; [congruence|done].
    + unfold stored_row. simpl. by rewrite Hx.
    + intros access' refresh' expires_at' scope' Hmiss.
      destruct access', refresh'; try (by destruct Hmiss); by eexists.
  - destruct (Db.createUser db (OAuthManager.now_create env) (OAuthManager.rowid env)
                xid username (Some name)) as [[db1 u]|c] eqn:Hc.
    2:{ unfold Db.createUser in Hc. by rewrite Hget, Hfree in Hc. }
    destruct (createUser_wf _ _ _ _ _ _ _ _ Hwf Hpos Hc) as (Hwf1 & Hu & _ & Husers & Hrest).
    injection Hrest as Hs Ht Hp.
    assert (users db1 !! User.id u = Some u) as Hlook
      by (rewrite Husers, Hu; apply lookup_insert_eq).
    cbv zeta. unfold Db.saveUserTokens. rewrite Hlook. eexists _, _. split; [done|].
    simpl. split_and!; try done; try (by rewrite Hu).
    + intros Hname. rewrite Hu. simpl. by destruct name.
    + intros k Hne. rewrite Husers. apply lookup_insert_ne. rewrite Hu in Hne. done.
    + unfold stored_row. simpl. by rewrite Ht, Hu.
    + intros access' refresh' expires_at' scope' Hmiss.
      destruct access', refresh'; try (by destruct Hmiss); by eexists.
Qed.
End FlowProperties.

Lemma pending_wf : users_wf Examples.pending.
Proof. exact two_users_wf. Qed.

Lemma pending_sole_live_state :
  sole_live_state Examples.pending 1000 "ABCDEFGH" Examples.pending_row.
Proof.
  split_and!; [reflexivity|simpl; lia|].
  intros code' row' Hrow _ _.
  change (pairing_sessions Examples.pending)
    with (<["ABCDEFGH" := Examples.pending_row]> (∅ : gmap string PairingRow.t)) in Hrow.
  apply lookup_insert_Some in Hrow as [[<- _]|[_ Hrow]]; [done|].
  by rewrite lookup_empty in Hrow.
Qed.

Section CallbackProperties.
Variable crypto : NodeCrypto.
Variable config : XConfig.t.

Lemma authenticate_stores db env code verifier access refresh expires_in scope
    xid username name :
  users_wf db -> 0 < OAuthManager.rowid env -> users db !! OAuthManager.rowid env = None ->
  OAuthManager.exchange env (OAuthManager.exchangeRequest config code verifier)
  = ExchangeOk (ExchangeResponse.mk (Some access) (Some refresh) (Some expires_in)
                  (Some scope)) ->
  OAuthManager.userinfo env access
  = UserInfoOk (Some (XUserData.mk (Some xid) (Some username) name)) ->
  let xUser := XUser.mk (Some xid) (Some username) (Some (Js.or_else name username)) in
  let tokenData :=
    ExchangedTokens.mk (Some access) (Some refresh)
      (Some (OAuthManager.now_exchange env + expires_in * 1000)) (Some scope) in
  exists db1 user,
    OAuthManager.storeUserAndTokens crypto db env xUser tokenData = (db1, Returned user)
    /\ OAuthManager.authenticate crypto config db env code verifier
       = OAuthManager.mkFlowOutcome db1 [OAuthManager.exchangeRequest config code verifier]
           (Returned (user, tokenData)).
Proof.
  intros Hwf Hpos Hfree Hex Hui xUser tokenData.
  destruct (storeUserAndTokens_ok crypto db env xid username (Js.or_else name username)
              access refresh (OAuthManager.now_exchange env + expires_in * 1000) scope
              Hwf Hpos Hfree) as (db1 & user & Hst & _).
  exists db1, user. split; [exact Hst|].
  unfold OAuthManager.authenticate, OAuthManager.exchangeCodeForToken. rewrite Hex.
  unfold OAuthManager.fetchUserInfo.
  cbn [ExchangedTokens.access_token ExchangeResponse.access_token].
  change (Js.interpolated (Some access)) with access.
  rewrite Hui.
  cbn [XUserData.id XUserData.username XUserData.name ExchangeResponse.refresh_token
       ExchangeResponse.expires_in ExchangeResponse.scope fmap option_fmap option_map].
  rewrite or_value_Some. subst xUser tokenData. by rewrite Hst.
Qed.

(** The hosted callback throws only before the token row is written:
    once [storeUserAndTokens] has returned, completing the pairing session
    cannot fail. *)
Lemma handleHostedCallback_thrown db env code state e :
  OAuthManager.flow_result (OAuthManager.handleHostedCallback crypto config db env code state)
  = Thrown e ->
  let db' :=
    OAuthManager.flow_db (OAuthManager.handleHostedCallback crypto config db env code state) in
  user_tokens db' = user_tokens db /\ sessions db' = sessions db
  /\ pairing_sessions db' = pairing_sessions db.
Proof.
  cbv zeta. unfold OAuthManager.handleHostedCallback.
  destruct (Db.selectPairingSessionByState _ _ _) as [row|]; [|done].
  cbv zeta. unfold OAuthManager.authenticate.
  destruct (OAuthManager.exchangeCodeForToken _ _ _ _) as [tokenData|e1]; [|done].
  destruct (OAuthManager.fetchUserInfo _ _) as [xUser|e1]; [|done].
  destruct (OAuthManager.storeUserAndTokens _ _ _ _ _) as [db1 [user|e1]] eqn:Hst.
  - apply storeUserAndTokens_returned in Hst as ([u Hu] & _ & _).
    cbn [OAuthManager.flow_result OAuthManager.flow_db OAuthManager.flow_sent].
    unfold Db.completePairingSession.
    destruct (pairing_sessions db1 !! _) as [r|]; [|done].
    destruct (PairingRow.expires_at r >? _); [|done]. by rewrite Hu.
  - apply storeUserAndTokens_thrown in Hst. done.
Qed.

(** X25.  The hosted flow, end to end.  When the state names one live
    pairing session, the token endpoint answers with an access token, a
    refresh token, a lifetime and the scopes, the identity endpoint names an
    account with its id and handle, and the session is still alive at
    completion, [handleHostedCallback] sends one token request carrying the
    stored code verifier, returns the user's id with the pairing code,
    stores the user under the X id and the tokens with the granted scopes
    and expiry, and [checkPairingStatus] reports the pairing verified for
    that user until the session expires. *)
Theorem handleHostedCallback_completes_the_pairing
    (db : XDatabase) (env : OAuthManager.FlowEnv) (code pairingCode : string)
    (row : PairingRow.t) (access refresh scope : string) (expires_in : Z)
    (xid username : string) (name : option string) :
  users_wf db -> 0 < OAuthManager.rowid env -> users db !! OAuthManager.rowid env = None ->
  sole_live_state db (OAuthManager.now_lookup env) pairingCode row ->
  PairingRow.pairing_code row = pairingCode ->
  OAuthManager.now_complete env < PairingRow.expires_at row ->
  OAuthManager.exchange env
    (OAuthManager.exchangeRequest config code (PairingRow.code_verifier row))
  = ExchangeOk (ExchangeResponse.mk (Some access) (Some refresh) (Some expires_in)
                  (Some scope)) ->
  OAuthManager.userinfo env access
  = UserInfoOk (Some (XUserData.mk (Some xid) (Some username) name)) ->
  exists db' user,
    OAuthManager.handleHostedCallback crypto config db env code (PairingRow.state row)
    = OAuthManager.mkFlowOutcome db'
        [OAuthManager.exchangeRequest config code (PairingRow.code_verifier row)]
        (Returned (User.id user, pairingCode))
    /\ Db.getUserByXUserId db' xid = Some user
    /\ User.x_username user = username
    /\ (forall t, t < PairingRow.expires_at row ->
          OAuthManager.checkPairingStatus db' t pairingCode
          = AuthStatusResponse.mk true (Some (view user)))
    /\ exists tokens,
         Db.getUserTokens db' (User.id user) = Some tokens
         /\ UserToken.granted_scopes tokens = scope
         /\ UserToken.expires_at tokens = OAuthManager.now_exchange env + expires_in * 1000
         /\ UserToken.access_token tokens
            = EncryptionManager.encrypt crypto (OAuthManager.iv_access env) access
         /\ UserToken.refresh_token tokens
            = EncryptionManager.encrypt crypto (OAuthManager.iv_refresh env) refresh.
Proof.
  intros Hwf Hpos Hfree Hsole Hcode Hlive Hex Hui.
  pose proof Hsole as (Hrow & _ & _).
  destruct (storeUserAndTokens_ok crypto db env xid username (Js.or_else name username)
              access refresh (OAuthManager.now_exchange env + expires_in * 1000) scope
              Hwf Hpos Hfree)
    as (db1 & user & Hst & Hwf1 & Hu & Hx & Hname & _ & _ & _ & _ & _ & Hp & Ht & _).
  destruct (authenticate_stores db env code (PairingRow.code_verifier row) access refresh
              expires_in scope xid username name Hwf Hpos Hfree Hex Hui)
    as (db1' & user' & Hst' & Hauth).
  cbn zeta in Hst'. rewrite Hst in Hst'. injection Hst' as <- <-.
  unfold OAuthManager.handleHostedCallback.
  rewrite (select_sole_live_state db _ pairingCode row Hsole), Hauth.
  cbn [OAuthManager.flow_result OAuthManager.flow_db OAuthManager.flow_sent].
  rewrite Hcode.
  rewrite (completePairingSession_unexpired db1 _ pairingCode (User.id user) row)
    by (rewrite ?Hp; done).
  eexists _, user. split; [reflexivity|].
  split_and!.
  - apply (getUserByXUserId_Some _ _ (User.id user)); done.
  - done.
  - intros t Hlt. apply checkPairingStatus_completed.
    + simpl. destruct (users db1 !! 0) as [u0|] eqn:H0; [|done].
      destruct Hwf1 as [Hid _]. destruct (Hid 0 u0 H0). lia.
    + exists (bind_row row (User.id user)), (User.id user). simpl.
      split_and!; try done. apply lookup_insert_eq.
  - eexists. split.
    + unfold Db.getUserTokens. simpl. rewrite Ht. apply lookup_insert_eq.
    + done.
Qed.

(** X26.  The hosted callback reports success even when the pairing
    session expired during the exchange: with the token reply and the
    identity of X25, the user and the tokens are stored and the call
    returns normally, but the pairing row is left as it was, and the status
    poll of the code is unverified at every instant. *)
Theorem handleHostedCallback_succeeds_without_completing
    (db : XDatabase) (env : OAuthManager.FlowEnv) (code pairingCode : string)
    (row : PairingRow.t) (access refresh scope : string) (expires_in : Z)
    (xid username : string) (name : option string) :
  users_wf db -> 0 < OAuthManager.rowid env -> users db !! OAuthManager.rowid env = None ->
  sole_live_state db (OAuthManager.now_lookup env) pairingCode row ->
  PairingRow.pairing_code row = pairingCode ->
  PairingRow.completed row = 0 ->
  PairingRow.expires_at row <= OAuthManager.now_complete env ->
  OAuthManager.exchange env
    (OAuthManager.exchangeRequest config code (PairingRow.code_verifier row))
  = ExchangeOk (ExchangeResponse.mk (Some access) (Some refresh) (Some expires_in)
                  (Some scope)) ->
  OAuthManager.userinfo env access
  = UserInfoOk (Some (XUserData.mk (Some xid) (Some username) name)) ->
  exists db' user,
    OAuthManager.handleHostedCallback crypto config db env code (PairingRow.state row)
    = OAuthManager.mkFlowOutcome db'
        [OAuthManager.exchangeRequest config code (PairingRow.code_verifier row)]
        (Returned (User.id user, pairingCode))
    /\ is_Some (Db.getUserTokens db' (User.id user))
    /\ pairing_sessions db' = pairing_sessions db
    /\ forall t, OAuthManager.checkPairingStatus db' t pairingCode
                 = AuthStatusResponse.mk false None.
Proof.
  intros Hwf Hpos Hfree Hsole Hcode Hpend Hlate Hex Hui.
  pose proof Hsole as (Hrow & _ & _).
  destruct (storeUserAndTokens_ok crypto db env xid username (Js.or_else name username)
              access refresh (OAuthManager.now_exchange env + expires_in * 1000) scope
              Hwf Hpos Hfree)
    as (db1 & user & Hst & Hwf1 & Hu & Hx & Hname & _ & _ & _ & _ & _ & Hp & Ht & _).
  destruct (authenticate_stores db env code (PairingRow.code_verifier row) access refresh
              expires_in scope xid username name Hwf Hpos Hfree Hex Hui)
    as (db1' & user' & Hst' & Hauth).
  cbn zeta in Hst'. rewrite Hst in Hst'. injection Hst' as <- <-.
  unfold OAuthManager.handleHostedCallback.
  rewrite (select_sole_live_state db _ pairingCode row Hsole), Hauth.
  cbn [OAuthManager.flow_result OAuthManager.flow_db OAuthManager.flow_sent].
  rewrite Hcode.
  rewrite (completePairingSession_expired db1 _ pairingCode (User.id user) row)
    by (rewrite ?Hp; done).
  exists db1, user. split_and!; try done.
  - unfold Db.getUserTokens. rewrite Ht, lookup_insert_eq. by eexists.
  - intros t. unfold OAuthManager.checkPairingStatus, Db.getPairingSession.
    rewrite Hp, Hrow. destruct (PairingRow.expires_at row >? t); [|done].
    unfold Db.toPairingSession. simpl. by rewrite Hpend.
Qed.

(** X27.  What a hosted callback that throws leaves behind.  Whatever
    made it throw, it has written no token row, no session and no pairing
    session.  An unknown or expired state throws 'Invalid or expired pairing
    session' before any request is sent; a failed token exchange, and a
    failed or empty identity response, throw after the one token request
    and leave the whole store as it was.  A throw while storing does not:
    when the token reply lacks the refresh token, [encrypt] throws after the
    user row was written, and an account unknown before has its row in the
    store afterwards. *)
Theorem handleHostedCallback_failures_leave_the_store
    (db : XDatabase) (env : OAuthManager.FlowEnv) (code state : string) :
  let out := OAuthManager.handleHostedCallback crypto config db env code state in
  (forall e, OAuthManager.flow_result out = Thrown e ->
     user_tokens (OAuthManager.flow_db out) = user_tokens db
     /\ sessions (OAuthManager.flow_db out) = sessions db
     /\ pairing_sessions (OAuthManager.flow_db out) = pairing_sessions db)
  /\ ((forall pairingCode row,
         pairing_sessions db !! pairingCode = Some row -> PairingRow.state row = state ->
         PairingRow.expires_at row <= OAuthManager.now_lookup env) ->
      out = OAuthManager.mkFlowOutcome db []
              (Thrown (ErrorMessage "Invalid or expired pairing session")))
  /\ (forall row,
        Db.selectPairingSessionByState db (OAuthManager.now_lookup env) state = Some row ->
        let request := OAuthManager.exchangeRequest config code (PairingRow.code_verifier row) in
        (forall body, OAuthManager.exchange env request <> ExchangeOk body) ->
        OAuthManager.flow_db out = db
        /\ OAuthManager.flow_sent out = [request]
        /\ exists e, OAuthManager.flow_result out = Thrown e)
  /\ (forall row body,
        Db.selectPairingSessionByState db (OAuthManager.now_lookup env) state = Some row ->
        let request := OAuthManager.exchangeRequest config code (PairingRow.code_verifier row) in
        OAuthManager.exchange env request = ExchangeOk body ->
        (forall data,
           OAuthManager.userinfo env (Js.interpolated (ExchangeResponse.access_token body))
           <> UserInfoOk (Some data)) ->
        OAuthManager.flow_db out = db
        /\ OAuthManager.flow_sent out = [request]
        /\ exists e, OAuthManager.flow_result out = Thrown e)
  /\ (forall row access expires_in scope xid username name,
        Db.selectPairingSessionByState db (OAuthManager.now_lookup env) state = Some row ->
        let request := OAuthManager.exchangeRequest config code (PairingRow.code_verifier row) in
        OAuthManager.exchange env request
        = ExchangeOk (ExchangeResponse.mk (Some access) None expires_in scope) ->
        OAuthManager.userinfo env access
        = UserInfoOk (Some (XUserData.mk (Some xid) (Some username) name)) ->
        Db.getUserByXUserId db xid = None ->
        users db !! OAuthManager.rowid env = None ->
        OAuthManager.flow_result out = Thrown EncryptionFailed
        /\ OAuthManager.flow_sent out = [request]
        /\ users (OAuthManager.flow_db out)
           = <[OAuthManager.rowid env :=
                 User.mk (OAuthManager.rowid env) (OAuthManager.now_create env)
                   (Js.or_else name username) xid username]> (users db)).
Proof.
  cbn zeta. split; [intros e He; by apply (handleHostedCallback_thrown db env code state e)|].
  unfold OAuthManager.handleHostedCallback. split_and!.
  - intros Hnone. apply select_state_None in Hnone. by rewrite Hnone.
  - intros row -> Hfail.
    unfold OAuthManager.authenticate, OAuthManager.exchangeCodeForToken.
    destruct (OAuthManager.exchange env _) as [|text|body]; simpl.
    + split_and!; [done..|by eexists].
    + split_and!; [done..|by eexists].
    + by destruct (Hfail body).
  - intros row body -> Hex Hfail.
    unfold OAuthManager.authenticate, OAuthManager.exchangeCodeForToken. rewrite Hex.
    unfold OAuthManager.fetchUserInfo. cbn [ExchangedTokens.access_token].
    destruct (OAuthManager.userinfo env _) as [|text|[data|]]; simpl.
    + split_and!; [done..|by eexists].
    + split_and!; [done..|by eexists].
    + by destruct (Hfail data).
    + split_and!; [done..|by eexists].
  - intros row access expires_in scope xid username name -> Hex Hui Hnew Hfree.
    unfold OAuthManager.authenticate, OAuthManager.exchangeCodeForToken. rewrite Hex.
    unfold OAuthManager.fetchUserInfo.
    cbn [ExchangedTokens.access_token ExchangeResponse.access_token].
    change (Js.interpolated (Some access)) with access.
    rewrite Hui. unfold OAuthManager.storeUserAndTokens.
    cbn [XUser.id XUser.username XUser.name XUserData.id XUserData.username XUserData.name
         ExchangedTokens.access_token ExchangedTokens.refresh_token
         ExchangeResponse.refresh_token].
    rewrite Hnew, or_value_Some. unfold Db.createUser.
    rewrite Hnew, Hfree, or_else_twice. done.
Qed.

(** X28.  The loopback callback checks the redirect before it spends
    the code.  Unless the [error] parameter is absent or empty, the [code]
    parameter is non-empty and the [state] parameter equals the expected
    one, it answers 400, throws, sends nothing and leaves the store; when
    the three hold it sends one token request with that code and the
    verifier, and answers 200 exactly when it returns a user, 500 when it
    throws. *)
Theorem handleLoopbackCallback_checks_before_exchange
    (db : XDatabase) (env : OAuthManager.FlowEnv) (query : OAuthManager.CallbackQuery)
    (codeVerifier expectedState : string) :
  let checked :=
    Js.truthy_value (OAuthManager.q_error query) = false
    /\ (exists code, OAuthManager.q_code query = Some code /\ code <> EmptyString)
    /\ OAuthManager.q_state query = Some expectedState in
  let answer :=
    OAuthManager.handleLoopbackCallback crypto config db env query codeVerifier expectedState in
  (~ checked ->
   answer.1 = 400 /\ OAuthManager.flow_db answer.2 = db /\ OAuthManager.flow_sent answer.2 = []
   /\ exists e, OAuthManager.flow_result answer.2 = Thrown e)
  /\ (checked ->
      OAuthManager.flow_sent answer.2
      = [OAuthManager.exchangeRequest config (default EmptyString (OAuthManager.q_code query))
           codeVerifier]
      /\ ((answer.1 = 200 /\ exists user, OAuthManager.flow_result answer.2 = Returned user)
          \/ (answer.1 = 500 /\ exists e, OAuthManager.flow_result answer.2 = Thrown e))).
Proof.
  cbn zeta. unfold OAuthManager.handleLoopbackCallback.
  destruct (Js.truthy_value (OAuthManager.q_error query)) eqn:Herr.
  { split; [|by intros [? _]]. intros _. simpl. split_and!; [done..|by eexists]. }
  assert (Js.truthy_value (OAuthManager.q_code query) = true
          <-> exists code, OAuthManager.q_code query = Some code /\ code <> EmptyString) as Hc.
  { destruct (OAuthManager.q_code query) as [[|a s]|]; simpl; split; try done.
    - by intros (c & [= <-] & ?).
    - intros _. by eexists.
    - by intros (c & ? & _). }
  destruct (Js.truthy_value (OAuthManager.q_code query)) eqn:Hcode; simpl.
  2:{ split; [|intros (_ & Hx & _); by apply Hc in Hx].
      intros _. split_and!; [done..|by eexists]. }
  case_bool_decide as Hstate; simpl.
  2:{ split; [|by intros (_ & _ & ?)]. intros _. split_and!; [done..|by eexists]. }
  split.
  { intros Hn. destruct Hn. split_and!; [done| |done]. by apply Hc. }
  intros _.
  assert (OAuthManager.flow_sent
            (OAuthManager.authenticate crypto config db env
               (default EmptyString (OAuthManager.q_code query)) codeVerifier)
          = [OAuthManager.exchangeRequest config
               (default EmptyString (OAuthManager.q_code query)) codeVerifier]) as Hsent.
  { unfold OAuthManager.authenticate.
    destruct (OAuthManager.exchangeCodeForToken _ _ _ _) as [td|e]; [|done].
    destruct (OAuthManager.fetchUserInfo _ _) as [xu|e]; [|done].
    by destruct (OAuthManager.storeUserAndTokens _ _ _ _ _) as [db1 [u|e]]. }
  destruct (OAuthManager.flow_result (OAuthManager.authenticate crypto config db env
              (default EmptyString (OAuthManager.q_code query)) codeVerifier))
    as [[user td]|e] eqn:Hres; simpl.
  - split; [done|]. left. split; [done|by eexists].
  - split; [done|]. right. split; [done|by eexists].
Qed.

(** X29.  [storeUserAndTokens] gets or creates.  Given an X id, a
    handle and a display name, and token data with its four members, in a
    well-formed store it returns a user found under the given X id with the
    new handle and display name; a known X id keeps its internal id and
    creation time, an unknown one gets the fresh row id; the token row of
    that user holds the X id, the scopes, the expiry and the encryptions of
    the two tokens; other users, other users' tokens, sessions and pairing
    sessions are not touched.  Token data without the access token or the
    refresh token makes it throw instead, after the same change to the
    users and with no token row written. *)
Theorem storeUserAndTokens_get_or_create
    (db : XDatabase) (env : OAuthManager.FlowEnv) (xid username name : string)
    (access refresh : string) (expires_at : Z) (scope : string) :
  users_wf db -> 0 < OAuthManager.rowid env -> users db !! OAuthManager.rowid env = None ->
  let xUser := XUser.mk (Some xid) (Some username) (Some name) in
  exists db' user,
    OAuthManager.storeUserAndTokens crypto db env xUser
      (ExchangedTokens.mk (Some access) (Some refresh) (Some expires_at) (Some scope))
    = (db', Returned user)
    /\ users_wf db'
    /\ Db.getUserByXUserId db' xid = Some user
    /\ User.x_username user = username
    /\ (name <> EmptyString -> User.display_name user = name)
    /\ match Db.getUserByXUserId db xid with
       | Some old => User.id user = User.id old /\ User.created_at user = User.created_at old
       | None => User.id user = OAuthManager.rowid env
                 /\ User.created_at user = OAuthManager.now_create env
       end
    /\ (forall id, id <> User.id user -> Db.getUserById db' id = Db.getUserById db id)
    /\ Db.getUserTokens db' (User.id user)
       = Some (stored_row crypto db env user (TokenData.mk access refresh expires_at scope))
    /\ (forall id, id <> User.id user -> Db.getUserTokens db' id = Db.getUserTokens db id)
    /\ sessions db' = sessions db /\ pairing_sessions db' = pairing_sessions db
    /\ forall access' refresh' expires_at' scope',
         access' = None \/ refresh' = None ->
         exists db1,
           OAuthManager.storeUserAndTokens crypto db env xUser
             (ExchangedTokens.mk access' refresh' expires_at' scope')
           = (db1, Thrown EncryptionFailed)
           /\ users db1 = users db' /\ user_tokens db1 = user_tokens db.
Proof.
  intros Hwf Hpos Hfree xUser.
  destruct (storeUserAndTokens_ok crypto db env xid username name access refresh expires_at
              scope Hwf Hpos Hfree)
    as (db' & user & Hst & Hwf' & Hu & Hx & Hname & Hdisp & Hold & Hnew & Hother & Hs & Hp
        & Ht & Hthrows).
  exists db', user. split_and!; try done.
  - by apply (getUserByXUserId_Some _ _ (User.id user)).
  - destruct (Db.getUserByXUserId db xid) as [old|]; [by apply Hold|by apply Hnew].
  - unfold Db.getUserTokens. rewrite Ht. apply lookup_insert_eq.
  - intros id Hne. unfold Db.getUserTokens. rewrite Ht. by apply lookup_insert_ne.
Qed.

End CallbackProperties.

(** ** Instances on the example stores *)

Lemma verifyPassword_accepts_hashPassword_witness :
  let hashed := EncryptionManager.hashPassword Toy.crypto "hunter2" None Examples.sample_iv in
  EncryptionManager.verifyPassword Toy.crypto "hunter2" hashed.1 hashed.2 Examples.other_iv
  = true.
Proof.
  cbn zeta.
  destruct (verifyPassword_accepts_hashPassword Toy.crypto "hunter2" Examples.sample_iv
              Examples.other_iv ltac:(done)) as (_ & H & _).
  exact H.
Defined.

Lemma encrypt_ciphertext_segment_ignores_iv_witness :
  let segment iv z :=
    Js.at_index
      (Js.split ":" (EncryptionManager.encrypt Toy.crypto iv (Utf16.to_utf8 z))) 1 in
  segment Examples.sample_iv [0x61; 0xD800]%N = segment Examples.other_iv [0x61; 0xDC00]%N.
Proof.
  cbn zeta.
  apply (proj1 (encrypt_ciphertext_segment_ignores_iv Toy.crypto toy_decipher_cipher
                  Examples.sample_iv Examples.other_iv [0x61; 0xD800]%N [0x61; 0xDC00]%N
                  ltac:(repeat constructor) ltac:(repeat constructor))).
  reflexivity.
Defined.

Lemma validateUserTokens_agrees_with_validateToolAccess_witness :
  exists e,
    TokenManager.validateToolAccess Toy.crypto Examples.local_config
      (Examples.with_tokens "users.read tweet.read" 65001)
      (Examples.env_at 5000 Examples.server_grants) Examples.alice "bookmarks.add"
    = mkOutcome (Examples.with_tokens "users.read tweet.read" 65001) [] (Rejected e)
    /\ AuthError.code e = auth_scope_insufficient
    /\ AuthError.missing_scopes e = Some ["bookmark.write"].
Proof.
  destruct (validateUserTokens_agrees_with_validateToolAccess Toy.crypto Examples.local_config
              (Examples.with_tokens "users.read tweet.read" 65001)
              (Examples.env_at 5000 Examples.server_grants) Examples.alice "bookmarks.add"
              (Examples.stored_tokens "users.read tweet.read" 65001)
              (TokenData.mk "access-1" "refresh-1" 65001 "users.read tweet.read")
              eq_refl eq_refl ltac:(done)) as (_ & Hmissing & _).
  exact (Hmissing ["bookmark.write"] eq_refl).
Defined.

Lemma denied_refresh_forces_reauthentication_witness :
  let out :=
    TokenManager.getValidAccessToken Toy.crypto Examples.local_config
      (Examples.with_tokens "users.read tweet.read" 35000)
      (Examples.env_at 5000 Examples.server_denies) Examples.alice None in
  reauth_required (settled out)
  /\ TokenManager.hasTokens
       (TokenManager.getUserTokenInfo Toy.crypto (db_after out) Examples.alice) = false.
Proof.
  cbn zeta.
  destruct (denied_refresh_forces_reauthentication Toy.crypto Examples.local_config
              (Examples.with_tokens "users.read tweet.read" 35000)
              (Examples.env_at 5000 Examples.server_denies) Examples.alice None
              (Examples.stored_tokens "users.read tweet.read" 35000)
              (TokenData.mk "access-1" "refresh-1" 35000 "users.read tweet.read")
              eq_refl eq_refl eq_refl ltac:(simpl; lia)) as [Hdenied _].
  destruct Hdenied as (Hre & _ & Hinfo & _); [by exists "invalid_grant"|].
  by split.
Defined.

Lemma refreshed_token_is_served_from_the_store_witness :
  let out :=
    TokenManager.getValidAccessToken Toy.crypto Examples.local_config
      (Examples.with_tokens "users.read tweet.read" 35000)
      (Examples.env_at 5000 Examples.server_grants) Examples.alice None in
  TokenManager.getValidAccessToken Toy.crypto Examples.local_config (db_after out)
    (Examples.env_at 6000 Examples.server_denies) Examples.alice (Some ["tweet.read"])
  = mkOutcome (db_after out) [] (Resolved "access-2").
Proof.
  cbn zeta.
  destruct (refreshed_token_is_served_from_the_store Toy.crypto Examples.local_config
              toy_decipher_cipher toy_cipher_nonempty
              (Examples.with_tokens "users.read tweet.read" 35000)
              (Examples.env_at 5000 Examples.server_grants) Examples.alice None "access-2"
              eq_refl eq_refl eq_refl ltac:(done)) as (row & Hrow & _ & _ & Hserved).
  vm_compute in Hrow. injection Hrow as <-. apply Hserved; reflexivity.
Defined.

Lemma storeUserAndTokens_get_or_create_witness :
  exists db' user,
    OAuthManager.storeUserAndTokens Toy.crypto Examples.two_users
      (Examples.flow_env Examples.x_accepts Examples.alice_renamed 1800)
      (XUser.mk (Some "user_123") (Some "alice_new") (Some "Alice J."))
      (ExchangedTokens.mk (Some "access-1") (Some "refresh-1") (Some 7201500)
         (Some "users.read tweet.read"))
    = (db', Returned user)
    /\ User.id user = 1 /\ User.x_username user = "alice_new"
    /\ Db.getUserByXUserId db' "user_123" = Some user
    /\ Db.getUserTokens db' 1
       = Some (UserToken.mk 1 "x" "user_123" "users.read tweet.read"
                 (EncryptionManager.encrypt Toy.crypto Examples.sample_iv "access-1")
                 (EncryptionManager.encrypt Toy.crypto Examples.other_iv "refresh-1")
                 7201500 1700 1700).
Proof.
  pose proof (storeUserAndTokens_get_or_create Toy.crypto Examples.two_users
                (Examples.flow_env Examples.x_accepts Examples.alice_renamed 1800)
                "user_123" "alice_new" "Alice J." "access-1" "refresh-1" 7201500
                "users.read tweet.read" two_users_wf ltac:(simpl; lia) eq_refl) as Hstore.
  cbv zeta in Hstore.
  destruct Hstore as (db' & user & Hst & _ & Hget & Hname & _ & Hid & _ & Htokens & _).
  vm_compute in Hst. injection Hst as <- <-.
  eexists _, _. split; [reflexivity|]. split_and!; [reflexivity|reflexivity|exact Hget|].
  exact Htokens.
Defined.

Lemma handleHostedCallback_completes_the_pairing_witness :
  exists db' user,
    OAuthManager.handleHostedCallback Toy.crypto Examples.hosted_config Examples.pending
      (Examples.flow_env Examples.x_accepts Examples.carol 1800) "auth-code" "state_123"
    = OAuthManager.mkFlowOutcome db'
        [OAuthManager.exchangeRequest Examples.hosted_config "auth-code" "verifier"]
        (Returned (User.id user, "ABCDEFGH"))
    /\ OAuthManager.checkPairingStatus db' 2000 "ABCDEFGH"
       = AuthStatusResponse.mk true (Some (view user)).
Proof.
  destruct (handleHostedCallback_completes_the_pairing Toy.crypto Examples.hosted_config
              Examples.pending (Examples.flow_env Examples.x_accepts Examples.carol 1800)
              "auth-code" "ABCDEFGH" Examples.pending_row
              "access-1" "refresh-1" "users.read tweet.read" 7200 "user_789" "carol" None
              pending_wf ltac:(simpl; lia) eq_refl pending_sole_live_state eq_refl
              ltac:(simpl; lia) eq_refl eq_refl)
    as (db' & user & Hout & _ & _ & Hstatus & _).
  exists db', user. split; [exact Hout|]. apply Hstatus. simpl. lia.
Defined.

Lemma handleHostedCallback_succeeds_without_completing_witness :
  exists db' user,
    OAuthManager.handleHostedCallback Toy.crypto Examples.hosted_config Examples.pending
      (Examples.flow_env Examples.x_accepts Examples.carol 600000) "auth-code" "state_123"
    = OAuthManager.mkFlowOutcome db'
        [OAuthManager.exchangeRequest Examples.hosted_config "auth-code" "verifier"]
        (Returned (User.id user, "ABCDEFGH"))
    /\ OAuthManager.checkPairingStatus db' 2000 "ABCDEFGH"
       = AuthStatusResponse.mk false None.
Proof.
  destruct (handleHostedCallback_succeeds_without_completing Toy.crypto Examples.hosted_config
              Examples.pending (Examples.flow_env Examples.x_accepts Examples.carol 600000)
              "auth-code" "ABCDEFGH" Examples.pending_row
              "access-1" "refresh-1" "users.read tweet.read" 7200 "user_789" "carol" None
              pending_wf ltac:(simpl; lia) eq_refl pending_sole_live_state eq_refl eq_refl
              ltac:(simpl; lia) eq_refl eq_refl)
    as (db' & user & Hout & _ & _ & Hstatus).
  exists db', user. split; [exact Hout|apply Hstatus].
Defined.

Lemma handleHostedCallback_failures_leave_the_store_witness :
  let out :=
    OAuthManager.handleHostedCallback Toy.crypto Examples.hosted_config Examples.pending
      (Examples.flow_env Examples.x_accepts_once Examples.carol 1800) "auth-code"
      "state_123" in
  OAuthManager.flow_result out = Thrown EncryptionFailed
  /\ Db.getUserById (OAuthManager.flow_db out) 3
     = Some (User.mk 3 1600 "carol" "user_789" "carol")
  /\ Db.getUserTokens (OAuthManager.flow_db out) 3 = None
  /\ OAuthManager.checkPairingStatus (OAuthManager.flow_db out) 2000 "ABCDEFGH"
     = AuthStatusResponse.mk false None.
Proof.
  cbn zeta.
  destruct (handleHostedCallback_failures_leave_the_store Toy.crypto Examples.hosted_config
              Examples.pending
              (Examples.flow_env Examples.x_accepts_once Examples.carol 1800) "auth-code"
              "state_123") as (Hkeeps & _ & _ & _ & Hrow).
  destruct (Hrow Examples.pending_row "access-1" (Some 7200) (Some "users.read tweet.read")
              "user_789" "carol" None
              (select_sole_live_state _ _ _ _ pending_sole_live_state)
              eq_refl eq_refl eq_refl eq_refl) as (Hres & _ & Husers).
  destruct (Hkeeps _ Hres) as (Htokens & _ & Hpairing).
  split_and!.
  - exact Hres.
  - unfold Db.getUserById. rewrite Husers. reflexivity.
  - unfold Db.getUserTokens. rewrite Htokens. reflexivity.
  - unfold OAuthManager.checkPairingStatus, Db.getPairingSession. rewrite Hpairing.
    reflexivity.
Defined.
